(** * Trade_Flow_BybitAPI: order-flow trackers

    A shallow embedding of the two [OrderFlowTracker] classes of the
    repository,

    - [OrderF_HAFlags.py]: Heikin-Ashi recurrence, windowed buffer drain,
      aggression ratio / BBO imbalance and the streak / cooldown /
      consolidation-watch alert logic (module [HAFlags] below);
    - [trade_exhaust2.py]: per-candle volume delta and the cumulative volume
      delta with its bounded history (module [Exhaust] below).

    Modelling conventions.

    - Python [float]s are idealised as rationals ([Q]): every arithmetic
      operation and comparison is exact, there is no NaN and no infinity.
    - Python [int]s are [Z].
    - A field of an incoming JSON message is a [pyval]; [int(...)] and
      [float(...)] are the partial functions [py_int] and [py_float].  How a
      string parses, and the square root used by [statistics.stdev], are
      taken from a [PyRuntime]; the development is generic in it and
      [decimal_runtime] is one concrete choice used to run examples.
    - A method of the class is a computation in the monad [M]: it threads
      the object ([self]), collects the [logging] calls it makes and either
      returns or raises.  As in Python, whatever was assigned before an
      exception is raised stays assigned.
    - The websocket handles, the locks and the depth-50 order book
      ([live_bids], [live_asks], [handle_depth_book_message]) are left out:
      no other method reads them.  A handler invocation is one atomic step.
    - The formatted UTC string of a candle is represented by the candle's
      start time in milliseconds. *)

From Stdlib Require Import ZArith QArith Qround Qabs List String Ascii Bool.
From Stdlib Require Import Lia Lqa.
Import ListNotations.

Open Scope Z_scope.

(** ** Python values *)

Inductive pyval : Type :=
| PNone
| PInt (z : Z)
| PFloat (q : Q)
| PStr (s : string).

(** What the interpreter supplies: the parsers behind [int(str)] and
    [float(str)], and [math.sqrt]. *)
Class PyRuntime : Type := {
  str_to_int : string -> option Z;
  str_to_float : string -> option Q;
  py_sqrt : Q -> Q
}.

Definition Qlt_bool (x y : Q) : bool := negb (Qle_bool y x).

(** [int(x)] truncates a float towards zero. *)
Definition Qtrunc (q : Q) : Z :=
  if Qle_bool 0 q then Qfloor q else Qceiling q.

(** [int(x)]: [None] stands for a raised [TypeError] / [ValueError]. *)
Definition py_int `{PyRuntime} (x : pyval) : option Z :=
  match x with
  | PNone => None
  | PInt z => Some z
  | PFloat q => Some (Qtrunc q)
  | PStr s => str_to_int s
  end.

(** [float(x)]. *)
Definition py_float `{PyRuntime} (x : pyval) : option Q :=
  match x with
  | PNone => None
  | PInt z => Some (inject_Z z)
  | PFloat q => Some q
  | PStr s => str_to_float s
  end.

(** [x == y]; numbers compare by value, across [int] and [float]. *)
Definition py_eqb (x y : pyval) : bool :=
  match x, y with
  | PNone, PNone => true
  | PInt a, PInt b => Z.eqb a b
  | PInt a, PFloat b => Qeq_bool (inject_Z a) b
  | PFloat a, PInt b => Qeq_bool a (inject_Z b)
  | PFloat a, PFloat b => Qeq_bool a b
  | PStr a, PStr b => String.eqb a b
  | _, _ => false
  end.

(** [sum(xs)]: starts from [0] and adds from the left. *)
Definition py_sum (xs : list Q) : Q := fold_left Qplus xs 0%Q.

(** [statistics.mean(xs)] for a non-empty [xs]. *)
Definition mean (xs : list Q) : Q :=
  (py_sum xs / inject_Z (Z.of_nat (List.length xs)))%Q.

(** [statistics.stdev(xs)] for [len(xs) >= 2]: the square root of the
    sample variance. *)
Definition variance (xs : list Q) : Q :=
  let m := mean xs in
  (py_sum (map (fun x => (x - m) * (x - m)) xs)
     / inject_Z (Z.of_nat (List.length xs) - 1))%Q.

Definition stdev `{PyRuntime} (xs : list Q) : Q := py_sqrt (variance xs).

(** Nearest integer, ties to the even one. *)
Definition round_half_even (q : Q) : Z :=
  let f := Qfloor q in
  match ((q - inject_Z f) ?= (1 # 2))%Q with
  | Lt => f
  | Gt => f + 1
  | Eq => if Z.even f then f else f + 1
  end.

(** [round(x, ndigits)]. *)
Definition py_round (x : Q) (ndigits : nat) : Q :=
  let scale := inject_Z (10 ^ Z.of_nat ndigits) in
  (inject_Z (round_half_even (x * scale)) / scale)%Q.

(** ** Incoming messages *)

(** One element of a [publicTrade] message: [t['T']], [t['S']], [t['v']]. *)
Record Trade : Type := {
  t_T : pyval;
  t_S : string;
  t_v : pyval
}.

(** One element of a [kline] message. *)
Record Candle : Type := {
  c_start : pyval;
  c_end : pyval;
  c_open : pyval;
  c_high : pyval;
  c_low : pyval;
  c_close : pyval;
  c_confirm : bool
}.

(** An [orderbook.1] message: [data['b']], [data['a']] as lists of
    (price, size) levels, and [ts]. *)
Record BboMessage : Type := {
  m_b : list (pyval * pyval);
  m_a : list (pyval * pyval);
  m_ts : pyval
}.

(** ** Methods as computations *)

Inductive outcome (A : Type) : Type :=
| Returned (a : A)
| Raised.
Arguments Returned {A} a.
Arguments Raised {A}.

(** A method body: from the object before the call to the object after it,
    the log records emitted, and the outcome. *)
Definition M (St L A : Type) : Type := St -> St * list L * outcome A.

Definition ret {St L A} (a : A) : M St L A :=
  fun self => (self, [], Returned a).

Definition raise {St L A} : M St L A :=
  fun self => (self, [], Raised).

Definition bind {St L A B} (m : M St L A) (k : A -> M St L B) : M St L B :=
  fun self =>
    match m self with
    | (self1, l1, Returned a) =>
        match k a self1 with
        | (self2, l2, r) => (self2, l1 ++ l2, r)
        end
    | (self1, l1, Raised) => (self1, l1, Raised)
    end.

Definition get {St L} : M St L St :=
  fun self => (self, [], Returned self).

Definition modify {St L} (f : St -> St) : M St L unit :=
  fun self => (f self, [], Returned tt).

Definition log {St L} (e : L) : M St L unit :=
  fun self => (self, [e], Returned tt).

(** A conversion that may raise. *)
Definition try_ {St L A} (o : option A) : M St L A :=
  match o with
  | Some a => ret a
  | None => raise
  end.

(** [try: body except Exception: handler]. *)
Definition try_except {St L A} (body : M St L A) (handler : M St L A)
  : M St L A :=
  fun self =>
    match body self with
    | (self1, l1, Returned a) => (self1, l1, Returned a)
    | (self1, l1, Raised) =>
        match handler self1 with
        | (self2, l2, r) => (self2, l1 ++ l2, r)
        end
    end.

Declare Scope py_scope.
Delimit Scope py_scope with py.
Notation "x <- m ;; k" := (bind m (fun x => k))
  (at level 100, m at next level, right associativity) : py_scope.
Notation "m ;; k" := (bind m (fun _ => k))
  (at level 100, right associativity) : py_scope.

Definition state_of {St L A} (r : St * list L * outcome A) : St :=
  fst (fst r).
Definition logs_of {St L A} (r : St * list L * outcome A) : list L :=
  snd (fst r).
Definition outcome_of {St L A} (r : St * list L * outcome A) : outcome A :=
  snd r.

(** ** Window extraction

    [[t for t in buffer if p(int(t['T']))]]: the timestamp of every buffered
    trade is converted, in order; the comprehension raises at the first one
    that does not convert. *)
Fixpoint filter_by_T `{PyRuntime} (p : Z -> bool) (buffer : list Trade)
  : option (list Trade) :=
  match buffer with
  | [] => Some []
  | t :: rest =>
      match py_int (t_T t) with
      | None => None
      | Some ts =>
          match filter_by_T p rest with
          | None => None
          | Some kept => Some (if p ts then t :: kept else kept)
          end
      end
  end.

(** [start <= x <= end]. *)
Definition in_window (start_ms end_ms x : Z) : bool :=
  (start_ms <=? x) && (x <=? end_ms).

(** [x > end]. *)
Definition after_window (end_ms x : Z) : bool := end_ms <? x.

(** ** [OrderF_HAFlags.py] *)

Module HAFlags.

Definition GREEN_ZONE_THRESHOLD : Q := 0.55.
Definition RED_ZONE_THRESHOLD : Q := 0.35.
Definition CONSOLIDATION_WATCH_PERIOD : Z := 3.
Definition ALERT_COOLDOWN_PERIOD : Z := 5.

Inductive Color : Type := Green | Red.

Definition Color_eqb (a b : Color) : bool :=
  match a, b with
  | Green, Green | Red, Red => true
  | _, _ => false
  end.

(** The dictionary [output_data] built for every processed candle. *)
Record CandleRecord : Type := {
  utc : Z;
  close_price : Q;
  HA_open : Q;
  HA_close : Q;
  HA_color : Color;
  agg_ratio : Q;
  avg_bbo_imba : Q
}.

(** An entry of [bbo_buffer]: [{"ts": ..., "imbalance": ...}]. *)
Record BboUpdate : Type := {
  ts : Z;
  imbalance : Q
}.

(** The calls to [logging] made by the class. *)
Inductive LogEvent : Type :=
| InfoRecord (r : CandleRecord)
| WarnStrictEntry (at_utc : Z)
| InfoStrictFailed
| WarnConsolidationEntry (at_utc : Z)
| InfoWatchEnded
| ErrorBbo (m : BboMessage).

Record OrderFlowTracker : Type := {
  trade_buffer : list Trade;
  bbo_buffer : list BboUpdate;
  last_kline_start_time : pyval;
  last_ha_open : option Q;
  last_ha_close : option Q;
  ha_green_streak : Z;
  consolidation_watch_countdown : Z;
  alert_cooldown : Z;
  last_candle_data : option CandleRecord
}.

(** [OrderFlowTracker.__init__]. *)
Definition init : OrderFlowTracker := {|
  trade_buffer := [];
  bbo_buffer := [];
  last_kline_start_time := PNone;
  last_ha_open := None;
  last_ha_close := None;
  ha_green_streak := 0;
  consolidation_watch_countdown := 0;
  alert_cooldown := 0;
  last_candle_data := None
|}.

(** Attribute assignment, [self.x = v]. *)
Definition set_trade_buffer (v : list Trade) (self : OrderFlowTracker) :=
  {| trade_buffer := v;
     bbo_buffer := bbo_buffer self;
     last_kline_start_time := last_kline_start_time self;
     last_ha_open := last_ha_open self;
     last_ha_close := last_ha_close self;
     ha_green_streak := ha_green_streak self;
     consolidation_watch_countdown := consolidation_watch_countdown self;
     alert_cooldown := alert_cooldown self;
     last_candle_data := last_candle_data self |}.

Definition set_bbo_buffer (v : list BboUpdate) (self : OrderFlowTracker) :=
  {| trade_buffer := trade_buffer self;
     bbo_buffer := v;
     last_kline_start_time := last_kline_start_time self;
     last_ha_open := last_ha_open self;
     last_ha_close := last_ha_close self;
     ha_green_streak := ha_green_streak self;
     consolidation_watch_countdown := consolidation_watch_countdown self;
     alert_cooldown := alert_cooldown self;
     last_candle_data := last_candle_data self |}.

Definition set_last_kline_start_time (v : pyval) (self : OrderFlowTracker) :=
  {| trade_buffer := trade_buffer self;
     bbo_buffer := bbo_buffer self;
     last_kline_start_time := v;
     last_ha_open := last_ha_open self;
     last_ha_close := last_ha_close self;
     ha_green_streak := ha_green_streak self;
     consolidation_watch_countdown := consolidation_watch_countdown self;
     alert_cooldown := alert_cooldown self;
     last_candle_data := last_candle_data self |}.

Definition set_last_ha_open (v : option Q) (self : OrderFlowTracker) :=
  {| trade_buffer := trade_buffer self;
     bbo_buffer := bbo_buffer self;
     last_kline_start_time := last_kline_start_time self;
     last_ha_open := v;
     last_ha_close := last_ha_close self;
     ha_green_streak := ha_green_streak self;
     consolidation_watch_countdown := consolidation_watch_countdown self;
     alert_cooldown := alert_cooldown self;
     last_candle_data := last_candle_data self |}.

Definition set_last_ha_close (v : option Q) (self : OrderFlowTracker) :=
  {| trade_buffer := trade_buffer self;
     bbo_buffer := bbo_buffer self;
     last_kline_start_time := last_kline_start_time self;
     last_ha_open := last_ha_open self;
     last_ha_close := v;
     ha_green_streak := ha_green_streak self;
     consolidation_watch_countdown := consolidation_watch_countdown self;
     alert_cooldown := alert_cooldown self;
     last_candle_data := last_candle_data self |}.

Definition set_ha_green_streak (v : Z) (self : OrderFlowTracker) :=
  {| trade_buffer := trade_buffer self;
     bbo_buffer := bbo_buffer self;
     last_kline_start_time := last_kline_start_time self;
     last_ha_open := last_ha_open self;
     last_ha_close := last_ha_close self;
     ha_green_streak := v;
     consolidation_watch_countdown := consolidation_watch_countdown self;
     alert_cooldown := alert_cooldown self;
     last_candle_data := last_candle_data self |}.

Definition set_consolidation_watch_countdown (v : Z)
  (self : OrderFlowTracker) :=
  {| trade_buffer := trade_buffer self;
     bbo_buffer := bbo_buffer self;
     last_kline_start_time := last_kline_start_time self;
     last_ha_open := last_ha_open self;
     last_ha_close := last_ha_close self;
     ha_green_streak := ha_green_streak self;
     consolidation_watch_countdown := v;
     alert_cooldown := alert_cooldown self;
     last_candle_data := last_candle_data self |}.

Definition set_alert_cooldown (v : Z) (self : OrderFlowTracker) :=
  {| trade_buffer := trade_buffer self;
     bbo_buffer := bbo_buffer self;
     last_kline_start_time := last_kline_start_time self;
     last_ha_open := last_ha_open self;
     last_ha_close := last_ha_close self;
     ha_green_streak := ha_green_streak self;
     consolidation_watch_countdown := consolidation_watch_countdown self;
     alert_cooldown := v;
     last_candle_data := last_candle_data self |}.

Definition set_last_candle_data (v : option CandleRecord)
  (self : OrderFlowTracker) :=
  {| trade_buffer := trade_buffer self;
     bbo_buffer := bbo_buffer self;
     last_kline_start_time := last_kline_start_time self;
     last_ha_open := last_ha_open self;
     last_ha_close := last_ha_close self;
     ha_green_streak := ha_green_streak self;
     consolidation_watch_countdown := consolidation_watch_countdown self;
     alert_cooldown := alert_cooldown self;
     last_candle_data := v |}.

Definition Py := M OrderFlowTracker LogEvent.

Local Open Scope py_scope.

(** Step 4 of [_check_entry_conditions]: the comparison with the previous
    candle's close is evaluated, and its branch is [pass]. *)
Definition price_pulled_back (self : OrderFlowTracker)
  (current_data : CandleRecord) : bool :=
  match last_candle_data self with
  | Some last => Qlt_bool (close_price current_data) (close_price last)
  | None => false
  end.

Definition _check_entry_conditions (self : OrderFlowTracker)
  (current_data : CandleRecord) : bool :=
  if negb (Color_eqb (HA_color current_data) Green) then false
  else
    let agg_ratio := agg_ratio current_data in
    let avg_bbo_imba := avg_bbo_imba current_data in
    if Qlt_bool agg_ratio RED_ZONE_THRESHOLD
       || Qlt_bool avg_bbo_imba RED_ZONE_THRESHOLD then false
    else if Qlt_bool agg_ratio GREEN_ZONE_THRESHOLD
            && Qlt_bool avg_bbo_imba GREEN_ZONE_THRESHOLD then false
    else if price_pulled_back self current_data then true
    else true.

Definition _run_trade_setup_logic (current_data : CandleRecord) : Py unit :=
  self <- get ;;
  (if 0 <? alert_cooldown self
   then modify (fun self => set_alert_cooldown (alert_cooldown self - 1) self)
   else ret tt) ;;
  (if Color_eqb (HA_color current_data) Green
   then modify (fun self =>
                  set_ha_green_streak (ha_green_streak self + 1) self)
   else (modify (set_ha_green_streak 0) ;;
         modify (set_consolidation_watch_countdown 0))) ;;
  self <- get ;;
  if 0 <? alert_cooldown self then ret tt
  else if ha_green_streak self =? 4 then
    if _check_entry_conditions self current_data then
      log (WarnStrictEntry (utc current_data)) ;;
      modify (set_alert_cooldown ALERT_COOLDOWN_PERIOD) ;;
      modify (set_consolidation_watch_countdown 0)
    else
      log InfoStrictFailed ;;
      modify (set_consolidation_watch_countdown CONSOLIDATION_WATCH_PERIOD)
  else if 0 <? consolidation_watch_countdown self then
    if _check_entry_conditions self current_data then
      log (WarnConsolidationEntry (utc current_data)) ;;
      modify (set_alert_cooldown ALERT_COOLDOWN_PERIOD) ;;
      modify (set_consolidation_watch_countdown 0)
    else
      modify (fun self =>
                set_consolidation_watch_countdown
                  (consolidation_watch_countdown self - 1) self) ;;
      self <- get ;;
      if consolidation_watch_countdown self =? 0
      then log InfoWatchEnded
      else ret tt
  else ret tt.

Section WithRuntime.
Context `{PyRuntime}.

(** [[float(t['v']) for t in trades if t['S'] == side]], raising at the
    first selected trade whose volume does not convert. *)
Fixpoint volumes_of (side : string) (trades : list Trade)
  : option (list Q) :=
  match trades with
  | [] => Some []
  | t :: rest =>
      if String.eqb (t_S t) side then
        match py_float (t_v t) with
        | None => None
        | Some x =>
            match volumes_of side rest with
            | None => None
            | Some xs => Some (x :: xs)
            end
        end
      else volumes_of side rest
  end.

(** The Heikin-Ashi values of a candle, at full precision. *)
Definition ha_close_of (open_price high_price low_price close_price : Q)
  : Q :=
  ((open_price + high_price + low_price + close_price) / 4)%Q.

Definition ha_open_of (self : OrderFlowTracker) (open_price close_price : Q)
  : option Q :=
  match last_ha_open self with
  | None => Some ((open_price + close_price) / 2)%Q
  | Some last_open =>
      match last_ha_close self with
      | Some last_close => Some ((last_open + last_close) / 2)%Q
      | None => None
      end
  end.

Definition ha_color_of (ha_open ha_close : Q) : Color :=
  if Qlt_bool ha_open ha_close then Green else Red.

(** The order-flow metrics of a window, at full precision. *)
Definition agg_ratio_of (buy_volume sell_volume : Q) : Q :=
  let total_volume := (buy_volume + sell_volume)%Q in
  if Qlt_bool 0 total_volume then (buy_volume / total_volume)%Q else 0.5%Q.

Definition avg_bbo_imba_of (relevant_bbo_updates : list BboUpdate) : Q :=
  match relevant_bbo_updates with
  | [] => 0.5%Q
  | _ => mean (map imbalance relevant_bbo_updates)
  end.

Definition process_candle_data (candle : Candle) : Py unit :=
  candle_start_ms <- try_ (py_int (c_start candle)) ;;
  candle_end_ms <- try_ (py_int (c_end candle)) ;;
  open_price <- try_ (py_float (c_open candle)) ;;
  high_price <- try_ (py_float (c_high candle)) ;;
  low_price <- try_ (py_float (c_low candle)) ;;
  close_price <- try_ (py_float (c_close candle)) ;;
  let ha_close := ha_close_of open_price high_price low_price close_price in
  self <- get ;;
  ha_open <- try_ (ha_open_of self open_price close_price) ;;
  let ha_color := ha_color_of ha_open ha_close in
  modify (set_last_ha_open (Some ha_open)) ;;
  modify (set_last_ha_close (Some ha_close)) ;;
  self <- get ;;
  relevant_trades <-
    try_ (filter_by_T (in_window candle_start_ms candle_end_ms)
            (trade_buffer self)) ;;
  remaining_trades <-
    try_ (filter_by_T (after_window candle_end_ms) (trade_buffer self)) ;;
  modify (set_trade_buffer remaining_trades) ;;
  self <- get ;;
  let relevant_bbo_updates :=
    filter (fun b => in_window candle_start_ms candle_end_ms (ts b))
      (bbo_buffer self) in
  modify (set_bbo_buffer
            (filter (fun b => after_window candle_end_ms (ts b))
               (bbo_buffer self))) ;;
  buys <- try_ (volumes_of "Buy" relevant_trades) ;;
  let buy_volume := py_sum buys in
  sells <- try_ (volumes_of "Sell" relevant_trades) ;;
  let sell_volume := py_sum sells in
  let agg_ratio := agg_ratio_of buy_volume sell_volume in
  let avg_bbo_imba := avg_bbo_imba_of relevant_bbo_updates in
  let output_data := {|
    utc := candle_start_ms;
    close_price := close_price;
    HA_open := py_round ha_open 5;
    HA_close := py_round ha_close 5;
    HA_color := ha_color;
    agg_ratio := py_round agg_ratio 4;
    avg_bbo_imba := py_round avg_bbo_imba 4
  |} in
  log (InfoRecord output_data) ;;
  _run_trade_setup_logic output_data ;;
  modify (set_last_candle_data (Some output_data)).

Definition handle_trade_message (data : list Trade) : Py unit :=
  modify (fun self => set_trade_buffer (trade_buffer self ++ data) self).

Definition handle_bbo_message (message : BboMessage) : Py unit :=
  try_except
    (match m_b message, m_a message with
     | [], _ | _, [] => ret tt
     | bid :: _, ask :: _ =>
         bid_size <- try_ (py_float (snd bid)) ;;
         ask_size <- try_ (py_float (snd ask)) ;;
         let total_size := (bid_size + ask_size)%Q in
         let imbalance :=
           if Qlt_bool 0 total_size then (bid_size / total_size)%Q
           else 0.5%Q in
         ts <- try_ (py_int (m_ts message)) ;;
         modify (fun self =>
                   set_bbo_buffer
                     (bbo_buffer self
                        ++ [{| ts := ts; imbalance := imbalance |}]) self)
     end)
    (log (ErrorBbo message)).

(** [message.get("data", [])[0]] raises on an empty list. *)
Definition handle_kline_message (data : list Candle) : Py unit :=
  match data with
  | [] => raise
  | candle :: _ =>
      self <- get ;;
      if c_confirm candle
         && negb (py_eqb (last_kline_start_time self) (c_start candle))
      then
        modify (set_last_kline_start_time (c_start candle)) ;;
        process_candle_data candle
      else ret tt
  end.

End WithRuntime.

(** A message delivered to one of the three callbacks of the main
    websocket. *)
Inductive Message : Type :=
| TradeMessage (data : list Trade)
| BboMsg (message : BboMessage)
| KlineMessage (data : list Candle).

Definition handle `{PyRuntime} (m : Message) : Py unit :=
  match m with
  | TradeMessage data => handle_trade_message data
  | BboMsg message => handle_bbo_message message
  | KlineMessage data => handle_kline_message data
  end.

(** An alert is a [logging.warning] call. *)
Definition is_alert (e : LogEvent) : bool :=
  match e with
  | WarnStrictEntry _ | WarnConsolidationEntry _ => true
  | _ => false
  end.

Definition alerts (l : list LogEvent) : list LogEvent := filter is_alert l.

End HAFlags.

(** ** [trade_exhaust2.py] *)

Module Exhaust.

(** The dictionary [output] logged for every processed candle. *)
Record Output : Type := {
  timestamp_utc : Z;
  close_price : Q;
  buy_volume : Q;
  sell_volume : Q;
  total_volume : Q;
  delta : Q;
  agg_ratio : Q;
  cumulative_volume_delta_out : Q;
  cvd_zscore_ratio : Q
}.

Record OrderFlowTracker : Type := {
  trade_buffer : list Trade;
  cumulative_volume_delta : Q;
  cvd_history : list Q;
  cvd_zscore_period : nat;
  last_kline_start_time : pyval
}.

(** [OrderFlowTracker.__init__(symbol, cvd_zscore_period)]. *)
Definition init (cvd_zscore_period : nat) : OrderFlowTracker := {|
  trade_buffer := [];
  cumulative_volume_delta := 0.0;
  cvd_history := [];
  cvd_zscore_period := cvd_zscore_period;
  last_kline_start_time := PNone
|}.

Definition set_trade_buffer (v : list Trade) (self : OrderFlowTracker) :=
  {| trade_buffer := v;
     cumulative_volume_delta := cumulative_volume_delta self;
     cvd_history := cvd_history self;
     cvd_zscore_period := cvd_zscore_period self;
     last_kline_start_time := last_kline_start_time self |}.

Definition set_cumulative_volume_delta (v : Q) (self : OrderFlowTracker) :=
  {| trade_buffer := trade_buffer self;
     cumulative_volume_delta := v;
     cvd_history := cvd_history self;
     cvd_zscore_period := cvd_zscore_period self;
     last_kline_start_time := last_kline_start_time self |}.

Definition set_cvd_history (v : list Q) (self : OrderFlowTracker) :=
  {| trade_buffer := trade_buffer self;
     cumulative_volume_delta := cumulative_volume_delta self;
     cvd_history := v;
     cvd_zscore_period := cvd_zscore_period self;
     last_kline_start_time := last_kline_start_time self |}.

Definition set_last_kline_start_time (v : pyval) (self : OrderFlowTracker) :=
  {| trade_buffer := trade_buffer self;
     cumulative_volume_delta := cumulative_volume_delta self;
     cvd_history := cvd_history self;
     cvd_zscore_period := cvd_zscore_period self;
     last_kline_start_time := v |}.

(** [deque(maxlen=n).append(x)]: the oldest entries leave on the left. *)
Definition deque_append (maxlen : nat) (d : list Q) (x : Q) : list Q :=
  let d' := d ++ [x] in
  skipn (List.length d' - maxlen) d'.

Definition Py := M OrderFlowTracker Output.

Local Open Scope py_scope.

Section WithRuntime.
Context `{PyRuntime}.

(** The loop over [relevant_trades]: the volume of every trade is
    converted, whatever its side. *)
Fixpoint aggregate_volumes (trades : list Trade) (buy_volume sell_volume : Q)
  : option (Q * Q) :=
  match trades with
  | [] => Some (buy_volume, sell_volume)
  | trade :: rest =>
      match py_float (t_v trade) with
      | None => None
      | Some volume =>
          if String.eqb (t_S trade) "Buy"
          then aggregate_volumes rest (buy_volume + volume)%Q sell_volume
          else if String.eqb (t_S trade) "Sell"
          then aggregate_volumes rest buy_volume (sell_volume + volume)%Q
          else aggregate_volumes rest buy_volume sell_volume
      end
  end.

(** Step 5: the z-score of the current cumulative delta in the history. *)
Definition cvd_zscore_of (self : OrderFlowTracker) : Q :=
  if (1 <? List.length (cvd_history self))%nat then
    let mean_cvd := mean (cvd_history self) in
    let stdev_cvd := stdev (cvd_history self) in
    if Qlt_bool 0 stdev_cvd
    then ((cumulative_volume_delta self - mean_cvd) / stdev_cvd)%Q
    else 0.0%Q
  else 0.0%Q.

(** [volume_delta] of a candle, at full precision: steps 1 and 2, as a
    function of the buffer. *)
Definition volume_delta_of (self : OrderFlowTracker) (candle : Candle)
  : option Q :=
  match py_int (c_start candle), py_int (c_end candle) with
  | Some candle_start_ms, Some candle_end_ms =>
      match filter_by_T (in_window candle_start_ms candle_end_ms)
              (trade_buffer self) with
      | Some relevant_trades =>
          match aggregate_volumes relevant_trades 0.0 0.0 with
          | Some (buy_volume, sell_volume) =>
              Some (buy_volume - sell_volume)%Q
          | None => None
          end
      | None => None
      end
  | _, _ => None
  end.

Definition process_candle_data (candle : Candle) : Py unit :=
  candle_start_ms <- try_ (py_int (c_start candle)) ;;
  candle_end_ms <- try_ (py_int (c_end candle)) ;;
  candle_close_price <- try_ (py_float (c_close candle)) ;;
  self <- get ;;
  relevant_trades <-
    try_ (filter_by_T (in_window candle_start_ms candle_end_ms)
            (trade_buffer self)) ;;
  volumes <- try_ (aggregate_volumes relevant_trades 0.0 0.0) ;;
  let buy_volume := fst volumes in
  let sell_volume := snd volumes in
  let volume_delta := (buy_volume - sell_volume)%Q in
  let total_volume := (buy_volume + sell_volume)%Q in
  let agg_ratio :=
    if Qlt_bool 0 total_volume then (buy_volume / total_volume)%Q
    else 0.5%Q in
  modify (fun self =>
            set_cumulative_volume_delta
              (cumulative_volume_delta self + volume_delta)%Q self) ;;
  modify (fun self =>
            set_cvd_history
              (deque_append (cvd_zscore_period self) (cvd_history self)
                 (cumulative_volume_delta self)) self) ;;
  self <- get ;;
  let cvd_zscore_ratio := cvd_zscore_of self in
  let output := {|
    timestamp_utc := candle_start_ms;
    close_price := candle_close_price;
    buy_volume := py_round buy_volume 4;
    sell_volume := py_round sell_volume 4;
    total_volume := py_round total_volume 4;
    delta := py_round volume_delta 4;
    agg_ratio := py_round agg_ratio 4;
    cumulative_volume_delta_out := py_round (cumulative_volume_delta self) 4;
    cvd_zscore_ratio := py_round cvd_zscore_ratio 4
  |} in
  log output ;;
  remaining_trades <-
    try_ (filter_by_T (after_window candle_end_ms) (trade_buffer self)) ;;
  modify (set_trade_buffer remaining_trades).

Definition handle_trade_message (data : list Trade) : Py unit :=
  modify (fun self => set_trade_buffer (trade_buffer self ++ data) self).

Definition handle_kline_message (kline_data_list : list Candle) : Py unit :=
  match kline_data_list with
  | [] => ret tt
  | candle :: _ =>
      if c_confirm candle then
        self <- get ;;
        if negb (py_eqb (last_kline_start_time self) (c_start candle)) then
          modify (set_last_kline_start_time (c_start candle)) ;;
          process_candle_data candle
        else ret tt
      else ret tt
  end.

End WithRuntime.

Inductive Message : Type :=
| TradeMessage (data : list Trade)
| KlineMessage (kline_data_list : list Candle).

Definition handle `{PyRuntime} (m : Message) : Py unit :=
  match m with
  | TradeMessage data => handle_trade_message data
  | KlineMessage l => handle_kline_message l
  end.

End Exhaust.

(** ** Running a tracker on a stream of messages

    The callbacks are invoked message by message on the same object.  A
    callback that raises leaves the object as it is at that point. *)

Fixpoint HAFlags_run `{PyRuntime} (ms : list HAFlags.Message)
  (self : HAFlags.OrderFlowTracker)
  : HAFlags.OrderFlowTracker * list HAFlags.LogEvent :=
  match ms with
  | [] => (self, [])
  | m :: rest =>
      let r := HAFlags.handle m self in
      let r' := HAFlags_run rest (state_of r) in
      (fst r', logs_of r ++ snd r')
  end.

Fixpoint Exhaust_run `{PyRuntime} (ms : list Exhaust.Message)
  (self : Exhaust.OrderFlowTracker)
  : Exhaust.OrderFlowTracker * list Exhaust.Output :=
  match ms with
  | [] => (self, [])
  | m :: rest =>
      let r := Exhaust.handle m self in
      let r' := Exhaust_run rest (state_of r) in
      (fst r', logs_of r ++ snd r')
  end.

(** The setup logic alone, candle record after candle record, as
    [process_candle_data] calls it: the record becomes [last_candle_data]
    afterwards.  The result lists the log of each call. *)
Fixpoint setup_run (records : list HAFlags.CandleRecord)
  (self : HAFlags.OrderFlowTracker)
  : HAFlags.OrderFlowTracker * list (list HAFlags.LogEvent) :=
  match records with
  | [] => (self, [])
  | current_data :: rest =>
      let r := HAFlags._run_trade_setup_logic current_data self in
      let r' :=
        setup_run rest
          (HAFlags.set_last_candle_data (Some current_data) (state_of r)) in
      (fst r', logs_of r :: snd r')
  end.

(** ** A concrete runtime

    Strings are read as plain decimal literals: an optional sign, digits,
    and for [float] an optional fractional part.  The square root is taken
    on twelve decimal places. *)

Definition digit_of (c : ascii) : option Z :=
  let n := nat_of_ascii c in
  if ((48 <=? n) && (n <=? 57))%nat then Some (Z.of_nat (n - 48)) else None.

Fixpoint digits_acc (s : string) (acc : Z) : option Z :=
  match s with
  | EmptyString => Some acc
  | String c rest =>
      match digit_of c with
      | Some d => digits_acc rest (10 * acc + d)
      | None => None
      end
  end.

Definition unsigned_of_string (s : string) : option Z :=
  match s with
  | EmptyString => None
  | _ => digits_acc s 0
  end.

Fixpoint split_dot (s : string) : string * option string :=
  match s with
  | EmptyString => (EmptyString, None)
  | String c rest =>
      if Ascii.eqb c "." then (EmptyString, Some rest)
      else let (a, b) := split_dot rest in (String c a, b)
  end.

Definition unsigned_decimal_of_string (s : string) : option Q :=
  match split_dot s with
  | (i, None) => option_map inject_Z (unsigned_of_string i)
  | (EmptyString, Some EmptyString) => None
  | (i, Some f) =>
      match digits_acc i 0, digits_acc f 0 with
      | Some a, Some b =>
          let scale := 10 ^ Z.of_nat (String.length f) in
          Some (Qmake (a * scale + b) (Z.to_pos scale))
      | _, _ => None
      end
  end.

Definition signed {A} (neg : A -> A) (parse : string -> option A)
  (s : string) : option A :=
  match s with
  | String "-" rest => option_map neg (parse rest)
  | String "+" rest => parse rest
  | _ => parse s
  end.

Definition decimal_sqrt (q : Q) : Q :=
  let scale := 10 ^ 12 in
  Qmake (Z.sqrt (Qfloor (q * inject_Z (scale * scale)))) (Z.to_pos scale).

Definition decimal_runtime : PyRuntime := {|
  str_to_int := signed Z.opp unsigned_of_string;
  str_to_float := signed Qopp unsigned_decimal_of_string;
  py_sqrt := decimal_sqrt
|}.

(** ** Predicates used in the statements *)

(** The three counters of the setup logic are within their periods. *)
Definition counters_ok (self : HAFlags.OrderFlowTracker) : Prop :=
  0 <= HAFlags.alert_cooldown self <= HAFlags.ALERT_COOLDOWN_PERIOD
  /\ 0 <= HAFlags.consolidation_watch_countdown self
          <= HAFlags.CONSOLIDATION_WATCH_PERIOD
  /\ 0 <= HAFlags.ha_green_streak self.

(** The part of the object owned by the setup logic. *)
Definition same_setup (a b : HAFlags.OrderFlowTracker) : Prop :=
  HAFlags.ha_green_streak a = HAFlags.ha_green_streak b
  /\ HAFlags.consolidation_watch_countdown a
     = HAFlags.consolidation_watch_countdown b
  /\ HAFlags.alert_cooldown a = HAFlags.alert_cooldown b
  /\ HAFlags.last_candle_data a = HAFlags.last_candle_data b.

(** The Heikin-Ashi attributes are assigned together. *)
Definition ha_state_ok (self : HAFlags.OrderFlowTracker) : Prop :=
  HAFlags.last_ha_open self = None
  \/ exists o c, HAFlags.last_ha_open self = Some o
                 /\ HAFlags.last_ha_close self = Some c.

(** ** Names for the intermediate objects of [process_candle_data] *)

(** The object once the Heikin-Ashi attributes are assigned. *)
Definition ha_advanced (ha_open ha_close : Q)
  (self : HAFlags.OrderFlowTracker) : HAFlags.OrderFlowTracker :=
  HAFlags.set_last_ha_close (Some ha_close)
    (HAFlags.set_last_ha_open (Some ha_open) self).

(** The object once both buffers are drained up to [end_ms]. *)
Definition drained (remaining_trades : list Trade) (end_ms : Z)
  (self : HAFlags.OrderFlowTracker) : HAFlags.OrderFlowTracker :=
  HAFlags.set_bbo_buffer
    (filter (fun b => after_window end_ms (HAFlags.ts b))
       (HAFlags.bbo_buffer self))
    (HAFlags.set_trade_buffer remaining_trades self).

(** The BBO updates of the window. *)
Definition relevant_bbo (start_ms end_ms : Z)
  (self : HAFlags.OrderFlowTracker) : list HAFlags.BboUpdate :=
  filter (fun b => in_window start_ms end_ms (HAFlags.ts b))
    (HAFlags.bbo_buffer self).

(** The dictionary [output_data], from the full-precision values. *)
Definition output_data_of (start_ms : Z) (close_price ha_open ha_close : Q)
  (agg_ratio avg_bbo_imba : Q) : HAFlags.CandleRecord :=
  {| HAFlags.utc := start_ms;
     HAFlags.close_price := close_price;
     HAFlags.HA_open := py_round ha_open 5;
     HAFlags.HA_close := py_round ha_close 5;
     HAFlags.HA_color := HAFlags.ha_color_of ha_open ha_close;
     HAFlags.agg_ratio := py_round agg_ratio 4;
     HAFlags.avg_bbo_imba := py_round avg_bbo_imba 4 |}.

(** ** Sample streams *)

(** One-minute candle number [i]: it starts at [60000 * i] ms. *)
Definition candle_at (i : Z) (o h l c : string) : Candle :=
  {| c_start := PInt (60000 * i);
     c_end := PInt (60000 * i + 59999);
     c_open := PStr o;
     c_high := PStr h;
     c_low := PStr l;
     c_close := PStr c;
     c_confirm := true |}.

Definition trade_at (t : Z) (side v : string) : Trade :=
  {| t_T := PInt t; t_S := side; t_v := PStr v |}.

(** Minute [i] as the main websocket delivers it: a buy and a sell print
    inside the minute, then the confirmed candle. *)
Definition minute (i : Z) (o h l c buy sell : string)
  : list HAFlags.Message :=
  [ HAFlags.TradeMessage
      [trade_at (60000 * i + 1000) "Buy" buy;
       trade_at (60000 * i + 2000) "Sell" sell];
    HAFlags.KlineMessage [candle_at i o h l c] ].

(** Four rising minutes, one falling minute, four rising minutes; buyers
    take 60% of the volume in each. *)
Definition nine_minutes : list HAFlags.Message :=
  minute 1 "100" "112" "100" "110" "6" "4"
  ++ minute 2 "110" "122" "110" "120" "6" "4"
  ++ minute 3 "120" "132" "120" "130" "6" "4"
  ++ minute 4 "130" "142" "130" "140" "6" "4"
  ++ minute 5 "140" "140" "90" "95" "6" "4"
  ++ minute 6 "95" "160" "95" "150" "6" "4"
  ++ minute 7 "150" "162" "150" "160" "6" "4"
  ++ minute 8 "160" "172" "160" "170" "6" "4"
  ++ minute 9 "170" "182" "170" "180" "6" "4".

(** The sequence of Heikin-Ashi colors, one per processed candle. *)
Definition colors_of (l : list HAFlags.LogEvent) : list HAFlags.Color :=
  flat_map (fun e => match e with
                     | HAFlags.InfoRecord r => [HAFlags.HA_color r]
                     | _ => []
                     end) l.

(** The six conversions at the top of [process_candle_data]:
    [int(candle['start'])], [int(candle['end'])] and the four prices. *)
Definition candle_fields `{PyRuntime} (candle : Candle)
  : option (Z * Z * Q * Q * Q * Q) :=
  match py_int (c_start candle), py_int (c_end candle),
        py_float (c_open candle), py_float (c_high candle),
        py_float (c_low candle), py_float (c_close candle) with
  | Some s, Some e, Some o, Some h, Some l, Some c => Some (s, e, o, h, l, c)
  | _, _, _, _, _, _ => None
  end.

(** The timestamp of a buffered trade satisfies [p]. *)
Definition timestamp_sat `{PyRuntime} (p : Z -> bool) (t : Trade) : bool :=
  match py_int (t_T t) with
  | Some x => p x
  | None => false
  end.

(** The first candle of [nine_minutes]. *)
Definition first_candle : Candle := candle_at 1 "100" "112" "100" "110".



(** A Green record with both metrics in the green zone. *)
Definition strong_green : HAFlags.CandleRecord :=
  {| HAFlags.utc := 480000;
     HAFlags.close_price := 170;
     HAFlags.HA_open := 139.37;
     HAFlags.HA_close := 165.5;
     HAFlags.HA_color := HAFlags.Green;
     HAFlags.agg_ratio := 0.6;
     HAFlags.avg_bbo_imba := 0.6 |}.

(** A tracker whose streak has reached seven with no alert: the watch has
    run out and no cooldown is pending. *)
Definition streak_of_seven : HAFlags.OrderFlowTracker :=
  HAFlags.set_ha_green_streak 7 HAFlags.init.







(** ** The cumulative volume delta of [trade_exhaust2.py] *)

(** The full-precision [volume_delta] of the candle that message [m] makes
    the tracker process, when [process_candle_data] is called and returns. *)
Definition Exhaust_delta_of `{PyRuntime} (m : Exhaust.Message)
  (self : Exhaust.OrderFlowTracker) : option Q :=
  match m with
  | Exhaust.KlineMessage (candle :: _) =>
      if c_confirm candle
         && negb (py_eqb (Exhaust.last_kline_start_time self)
                    (c_start candle))
      then
        match outcome_of
                (Exhaust.process_candle_data candle
                   (Exhaust.set_last_kline_start_time (c_start candle) self))
        with
        | Returned _ => Exhaust.volume_delta_of self candle
        | Raised => None
        end
      else None
  | _ => None
  end.

(** The volume deltas of the candles processed along a stream, in order. *)
Fixpoint Exhaust_deltas `{PyRuntime} (ms : list Exhaust.Message)
  (self : Exhaust.OrderFlowTracker) : list Q :=
  match ms with
  | [] => []
  | m :: rest =>
      match Exhaust_delta_of m self with
      | Some d => [d]
      | None => []
      end ++ Exhaust_deltas rest (state_of (Exhaust.handle m self))
  end.

(** The sums [acc + d1], [acc + d1 + d2], ... added from the left. *)
Fixpoint running_sums (acc : Q) (ds : list Q) : list Q :=
  match ds with
  | [] => []
  | d :: rest => (acc + d)%Q :: running_sums (acc + d)%Q rest
  end.



(** A Red record. *)
Definition falling_red : HAFlags.CandleRecord :=
  {| HAFlags.utc := 300000;
     HAFlags.close_price := 95;
     HAFlags.HA_open := 126.71875;
     HAFlags.HA_close := 116.25;
     HAFlags.HA_color := HAFlags.Red;
     HAFlags.agg_ratio := 0.6;
     HAFlags.avg_bbo_imba := 0.5 |}.

From Stdlib Require Import Qminmax.

(** ** Further predicates and samples *)

(** While a consolidation watch is running no cooldown is pending, and the
    watch started on the fourth candle of the streak: three candles are
    watched, the fifth to the seventh. *)
Definition watch_inv (self : HAFlags.OrderFlowTracker) : Prop :=
  0 < HAFlags.consolidation_watch_countdown self ->
  HAFlags.alert_cooldown self = 0
  /\ HAFlags.ha_green_streak self
     + HAFlags.consolidation_watch_countdown self = 7.

(** A Green record with the aggression ratio in the red zone. *)
Definition weak_green : HAFlags.CandleRecord :=
  {| HAFlags.utc := 240000;
     HAFlags.close_price := 140;
     HAFlags.HA_open := 117.9375;
     HAFlags.HA_close := 135.5;
     HAFlags.HA_color := HAFlags.Green;
     HAFlags.agg_ratio := 0.2;
     HAFlags.avg_bbo_imba := 0.6 |}.

(** A tracker that has seen three Green candles. *)
Definition streak_of_three : HAFlags.OrderFlowTracker :=
  HAFlags.set_ha_green_streak 3 HAFlags.init.

(** The number of kline messages in a stream. *)
Definition kline_count (ms : list HAFlags.Message) : nat :=
  List.length
    (filter (fun m => match m with
                      | HAFlags.KlineMessage _ => true
                      | _ => false
                      end) ms).














(** The dictionary [output] of [trade_exhaust2.py], from the volumes of the
    window and the object as it is after steps 4 (cumulative delta and
    history updated). *)
Definition Exhaust_output_of `{PyRuntime} (start_ms : Z)
  (close_price buy_volume sell_volume : Q)
  (self : Exhaust.OrderFlowTracker) : Exhaust.Output :=
  {| Exhaust.timestamp_utc := start_ms;
     Exhaust.close_price := close_price;
     Exhaust.buy_volume := py_round buy_volume 4;
     Exhaust.sell_volume := py_round sell_volume 4;
     Exhaust.total_volume := py_round (buy_volume + sell_volume) 4;
     Exhaust.delta := py_round (buy_volume - sell_volume) 4;
     Exhaust.agg_ratio :=
       py_round
         (if Qlt_bool 0 (buy_volume + sell_volume)
          then buy_volume / (buy_volume + sell_volume)
          else 0.5) 4;
     Exhaust.cumulative_volume_delta_out :=
       py_round (Exhaust.cumulative_volume_delta self) 4;
     Exhaust.cvd_zscore_ratio := py_round (Exhaust.cvd_zscore_of self) 4 |}.

(** The object of [trade_exhaust2.py] after step 4 for a volume delta. *)
Definition cvd_advanced (volume_delta : Q) (self : Exhaust.OrderFlowTracker)
  : Exhaust.OrderFlowTracker :=
  Exhaust.set_cvd_history
    (Exhaust.deque_append (Exhaust.cvd_zscore_period self)
       (Exhaust.cvd_history self)
       (Exhaust.cumulative_volume_delta self + volume_delta)%Q)
    (Exhaust.set_cumulative_volume_delta
       (Exhaust.cumulative_volume_delta self + volume_delta)%Q self).

(** The last [n] elements of a list. *)
Definition lastn {A} (n : nat) (l : list A) : list A :=
  skipn (List.length l - n) l.

(** ** [OrderF_HAFlags.py]: the depth-50 order book

    [handle_depth_book_message] reads and assigns three attributes of the
    tracker and nothing else: [live_bids], [live_asks] and [is_book_ready].
    They are modelled as an object of their own.  A [dict] is a list of
    entries in insertion order, at most one per key; keys are compared as
    Python compares them ([py_eqb]). *)

Module DepthBook.

Definition dict : Type := list (pyval * Q).

(** [d.get(k)], [None] when the key is absent. *)
Fixpoint dict_get (d : dict) (k : pyval) : option Q :=
  match d with
  | [] => None
  | (k', v) :: rest => if py_eqb k' k then Some v else dict_get rest k
  end.

(** [d[k] = v]: the entry of an existing key is updated in place, a new key
    goes last. *)
Fixpoint dict_set (d : dict) (k : pyval) (v : Q) : dict :=
  match d with
  | [] => [(k, v)]
  | (k', v') :: rest =>
      if py_eqb k' k then (k', v) :: rest else (k', v') :: dict_set rest k v
  end.

(** [d.pop(k, None)]. *)
Definition dict_pop (d : dict) (k : pyval) : dict :=
  filter (fun kv => negb (py_eqb (fst kv) k)) d.

(** An [orderbook.50] message: [type], [data['b']] and [data['a']] as
    lists of (price, size) levels. *)
Record DepthMessage : Type := {
  d_type : string;
  d_b : list (pyval * pyval);
  d_a : list (pyval * pyval)
}.

Record Book : Type := {
  live_bids : dict;
  live_asks : dict;
  is_book_ready : bool
}.

(** The three attributes as [__init__] leaves them. *)
Definition init : Book :=
  {| live_bids := []; live_asks := []; is_book_ready := false |}.

Definition set_live_bids (v : dict) (self : Book) : Book :=
  {| live_bids := v;
     live_asks := live_asks self;
     is_book_ready := is_book_ready self |}.

Definition set_live_asks (v : dict) (self : Book) : Book :=
  {| live_bids := live_bids self;
     live_asks := v;
     is_book_ready := is_book_ready self |}.

Definition set_is_book_ready (v : bool) (self : Book) : Book :=
  {| live_bids := live_bids self;
     live_asks := live_asks self;
     is_book_ready := v |}.

Inductive LogEvent : Type :=
| ErrorDepth (message : DepthMessage).

Definition Py := M Book LogEvent.

Local Open Scope py_scope.

Section WithRuntime.
Context `{PyRuntime}.

(** [{b[0]: float(b[1]) for b in levels}], built entry by entry. *)
Fixpoint dict_of_levels (levels : list (pyval * pyval)) (acc : dict)
  : option dict :=
  match levels with
  | [] => Some acc
  | b :: rest =>
      match py_float (snd b) with
      | None => None
      | Some v => dict_of_levels rest (dict_set acc (fst b) v)
      end
  end.

(** The loop of a delta over one side of the book. *)
Fixpoint apply_levels (side : Book -> dict) (set_side : dict -> Book -> Book)
  (levels : list (pyval * pyval)) : Py unit :=
  match levels with
  | [] => ret tt
  | b :: rest =>
      size <- try_ (py_float (snd b)) ;;
      (if Qeq_bool size 0
       then modify (fun self => set_side (dict_pop (side self) (fst b)) self)
       else modify (fun self => set_side (dict_set (side self) (fst b) size)
                                  self)) ;;
      apply_levels side set_side rest
  end.

Definition handle_depth_book_message (message : DepthMessage) : Py unit :=
  try_except
    (if String.eqb (d_type message) "snapshot" then
       bids <- try_ (dict_of_levels (d_b message) []) ;;
       modify (set_live_bids bids) ;;
       asks <- try_ (dict_of_levels (d_a message) []) ;;
       modify (set_live_asks asks) ;;
       modify (set_is_book_ready true)
     else if String.eqb (d_type message) "delta" then
       apply_levels live_bids set_live_bids (d_b message) ;;
       apply_levels live_asks set_live_asks (d_a message)
     else ret tt)
    (log (ErrorDepth message)).

(** The sizes of a list of levels, when they all convert. *)
Fixpoint level_sizes (levels : list (pyval * pyval))
  : option (list (pyval * Q)) :=
  match levels with
  | [] => Some []
  | b :: rest =>
      match py_float (snd b), level_sizes rest with
      | Some v, Some vs => Some ((fst b, v) :: vs)
      | _, _ => None
      end
  end.

End WithRuntime.

(** The size the last level for price [k] carries, if there is one. *)
Fixpoint last_size (levels : list (pyval * Q)) (k : pyval) : option Q :=
  match levels with
  | [] => None
  | (k', v) :: rest =>
      match last_size rest k with
      | Some x => Some x
      | None => if py_eqb k' k then Some v else None
      end
  end.

(** The dictionary after the levels of a delta, sizes converted. *)
Definition apply_sizes (d : dict) (sizes : list (pyval * Q)) : dict :=
  fold_left
    (fun d kv =>
       if Qeq_bool (snd kv) 0 then dict_pop d (fst kv)
       else dict_set d (fst kv) (snd kv))
    sizes d.

(** What a price looks up to after a delta: the size of its last level in
    the delta unless that size is zero, its old size if the delta has no
    level for it. *)
Definition after_delta (d : dict) (sizes : list (pyval * Q)) (k : pyval)
  : option Q :=
  match last_size sizes k with
  | Some v => if Qeq_bool v 0 then None else Some v
  | None => dict_get d k
  end.

End DepthBook.

(** A snapshot of two bid levels and one ask level, and a delta that
    removes the first bid, resizes the second and adds a third. *)
Definition sample_snapshot : DepthBook.DepthMessage :=
  {| DepthBook.d_type := "snapshot";
     DepthBook.d_b := [(PStr "0.2500", PStr "100"); (PStr "0.2499", PStr "40")];
     DepthBook.d_a := [(PStr "0.2501", PStr "70")] |}.

Definition sample_delta : DepthBook.DepthMessage :=
  {| DepthBook.d_type := "delta";
     DepthBook.d_b :=
       [(PStr "0.2500", PStr "0"); (PStr "0.2499", PStr "55");
        (PStr "0.2498", PStr "10")];
     DepthBook.d_a := [] |}.

(** The same delta with a size that is not a number in second place. *)
Definition broken_delta : DepthBook.DepthMessage :=
  {| DepthBook.d_type := "delta";
     DepthBook.d_b :=
       [(PStr "0.2500", PStr "0"); (PStr "0.2499", PStr "n/a");
        (PStr "0.2498", PStr "10")];
     DepthBook.d_a := [(PStr "0.2501", PStr "0")] |}.

Definition book_after_snapshot : DepthBook.Book :=
  state_of (@DepthBook.handle_depth_book_message decimal_runtime
              sample_snapshot DepthBook.init).

(** ** [heinki_ashi.py]: Heikin-Ashi candles of a whole history

    A data frame is the list of its rows in index order; the index itself
    (the timestamps) is left out. *)

Module HeikinAshi.

Record Row : Type := {
  r_open : Q;
  r_high : Q;
  r_low : Q;
  r_close : Q;
  r_volume : Q
}.

(** The Heikin-Ashi row of a raw row, given its [open]. *)
Definition ha_row (ha_open : Q) (raw : Row) : Row :=
  let ha_close :=
    ((r_open raw + r_high raw + r_low raw + r_close raw) / 4)%Q in
  {| r_open := ha_open;
     r_high := Qmax (Qmax ha_open ha_close) (r_high raw);
     r_low := Qmin (Qmin ha_open ha_close) (r_low raw);
     r_close := ha_close;
     r_volume := r_volume raw |}.

(** Rows [1 ..]: the open is the midpoint of the previous Heikin-Ashi open
    and close. *)
Fixpoint ha_rows_from (prev_open prev_close : Q) (df_in : list Row)
  : list Row :=
  match df_in with
  | [] => []
  | raw :: rest =>
      let row := ha_row ((prev_open + prev_close) / 2)%Q raw in
      row :: ha_rows_from (r_open row) (r_close row) rest
  end.

Definition calculate_heikin_ashi (df_in : list Row) : list Row :=
  match df_in with
  | [] => []
  | raw :: rest =>
      let row := ha_row ((r_open raw + r_close raw) / 2)%Q raw in
      row :: ha_rows_from (r_open row) (r_close row) rest
  end.


End HeikinAshi.

(** The Heikin-Ashi attributes of the tracker of [OrderF_HAFlags.py] after
    each candle of a list, processed in order. *)
Fixpoint ha_trace `{PyRuntime} (candles : list Candle)
  (self : HAFlags.OrderFlowTracker) : list (option Q * option Q) :=
  match candles with
  | [] => []
  | candle :: rest =>
      let self' := state_of (HAFlags.process_candle_data candle self) in
      (HAFlags.last_ha_open self', HAFlags.last_ha_close self')
      :: ha_trace rest self'
  end.

(** A candle message carrying the prices of a row. *)
Definition candle_of_row `{PyRuntime} (candle : Candle)
  (raw : HeikinAshi.Row) : Prop :=
  exists s e,
    candle_fields candle
    = Some (s, e, HeikinAshi.r_open raw, HeikinAshi.r_high raw,
            HeikinAshi.r_low raw, HeikinAshi.r_close raw).

(** ** [trade_plot2_Linear.py]: running buy and sell totals

    The two globals [total_buy_volume] and [total_sell_volume] are the
    state; an event whose volume does not convert is skipped. *)

Module TradePlot.

Fixpoint handle_trade_message `{PyRuntime} (trade_events : list Trade)
  (totals : Q * Q) : Q * Q :=
  match trade_events with
  | [] => totals
  | event :: rest =>
      match py_float (t_v event) with
      | None => handle_trade_message rest totals
      | Some volume =>
          if String.eqb (t_S event) "Buy"
          then handle_trade_message rest
                 ((fst totals + volume)%Q, snd totals)
          else if String.eqb (t_S event) "Sell"
          then handle_trade_message rest
                 (fst totals, (snd totals + volume)%Q)
          else handle_trade_message rest totals
      end
  end.

End TradePlot.


(** ** More samples *)

(** The prints of minute 1 and the messages of minute 1. *)
Definition first_prints : list Trade :=
  [trade_at 61000 "Buy" "6"; trade_at 62000 "Sell" "4"].



Definition second_candle : Candle := candle_at 2 "110" "122" "110" "120".

(** Both trackers with the prints of minute 1 buffered. *)
Definition tracker_with_first_prints : HAFlags.OrderFlowTracker :=
  state_of (@HAFlags.handle decimal_runtime
              (HAFlags.TradeMessage first_prints) HAFlags.init).

Definition exhaust_with_first_prints : Exhaust.OrderFlowTracker :=
  state_of (@Exhaust.handle decimal_runtime
              (Exhaust.TradeMessage first_prints) (Exhaust.init 100)).

(** A print from before minute 1. *)
Definition stale_print : Trade := trade_at 1000 "Buy" "9".

(** The raw rows of minutes 1 and 2. *)
Definition sample_rows : list HeikinAshi.Row :=
  [ {| HeikinAshi.r_open := 100; HeikinAshi.r_high := 112;
       HeikinAshi.r_low := 100; HeikinAshi.r_close := 110;
       HeikinAshi.r_volume := 10 |};
    {| HeikinAshi.r_open := 110; HeikinAshi.r_high := 122;
       HeikinAshi.r_low := 110; HeikinAshi.r_close := 120;
       HeikinAshi.r_volume := 10 |} ].



(** ** [order_plot2_Linear.py]

    The depth chart keeps its own book in the module globals [bids], [asks]
    and [snapshot_received].  Prices are converted, so the keys are floats;
    nothing catches a failed conversion. *)

Module OrderPlot.

Import DepthBook.

Record Plot : Type := {
  bids : dict;
  asks : dict;
  snapshot_received : bool
}.

(** The three globals as the module creates them. *)
Definition init : Plot :=
  {| bids := []; asks := []; snapshot_received := false |}.

Definition set_bids (v : dict) (self : Plot) : Plot :=
  {| bids := v;
     asks := asks self;
     snapshot_received := snapshot_received self |}.

Definition set_asks (v : dict) (self : Plot) : Plot :=
  {| bids := bids self;
     asks := v;
     snapshot_received := snapshot_received self |}.

Definition set_snapshot_received (v : bool) (self : Plot) : Plot :=
  {| bids := bids self;
     asks := asks self;
     snapshot_received := v |}.

Inductive PrintEvent : Type :=
| PrintSnapshotReceived.

Definition Py := M Plot PrintEvent.

Local Open Scope py_scope.

Section WithRuntime.
Context `{PyRuntime}.

(** [for p, q in levels: side[float(p)] = float(q)]; the right-hand side
    is evaluated first. *)
Fixpoint store_levels (side : Plot -> dict) (set_side : dict -> Plot -> Plot)
  (levels : list (pyval * pyval)) : Py unit :=
  match levels with
  | [] => ret tt
  | (p, q) :: rest =>
      qty <- try_ (py_float q) ;;
      price <- try_ (py_float p) ;;
      modify (fun self =>
                set_side (dict_set (side self) (PFloat price) qty) self) ;;
      store_levels side set_side rest
  end.

(** The loop of a delta over one side of the book. *)
Fixpoint apply_levels (side : Plot -> dict) (set_side : dict -> Plot -> Plot)
  (levels : list (pyval * pyval)) : Py unit :=
  match levels with
  | [] => ret tt
  | (p, q) :: rest =>
      price <- try_ (py_float p) ;;
      qty <- try_ (py_float q) ;;
      (if Qeq_bool qty 0
       then modify (fun self =>
                      set_side (dict_pop (side self) (PFloat price)) self)
       else modify (fun self =>
                      set_side (dict_set (side self) (PFloat price) qty)
                        self)) ;;
      apply_levels side set_side rest
  end.

Definition handle_orderbook_message (message : DepthMessage) : Py unit :=
  if String.eqb (d_type message) "snapshot" then
    modify (set_bids []) ;;
    modify (set_asks []) ;;
    store_levels bids set_bids (d_b message) ;;
    store_levels asks set_asks (d_a message) ;;
    modify (set_snapshot_received true) ;;
    log PrintSnapshotReceived
  else if String.eqb (d_type message) "delta" then
    self <- get ;;
    if negb (snapshot_received self) then ret tt
    else
      apply_levels bids set_bids (d_b message) ;;
      apply_levels asks set_asks (d_a message)
  else ret tt.

(** One call per message; a call that raises ends the sequence. *)
Fixpoint run (ms : list DepthMessage) : Py unit :=
  match ms with
  | [] => ret tt
  | m :: rest => handle_orderbook_message m ;; run rest
  end.

(** The levels with price and size converted, when they all convert. *)
Fixpoint float_levels (levels : list (pyval * pyval))
  : option (list (pyval * Q)) :=
  match levels with
  | [] => Some []
  | (p, q) :: rest =>
      match py_float p, py_float q, float_levels rest with
      | Some price, Some qty, Some vs => Some ((PFloat price, qty) :: vs)
      | _, _, _ => None
      end
  end.

End WithRuntime.


End OrderPlot.

(** No level of size zero in a side of a book. *)
Definition no_zero_size (d : DepthBook.dict) : Prop :=
  Forall (fun kv => Qeq_bool (snd kv) 0 = false) d.


(** ** [order_1minStats.py]

    The best-bid-offer statistics keep a queue of updates and the last two
    prices in module globals.  The wall clock is an input: [now] is what
    [time.time()] returns in [handle_bbo_message], and the two ends of the
    reported minute are what [process_and_report] derives from
    [datetime.datetime.now()]. *)

Module BboStats.

Import DepthBook.

Record Update : Type := {
  u_time : Q;
  mid_price : Q;
  spread : Q;
  imbalance_ratio : Q;
  bid_tick : bool;
  ask_tick : bool
}.

Record Stats : Type := {
  bbo_updates : list Update;
  last_bid_price : Q;
  last_ask_price : Q
}.

Definition init : Stats :=
  {| bbo_updates := []; last_bid_price := 0.0; last_ask_price := 0.0 |}.

Definition set_bbo_updates (v : list Update) (self : Stats) : Stats :=
  {| bbo_updates := v;
     last_bid_price := last_bid_price self;
     last_ask_price := last_ask_price self |}.

Definition set_last_bid_price (v : Q) (self : Stats) : Stats :=
  {| bbo_updates := bbo_updates self;
     last_bid_price := v;
     last_ask_price := last_ask_price self |}.

Definition set_last_ask_price (v : Q) (self : Stats) : Stats :=
  {| bbo_updates := bbo_updates self;
     last_bid_price := last_bid_price self;
     last_ask_price := v |}.

(** The figures of the printed summary. *)
Record Report : Type := {
  num_updates : nat;
  total_ticks : nat;
  bid_ticks : nat;
  ask_ticks : nat;
  avg_mid_price : Q;
  mid_price_range : Q;
  avg_spread : Q;
  max_spread : Q;
  avg_imbalance_pct : Q
}.

Inductive PrintEvent : Type :=
| PrintError (message : DepthMessage)
| PrintNoUpdates
| PrintReport (report : Report).

Definition Py := M Stats PrintEvent.

Local Open Scope py_scope.

Section WithRuntime.
Context `{PyRuntime}.

Definition handle_bbo_message (now : Q) (message : DepthMessage) : Py unit :=
  if String.eqb (d_type message) "snapshot" then
    try_except
      (match d_b message, d_a message with
       | [], _ | _, [] => ret tt
       | bid :: _, ask :: _ =>
           bid_price <- try_ (py_float (fst bid)) ;;
           bid_size <- try_ (py_float (snd bid)) ;;
           ask_price <- try_ (py_float (fst ask)) ;;
           ask_size <- try_ (py_float (snd ask)) ;;
           let spread := (ask_price - bid_price)%Q in
           let mid_price := ((ask_price + bid_price) / 2.0)%Q in
           let total_bbo_volume := (bid_size + ask_size)%Q in
           let imbalance_ratio :=
             if Qlt_bool 0 total_bbo_volume
             then (bid_size / total_bbo_volume)%Q
             else 0.5%Q in
           self <- get ;;
           let bid_tick := negb (Qeq_bool bid_price (last_bid_price self)) in
           let ask_tick := negb (Qeq_bool ask_price (last_ask_price self)) in
           modify (set_last_bid_price bid_price) ;;
           modify (set_last_ask_price ask_price) ;;
           modify (fun self =>
                     set_bbo_updates
                       (bbo_updates self
                        ++ [ {| u_time := now;
                                mid_price := mid_price;
                                spread := spread;
                                imbalance_ratio := imbalance_ratio;
                                bid_tick := bid_tick;
                                ask_tick := ask_tick |} ])
                       self)
       end)
      (log (PrintError message))
  else ret tt.

End WithRuntime.

(** The loop that empties the left end of the queue: every update older
    than [period_end_ts] is popped, and kept for the report when it is not
    older than [period_start_ts]; the loop stops at the first update that
    is not older than [period_end_ts].  The result is the updates to
    process and the queue left. *)
Fixpoint drain (period_start_ts period_end_ts : Q) (queue : list Update)
  : list Update * list Update :=
  match queue with
  | [] => ([], [])
  | update :: rest =>
      if Qlt_bool (u_time update) period_end_ts
      then
        let r := drain period_start_ts period_end_ts rest in
        (if Qle_bool period_start_ts (u_time update)
         then update :: fst r else fst r,
         snd r)
      else ([], queue)
  end.

(** [np.max] and [np.min] of a non-empty array. *)
Definition np_max (xs : list Q) : Q :=
  match xs with
  | [] => 0
  | x :: rest => fold_left Qmax rest x
  end.

Definition np_min (xs : list Q) : Q :=
  match xs with
  | [] => 0
  | x :: rest => fold_left Qmin rest x
  end.

(** [sum(d[flag] for d in updates)]. *)
Definition count_ticks (flag : Update -> bool) (updates : list Update)
  : nat :=
  List.length (filter flag updates).

Definition report_of (updates_to_process : list Update) : Report :=
  let mid_prices := map mid_price updates_to_process in
  let spreads := map spread updates_to_process in
  let imbalances := map imbalance_ratio updates_to_process in
  let bid_ticks := count_ticks bid_tick updates_to_process in
  let ask_ticks := count_ticks ask_tick updates_to_process in
  {| num_updates := List.length updates_to_process;
     total_ticks := bid_ticks + ask_ticks;
     bid_ticks := bid_ticks;
     ask_ticks := ask_ticks;
     avg_mid_price := mean mid_prices;
     mid_price_range := (np_max mid_prices - np_min mid_prices)%Q;
     avg_spread := mean spreads;
     max_spread := np_max spreads;
     avg_imbalance_pct := (mean imbalances * 100)%Q |}.

(** [process_and_report] for the minute from [period_start_ts] up to
    [period_end_ts]. *)
Definition process_and_report (period_start_ts period_end_ts : Q)
  : Py unit :=
  self <- get ;;
  let r := drain period_start_ts period_end_ts (bbo_updates self) in
  let updates_to_process := fst r in
  modify (set_bbo_updates (snd r)) ;;
  match updates_to_process with
  | [] => log PrintNoUpdates
  | _ :: _ => log (PrintReport (report_of updates_to_process))
  end.

(** What happens to the module: a message arrives while the clock reads
    [now], or the main loop reports on a minute. *)
Inductive Event : Type :=
| Bbo (now : Q) (message : DepthMessage)
| Minute (period_start_ts period_end_ts : Q).

Definition step `{PyRuntime} (ev : Event) : Py unit :=
  match ev with
  | Bbo now message => handle_bbo_message now message
  | Minute s e => process_and_report s e
  end.

Fixpoint run `{PyRuntime} (evs : list Event) : Py unit :=
  match evs with
  | [] => ret tt
  | ev :: rest => step ev ;; run rest
  end.

(** The two prices behind an update. *)
Definition bid_of (u : Update) : Q := (mid_price u - spread u / 2)%Q.
Definition ask_of (u : Update) : Q := (mid_price u + spread u / 2)%Q.

(** The clock readings of the messages of a sequence of events. *)
Definition clock_readings (evs : list Event) : list Q :=
  flat_map (fun ev => match ev with
                      | Bbo now _ => [now]
                      | Minute _ _ => []
                      end) evs.

End BboStats.

(** Never decreasing. *)
Fixpoint nondecreasing (xs : list Q) : Prop :=
  match xs with
  | [] => True
  | x :: rest => Forall (fun y => (x <= y)%Q) rest /\ nondecreasing rest
  end.

(** Each queued update's flags compare its prices with the prices before
    it; [b] and [a] are the prices before the first one. *)
Fixpoint ticks_from (b a : Q) (queue : list BboStats.Update) : Prop :=
  match queue with
  | [] => True
  | u :: rest =>
      BboStats.bid_tick u = negb (Qeq_bool (BboStats.bid_of u) b)
      /\ BboStats.ask_tick u = negb (Qeq_bool (BboStats.ask_of u) a)
      /\ ticks_from (BboStats.bid_of u) (BboStats.ask_of u) rest
  end.



(** From [period_start_ts] up to, not including, [period_end_ts]. *)
Definition in_period (period_start_ts period_end_ts : Q)
  (u : BboStats.Update) : bool :=
  Qle_bool period_start_ts (BboStats.u_time u)
  && Qlt_bool (BboStats.u_time u) period_end_ts.

Definition not_before (period_end_ts : Q) (u : BboStats.Update) : bool :=
  negb (Qlt_bool (BboStats.u_time u) period_end_ts).




(** ** Samples for the depth chart and the statistics *)

(** The book of the depth chart after the sample snapshot. *)
Definition plot_after_snapshot : OrderPlot.Plot :=
  state_of (@OrderPlot.handle_orderbook_message decimal_runtime
              sample_snapshot OrderPlot.init).

(** The same quote twice, one second apart, and then the report on the
    minute they fall in. *)
Definition two_quotes : list BboStats.Event :=
  [ BboStats.Bbo 1 sample_snapshot; BboStats.Bbo 2 sample_snapshot ].


(** * Properties *)

(** ** Comparisons on rationals *)


Lemma Qlt_bool_false (x y : Q) : Qlt_bool x y = false <-> (y <= x)%Q.
Proof.
  unfold Qlt_bool. rewrite negb_false_iff. apply Qle_bool_iff.
Qed.

(** ** Rounding to a number of decimal places *)

Lemma round_half_even_close (q : Q) :
  (Qabs (inject_Z (round_half_even q) - q) <= 1 # 2)%Q.
Proof.
  unfold round_half_even.
  pose proof (Qfloor_le q) as Hlo.
  pose proof (Qlt_floor q) as Hhi.
  rewrite inject_Z_plus in Hhi.
  apply Qabs_Qle_condition.
  destruct (Qcompare_spec (q - inject_Z (Qfloor q)) (1 # 2)) as [He | Hl | Hg];
    [destruct (Z.even (Qfloor q))| |];
    rewrite ?inject_Z_plus;
    change (inject_Z 1) with 1%Q in *;
    set (f := inject_Z (Qfloor q)) in *; clearbody f;
    split; lra.
Qed.

(** [round(x, n)] is within half a unit of the n-th decimal place of [x]. *)
Lemma py_round_close (x : Q) (ndigits : nat) :
  (Qabs (py_round x ndigits - x)
   <= (1 # 2) / inject_Z (10 ^ Z.of_nat ndigits))%Q.
Proof.
  unfold py_round.
  set (scale := inject_Z (10 ^ Z.of_nat ndigits)).
  assert (Hpos : (0 < scale)%Q).
  { unfold scale. change 0%Q with (inject_Z 0). rewrite <- Zlt_Qlt.
    apply Z.pow_pos_nonneg; lia. }
  assert (Hne : ~ (scale == 0)%Q) by lra.
  assert (Hrw : (inject_Z (round_half_even (x * scale)) / scale - x
                 == (inject_Z (round_half_even (x * scale)) - x * scale)
                    * / scale)%Q) by (field; exact Hne).
  rewrite Hrw, Qabs_Qmult.
  rewrite (Qabs_pos (/ scale)) by (apply Qlt_le_weak, Qinv_lt_0_compat, Hpos).
  unfold Qdiv. apply Qmult_le_compat_r.
  - apply round_half_even_close.
  - apply Qlt_le_weak, Qinv_lt_0_compat, Hpos.
Qed.

Example py_round_samples :
  (py_round 0.54996 4 == 0.55)%Q
  /\ (py_round 0.00001 4 == 0)%Q
  /\ (py_round 0.12345 4 == 0.1234)%Q
  /\ (py_round 0.12355 4 == 0.1236)%Q
  /\ (py_round (-2.5) 0 == -2)%Q.
Proof. repeat split. Qed.

Example decimal_runtime_samples :
  @py_float decimal_runtime (PStr "0.001") = Some (1 # 1000)%Q
  /\ @py_float decimal_runtime (PStr "-12.50") = Some (- (1250 # 100))%Q
  /\ @py_float decimal_runtime (PStr "abc") = None
  /\ @py_float decimal_runtime (PStr "") = None
  /\ @py_float decimal_runtime (PInt 3) = Some 3%Q
  /\ @py_float decimal_runtime PNone = None
  /\ @py_int decimal_runtime (PStr "1672324800000") = Some 1672324800000
  /\ @py_int decimal_runtime (PStr "1.5") = None
  /\ @py_int decimal_runtime (PFloat (-1.5)) = Some (-1).
Proof. repeat split. Qed.

Example deque_append_samples :
  Exhaust.deque_append 3 [1; 2]%Q 3%Q = [1; 2; 3]%Q
  /\ Exhaust.deque_append 3 [1; 2; 3]%Q 4%Q = [2; 3; 4]%Q
  /\ Exhaust.deque_append 0 [] 4%Q = [].
Proof. repeat split. Qed.


(** ** The monad *)

Ltac run_monad :=
  unfold bind, get, modify, log, ret, raise, try_, state_of, logs_of,
    outcome_of in *; cbn [fst snd app] in *.

(** ** Entry conditions *)

Section EntryConditions.
Import HAFlags.

(** The branch of step 4 is [pass]: the object is not consulted. *)
Lemma check_entry_conditions_any_self (a b : OrderFlowTracker)
  (d : CandleRecord) :
  _check_entry_conditions a d = _check_entry_conditions b d.
Proof.
  unfold _check_entry_conditions.
  destruct (price_pulled_back a d), (price_pulled_back b d); reflexivity.
Qed.


End EntryConditions.

(** ** The setup logic *)

Section SetupLogic.
Import HAFlags.

Ltac setup_cases self d :=
  unfold _run_trade_setup_logic; run_monad;
  destruct (0 <? alert_cooldown self) eqn:Hcool;
  destruct (HA_color d) eqn:Hcolor; cbn;
  repeat match goal with
    | |- context [if ?b then _ else _] =>
        let E := fresh "E" in destruct b eqn:E; cbn
    end.

Lemma setup_logic_returns (d : CandleRecord) (self : OrderFlowTracker) :
  outcome_of (_run_trade_setup_logic d self) = Returned tt.
Proof. setup_cases self d; reflexivity. Qed.

(** The setup logic assigns the three counters only. *)
Lemma setup_logic_frame (d : CandleRecord) (self : OrderFlowTracker) :
  let self' := state_of (_run_trade_setup_logic d self) in
  trade_buffer self' = trade_buffer self
  /\ bbo_buffer self' = bbo_buffer self
  /\ last_kline_start_time self' = last_kline_start_time self
  /\ last_ha_open self' = last_ha_open self
  /\ last_ha_close self' = last_ha_close self
  /\ last_candle_data self' = last_candle_data self.
Proof. setup_cases self d; repeat split. Qed.

Lemma setup_logic_counters_ok (d : CandleRecord) (self : OrderFlowTracker) :
  counters_ok self ->
  counters_ok (state_of (_run_trade_setup_logic d self)).
Proof.
  unfold counters_ok, ALERT_COOLDOWN_PERIOD, CONSOLIDATION_WATCH_PERIOD.
  intros (Hc & Hw & Hs).
  setup_cases self d;
    repeat match goal with
      | H : (_ <? _) = true |- _ => apply Z.ltb_lt in H
      | H : (_ <? _) = false |- _ => apply Z.ltb_ge in H
      | H : (_ =? _) = true |- _ => apply Z.eqb_eq in H
      | H : (_ =? _) = false |- _ => apply Z.eqb_neq in H
      end;
    unfold ALERT_COOLDOWN_PERIOD, CONSOLIDATION_WATCH_PERIOD;
    cbn in *; lia.
Qed.

(** An alert is only logged on a candle on which the cooldown, once
    decremented, is zero; it restarts the cooldown and clears the watch. *)
Lemma setup_logic_alert (d : CandleRecord) (self : OrderFlowTracker) :
  alerts (logs_of (_run_trade_setup_logic d self)) <> [] ->
  alert_cooldown self <= 1
  /\ _check_entry_conditions self d = true
  /\ alert_cooldown (state_of (_run_trade_setup_logic d self))
     = ALERT_COOLDOWN_PERIOD
  /\ consolidation_watch_countdown (state_of (_run_trade_setup_logic d self))
     = 0.
Proof.
  setup_cases self d; intro Ha; try (exfalso; apply Ha; reflexivity);
    repeat match goal with
      | H : (_ <? _) = true |- _ => apply Z.ltb_lt in H
      | H : (_ <? _) = false |- _ => apply Z.ltb_ge in H
      end;
    cbn in *; repeat split; try lia.
  all: match goal with
       | H : _check_entry_conditions ?s ?r = true |- _ =>
           rewrite <- H; apply check_entry_conditions_any_self
       end.
Qed.

(** While the cooldown is above one, no alert is logged and the cooldown
    goes down by one. *)
Lemma setup_logic_cooling (d : CandleRecord) (self : OrderFlowTracker) :
  1 < alert_cooldown self ->
  alerts (logs_of (_run_trade_setup_logic d self)) = []
  /\ alert_cooldown (state_of (_run_trade_setup_logic d self))
     = alert_cooldown self - 1.
Proof.
  intro Hc.
  assert (H1 : (0 <? alert_cooldown self) = true) by (apply Z.ltb_lt; lia).
  assert (H2 : (0 <? alert_cooldown self - 1) = true)
    by (apply Z.ltb_lt; lia).
  unfold _run_trade_setup_logic; run_monad. rewrite H1.
  destruct (HA_color d); cbn; rewrite H2; cbn; split; reflexivity.
Qed.

End SetupLogic.

(** ** Stepping through a method body *)

Section MonadSteps.
Context {St L A B : Type}.

Lemma bind_try_some (a : A) (k : A -> M St L B) (self : St) :
  bind (try_ (Some a)) k self = k a self.
Proof. unfold bind, try_, ret. destruct (k a self) as [[? ?] ?]; reflexivity. Qed.

Lemma bind_try_none (k : A -> M St L B) (self : St) :
  bind (try_ None) k self = (self, [], Raised).
Proof. reflexivity. Qed.

Lemma bind_get (k : St -> M St L B) (self : St) :
  bind get k self = k self self.
Proof. unfold bind, get. destruct (k self self) as [[? ?] ?]; reflexivity. Qed.

Lemma bind_modify (f : St -> St) (k : unit -> M St L B) (self : St) :
  bind (modify f) k self = k tt (f self).
Proof.
  unfold bind, modify. destruct (k tt (f self)) as [[? ?] ?]; reflexivity.
Qed.

Lemma bind_log (e : L) (k : unit -> M St L B) (self : St) :
  bind (log e) k self
  = (state_of (k tt self), e :: logs_of (k tt self), outcome_of (k tt self)).
Proof.
  unfold bind, log, state_of, logs_of, outcome_of.
  destruct (k tt self) as [[? ?] ?]; reflexivity.
Qed.

Lemma bind_ret (a : A) (k : A -> M St L B) (self : St) :
  bind (ret a) k self = k a self.
Proof. unfold bind, ret. destruct (k a self) as [[? ?] ?]; reflexivity. Qed.

Lemma state_of_mk (self : St) (l : list L) (o : outcome A) :
  state_of (self, l, o) = self.
Proof. reflexivity. Qed.

Lemma logs_of_mk (self : St) (l : list L) (o : outcome A) :
  logs_of (self, l, o) = l.
Proof. reflexivity. Qed.

Lemma outcome_of_mk (self : St) (l : list L) (o : outcome A) :
  outcome_of (self, l, o) = o.
Proof. reflexivity. Qed.

Lemma bind_then_modify (m : M St L unit) (f : St -> St) (self : St) :
  outcome_of (m self) = Returned tt ->
  bind m (fun _ => modify f) self
  = (f (state_of (m self)), logs_of (m self), Returned tt).
Proof.
  unfold bind, modify, state_of, logs_of, outcome_of.
  destruct (m self) as [[s1 l1] o1]; cbn. intros ->.
  rewrite app_nil_r. reflexivity.
Qed.

End MonadSteps.

Ltac py_try :=
  match goal with
  | |- context [bind (try_ ?o) _ _] =>
      let E := fresh "E" in
      destruct o eqn:E; [rewrite bind_try_some | rewrite bind_try_none]
  end.

Ltac py_try_as x E :=
  match goal with
  | |- context [bind (try_ ?o) _ _] =>
      destruct o as [x|] eqn:E; [rewrite bind_try_some | rewrite bind_try_none]
  end.

Ltac py_step :=
  first [ rewrite bind_get | rewrite bind_modify | rewrite bind_ret ];
  cbv zeta.

(** ** [HAFlags.process_candle_data] case by case *)

Section ProcessCandle.
Import HAFlags.
Context `{PyRuntime}.

(** The timestamps converted by the first comprehension convert again in
    the second. *)
Lemma filter_by_T_total (p q : Z -> bool) (buffer kept : list Trade) :
  filter_by_T p buffer = Some kept ->
  exists kept', filter_by_T q buffer = Some kept'.
Proof.
  revert kept. induction buffer as [|t rest IH]; intros kept; cbn.
  - eauto.
  - destruct (py_int (t_T t)); [|discriminate].
    destruct (filter_by_T p rest) as [k|]; [|discriminate].
    destruct (IH k eq_refl) as [k' ->]. eauto.
Qed.

Lemma filter_by_T_filter (p : Z -> bool) (buffer kept : list Trade) :
  filter_by_T p buffer = Some kept ->
  kept = filter (timestamp_sat p) buffer
  /\ Forall (fun t => exists x, py_int (t_T t) = Some x) buffer.
Proof.
  revert kept. induction buffer as [|t rest IH]; intros kept; cbn.
  - intros [= <-]. split; constructor.
  - unfold timestamp_sat at 1.
    destruct (py_int (t_T t)) as [x|] eqn:Ex; [|discriminate].
    destruct (filter_by_T p rest) as [k|]; [|discriminate].
    intros [= <-]. destruct (IH k eq_refl) as [-> Hall].
    split; [destruct (p x); reflexivity|].
    constructor; eauto.
Qed.


(** What a call of [process_candle_data] does, by the place where it stops:
    (a) a field of the candle does not convert, or [last_ha_close] is
        missing: nothing is assigned;
    (b) a buffered trade has no integer timestamp: only the Heikin-Ashi
        attributes are assigned;
    (c) a trade of the window has no numeric volume: the Heikin-Ashi
        attributes are assigned and both buffers are drained;
    (d) otherwise the record is logged, the setup logic runs on it, and it
        is kept as [last_candle_data]. *)
Lemma process_candle_data_cases (candle : Candle) (self : OrderFlowTracker) :
  ((candle_fields candle = None
    \/ exists s e o h l c,
         candle_fields candle = Some (s, e, o, h, l, c)
         /\ ha_open_of self o c = None)
   /\ process_candle_data candle self = (self, [], Raised))
  \/ (exists s e o h l c ho,
        candle_fields candle = Some (s, e, o, h, l, c)
        /\ ha_open_of self o c = Some ho
        /\ let hc := ha_close_of o h l c in
           (filter_by_T (in_window s e) (trade_buffer self) = None
            /\ process_candle_data candle self
               = (ha_advanced ho hc self, [], Raised))
           \/ (exists rel rest,
                 filter_by_T (in_window s e) (trade_buffer self) = Some rel
                 /\ filter_by_T (after_window e) (trade_buffer self)
                    = Some rest
                 /\ let self1 := drained rest e (ha_advanced ho hc self) in
                    ((volumes_of "Buy" rel = None
                      \/ volumes_of "Sell" rel = None)
                     /\ process_candle_data candle self
                        = (self1, [], Raised))
                    \/ (exists buys sells,
                          volumes_of "Buy" rel = Some buys
                          /\ volumes_of "Sell" rel = Some sells
                          /\ let out :=
                               output_data_of s c ho hc
                                 (agg_ratio_of (py_sum buys) (py_sum sells))
                                 (avg_bbo_imba_of (relevant_bbo s e self)) in
                             let r := _run_trade_setup_logic out self1 in
                             process_candle_data candle self
                             = (set_last_candle_data (Some out) (state_of r),
                                InfoRecord out :: logs_of r,
                                Returned tt)))).
Proof.
  unfold process_candle_data, candle_fields.
  py_try_as s Es; [|left; split; [left|]; reflexivity].
  py_try_as e Ee; [|left; split; [left|]; reflexivity].
  py_try_as o Eo; [|left; split; [left|]; reflexivity].
  py_try_as h Eh; [|left; split; [left|]; reflexivity].
  py_try_as l El; [|left; split; [left|]; reflexivity].
  py_try_as c Ec; [|left; split; [left|]; reflexivity].
  py_step.
  py_try_as ho Eho.
  2:{ left. split; [right|reflexivity].
      exists s, e, o, h, l, c. split; [reflexivity | exact Eho]. }
  right. exists s, e, o, h, l, c, ho.
  split; [reflexivity|]. split; [exact Eho|]. cbv zeta.
  do 3 py_step.
  change (trade_buffer (set_last_ha_close _ (set_last_ha_open _ self)))
    with (trade_buffer self).
  py_try_as rel Erel; [|left; split; reflexivity].
  right.
  destruct (filter_by_T_total _ (after_window e) _ _ Erel) as [rest Hrest].
  rewrite Hrest. rewrite bind_try_some.
  exists rel, rest. do 2 (split; [reflexivity|]). cbv zeta.
  do 3 py_step.
  py_try_as buys Eb; [|left; split; [left; reflexivity | reflexivity]].
  py_try_as sells Esl; [|left; split; [right; reflexivity | reflexivity]].
  right. exists buys, sells. do 2 (split; [reflexivity|]). cbv zeta.
  rewrite bind_log.
  rewrite bind_then_modify by apply setup_logic_returns.
  reflexivity.
Qed.

End ProcessCandle.

(** ** Frame properties of the handlers of [OrderF_HAFlags.py] *)

Section HandlersFrame.
Import HAFlags.
Context `{PyRuntime}.

Lemma same_setup_refl (self : OrderFlowTracker) : same_setup self self.
Proof. repeat split. Qed.

Lemma counters_ok_same_setup (a b : OrderFlowTracker) :
  same_setup a b -> counters_ok b -> counters_ok a.
Proof.
  unfold same_setup, counters_ok. intros (-> & -> & -> & _). tauto.
Qed.

(** [process_candle_data] either raises before anything is logged, leaving
    the setup attributes alone, or logs the record and runs the setup logic
    on it from an object with the same setup attributes. *)
Lemma process_candle_data_setup (candle : Candle) (self : OrderFlowTracker) :
  let r := process_candle_data candle self in
  (logs_of r = [] /\ outcome_of r = Raised /\ same_setup (state_of r) self)
  \/ (exists d self1,
        same_setup self1 self
        /\ logs_of r = InfoRecord d :: logs_of (_run_trade_setup_logic d self1)
        /\ state_of r
           = set_last_candle_data (Some d)
               (state_of (_run_trade_setup_logic d self1))
        /\ outcome_of r = Returned tt).
Proof.
  cbv zeta.
  destruct (process_candle_data_cases candle self)
    as [(_ & ->) | (s & e & o & h & l & c & ho & _ & _ & Hrest)].
  { left. repeat split. }
  cbv zeta in Hrest.
  destruct Hrest as [(_ & ->) | (rel & rest & _ & _ & Hrest)].
  { left. repeat split. }
  cbv zeta in Hrest.
  destruct Hrest as [(_ & ->) | (buys & sells & _ & _ & ->)].
  { left. repeat split. }
  right. do 2 eexists. split; [|repeat split]. repeat split.
Qed.

(** [process_candle_data] either leaves the counters alone, or moves them
    by one run of the setup logic from a state with the same counters. *)
Lemma process_candle_data_counters (candle : Candle)
  (self : OrderFlowTracker) :
  counters_ok self ->
  counters_ok (state_of (process_candle_data candle self)).
Proof.
  intro Hok.
  destruct (process_candle_data_cases candle self)
    as [(_ & ->) | (s & e & o & h & l & c & ho & _ & _ & Hrest)].
  { exact Hok. }
  cbv zeta in Hrest.
  destruct Hrest as [(_ & ->) | (rel & rest & _ & _ & Hrest)].
  { exact Hok. }
  cbv zeta in Hrest.
  destruct Hrest as [(_ & ->) | (buys & sells & _ & _ & ->)].
  { exact Hok. }
  unfold state_of at 1. cbn [fst].
  match goal with
  | |- counters_ok (set_last_candle_data _ (state_of (?f ?d ?s))) =>
      pose proof (setup_logic_counters_ok d s Hok) as Hc
  end.
  exact Hc.
Qed.

Lemma handle_counters_ok (m : Message) (self : OrderFlowTracker) :
  counters_ok self -> counters_ok (state_of (handle m self)).
Proof.
  intro Hok. destruct m as [data | message | data]; cbn [handle].
  - exact Hok.
  - unfold handle_bbo_message, try_except.
    destruct (m_b message) as [|bid ?]; [exact Hok|].
    destruct (m_a message) as [|ask ?]; [exact Hok|].
    destruct (py_float (snd bid)); [rewrite bind_try_some | exact Hok].
    destruct (py_float (snd ask)); [rewrite bind_try_some | exact Hok].
    cbv zeta.
    destruct (py_int (m_ts message)); [rewrite bind_try_some | exact Hok].
    exact Hok.
  - unfold handle_kline_message.
    destruct data as [|candle ?]; [exact Hok|].
    rewrite bind_get.
    destruct (c_confirm candle
              && negb (py_eqb (last_kline_start_time self) (c_start candle)));
      [|exact Hok].
    rewrite bind_modify.
    apply process_candle_data_counters. exact Hok.
Qed.

End HandlersFrame.

(** ** Claims about the setup logic *)

Section SetupClaims.
Import HAFlags.

Lemma counters_ok_init : counters_ok init.
Proof.
  unfold counters_ok, ALERT_COOLDOWN_PERIOD, CONSOLIDATION_WATCH_PERIOD.
  cbn. lia.
Qed.

Lemma setup_run_counters_ok (records : list CandleRecord) :
  forall self, counters_ok self -> counters_ok (fst (setup_run records self)).
Proof.
  induction records as [|d rest IH]; intros self Hok; cbn [setup_run fst].
  - exact Hok.
  - apply IH. apply (setup_logic_counters_ok d self Hok).
Qed.

Lemma run_counters_ok `{PyRuntime} (ms : list Message) :
  forall self, counters_ok self -> counters_ok (fst (HAFlags_run ms self)).
Proof.
  induction ms as [|m rest IH]; intros self Hok; cbn [HAFlags_run fst].
  - exact Hok.
  - apply IH. apply handle_counters_ok. exact Hok.
Qed.

(** C10. From a fresh tracker, whatever records the setup logic is run on,
    and whatever messages the handlers receive, the cooldown stays within
    0..5, the consolidation watch within 0..3, and the green streak is never
    negative. *)
Theorem counters_within_bounds :
  (forall records : list CandleRecord,
     let self := fst (setup_run records init) in
     0 <= alert_cooldown self <= 5
     /\ 0 <= consolidation_watch_countdown self <= 3
     /\ 0 <= ha_green_streak self)
  /\ (forall (R : PyRuntime) (ms : list Message),
        let self := fst (HAFlags_run ms init) in
        0 <= alert_cooldown self <= 5
        /\ 0 <= consolidation_watch_countdown self <= 3
        /\ 0 <= ha_green_streak self).
Proof.
  split.
  - intro records. exact (setup_run_counters_ok records init counters_ok_init).
  - intros R ms. exact (run_counters_ok ms init counters_ok_init).
Qed.

Lemma setup_logic_beyond_four (self : OrderFlowTracker) (d : CandleRecord) :
  4 <= ha_green_streak self ->
  consolidation_watch_countdown self = 0 ->
  let r := _run_trade_setup_logic d self in
  alerts (logs_of r) = []
  /\ consolidation_watch_countdown (state_of r) = 0
  /\ (HA_color d = Green ->
      ha_green_streak (state_of r) = ha_green_streak self + 1)
  /\ (HA_color d = Red -> ha_green_streak (state_of r) = 0).
Proof.
  intros Hs Hw. cbv zeta.
  unfold _run_trade_setup_logic; run_monad.
  destruct (0 <? alert_cooldown self) eqn:Hcool;
    destruct (HA_color d) eqn:Hcolor; cbn;
    repeat match goal with
      | |- context [if 0 <? ?x then _ else _] =>
          let E := fresh "E" in destruct (0 <? x) eqn:E; cbn
      end;
    rewrite ?Hw;
    try (replace (ha_green_streak self + 1 =? 4) with false
           by (symmetry; apply Z.eqb_neq; lia));
    cbn; rewrite ?Hw; cbn;
    repeat split; try reflexivity; try discriminate; try lia.
Qed.

(** C6. With a green streak of four or more and no consolidation watch
    running, the candle being processed logs no alert, whatever its color
    and metrics: this holds for the setup logic on any record and for
    [process_candle_data] on any candle.  The watch stays off, and the streak
    grows on a Green candle and is reset by a Red one. *)
Theorem no_alert_beyond_streak_four :
  forall (self : OrderFlowTracker),
    4 <= ha_green_streak self ->
    consolidation_watch_countdown self = 0 ->
    (forall d : CandleRecord,
       let r := _run_trade_setup_logic d self in
       alerts (logs_of r) = []
       /\ consolidation_watch_countdown (state_of r) = 0
       /\ (HA_color d = Green ->
           ha_green_streak (state_of r) = ha_green_streak self + 1)
       /\ (HA_color d = Red -> ha_green_streak (state_of r) = 0))
    /\ (forall (R : PyRuntime) (candle : Candle),
          alerts (logs_of (process_candle_data candle self)) = []).
Proof.
  intros self Hs Hw. split.
  - intro d. exact (setup_logic_beyond_four self d Hs Hw).
  - intros R candle.
    destruct (process_candle_data_setup candle self)
      as [(-> & _) | (d & self1 & (Hs1 & Hw1 & _) & -> & _)].
    + reflexivity.
    + cbn [alerts filter is_alert].
      apply (setup_logic_beyond_four self1 d); congruence.
Qed.

(** After an alert the cooldown is 5, and the four candles that follow log
    no alert. *)
Lemma cooldown_suppresses (records : list CandleRecord) :
  forall self,
    Z.of_nat (List.length records) < alert_cooldown self ->
    Forall (fun l => alerts l = []) (snd (setup_run records self)).
Proof.
  induction records as [|d rest IH]; intros self Hlen;
    cbn [setup_run snd].
  - constructor.
  - cbn [List.length] in Hlen.
    destruct (setup_logic_cooling d self ltac:(lia)) as [Hno Hdec].
    constructor; [exact Hno|].
    apply IH.
    pose proof (setup_logic_frame d self) as Hfr. cbv zeta in Hfr.
    change (alert_cooldown
              (set_last_candle_data (Some d)
                 (state_of (_run_trade_setup_logic d self))))
      with (alert_cooldown (state_of (_run_trade_setup_logic d self))).
    lia.
Qed.

(** Whenever the cooldown has just been set, a Red candle followed by four
    Green candles in the green zone brings the streak back to four on the
    fifth candle, where the cooldown has run out: an alert is logged. *)
Lemma alert_possible_on_fifth_candle (self : OrderFlowTracker) :
  alert_cooldown self = ALERT_COOLDOWN_PERIOD ->
  map alerts
    (snd (setup_run
            [falling_red; strong_green; strong_green; strong_green;
             strong_green] self))
  = [[]; []; []; []; [WarnStrictEntry (utc strong_green)]].
Proof.
  destruct self as [tb bb lk lo lc streak watch cooldown last].
  cbn [alert_cooldown]. unfold ALERT_COOLDOWN_PERIOD. intros ->.
  vm_compute. reflexivity.
Qed.

(** So every alert can be followed by another one five candles later. *)
Lemma alert_again_five_candles_later (d : CandleRecord)
  (self : OrderFlowTracker) :
  alerts (logs_of (_run_trade_setup_logic d self)) <> [] ->
  let self' :=
    set_last_candle_data (Some d) (state_of (_run_trade_setup_logic d self)) in
  map alerts
    (snd (setup_run
            [falling_red; strong_green; strong_green; strong_green;
             strong_green] self'))
  = [[]; []; []; []; [WarnStrictEntry (utc strong_green)]].
Proof.
  intros Ha self'. apply alert_possible_on_fifth_candle.
  destruct (setup_logic_alert d self Ha) as (_ & _ & Hc & _). exact Hc.
Qed.

(** C1, evaluated.  Nine one-minute candles: four rising, one falling, four
    rising, buyers taking 60% of the volume throughout.  The fourth candle
    (start 240000) logs a Strict Entry alert and sets the cooldown to 5; the
    ninth candle (start 540000), which is the fifth candle after it, logs a
    Strict Entry alert again. *)
Theorem cooldown_allows_alert_on_fifth_candle :
  let after_four :=
    fst (@HAFlags_run decimal_runtime (firstn 8 nine_minutes) init) in
  let log := snd (@HAFlags_run decimal_runtime nine_minutes init) in
  alert_cooldown after_four = 5
  /\ colors_of log
     = [Green; Green; Green; Green; Red; Green; Green; Green; Green]
  /\ alerts log = [WarnStrictEntry 240000; WarnStrictEntry 540000].
Proof. vm_compute. repeat split. Qed.

End SetupClaims.

(** ** The Heikin-Ashi recurrence *)

Section HeikinAshi.
Import HAFlags.
Context `{PyRuntime}.




(** After [process_candle_data] the Heikin-Ashi attributes are the ones it
    found, or both assigned. *)
Lemma process_candle_data_ha (candle : Candle) (self : OrderFlowTracker) :
  let self' := state_of (process_candle_data candle self) in
  (last_ha_open self' = last_ha_open self
   /\ last_ha_close self' = last_ha_close self)
  \/ (exists s e o h l c ho,
        candle_fields candle = Some (s, e, o, h, l, c)
        /\ ha_open_of self o c = Some ho
        /\ last_ha_open self' = Some ho
        /\ last_ha_close self' = Some (ha_close_of o h l c)).
Proof.
  cbv zeta.
  destruct (process_candle_data_cases candle self)
    as [(_ & ->) | (s & e & o & h & l & c & ho & Hf & Hho & Hrest)].
  { left. split; reflexivity. }
  right. exists s, e, o, h, l, c, ho. do 2 (split; [assumption|]).
  cbv zeta in Hrest.
  destruct Hrest as [(_ & ->) | (rel & rest & _ & _ & Hrest)].
  { split; reflexivity. }
  cbv zeta in Hrest.
  destruct Hrest as [(_ & ->) | (buys & sells & _ & _ & ->)].
  { split; reflexivity. }
  rewrite !state_of_mk.
  match goal with
  | |- context [_run_trade_setup_logic ?d ?s] =>
      destruct (setup_logic_frame d s) as (_ & _ & _ & Ho & Hc & _)
  end.
  cbn [last_ha_open last_ha_close set_last_candle_data].
  rewrite Ho, Hc. split; reflexivity.
Qed.

Lemma handle_ha_state_ok (m : Message) (self : OrderFlowTracker) :
  ha_state_ok self -> ha_state_ok (state_of (handle m self)).
Proof.
  intro Hok. destruct m as [data | message | data]; cbn [handle].
  - exact Hok.
  - unfold handle_bbo_message, try_except.
    destruct (m_b message) as [|bid ?]; [exact Hok|].
    destruct (m_a message) as [|ask ?]; [exact Hok|].
    destruct (py_float (snd bid)); [rewrite bind_try_some | exact Hok].
    destruct (py_float (snd ask)); [rewrite bind_try_some | exact Hok].
    cbv zeta.
    destruct (py_int (m_ts message)); [rewrite bind_try_some | exact Hok].
    exact Hok.
  - unfold handle_kline_message.
    destruct data as [|candle ?]; [exact Hok|].
    rewrite bind_get.
    destruct (c_confirm candle
              && negb (py_eqb (last_kline_start_time self) (c_start candle)));
      [|exact Hok].
    rewrite bind_modify.
    set (self0 := set_last_kline_start_time (c_start candle) self).
    assert (Hok0 : ha_state_ok self0) by exact Hok.
    destruct (process_candle_data_ha candle self0)
      as [(Ho & Hc) | (s & e & o & h & l & c & ho & _ & _ & Ho & Hc)];
      unfold ha_state_ok.
    + rewrite Ho, Hc. exact Hok0.
    + right. eauto.
Qed.

(** The two attributes are assigned together in every state a fresh tracker
    can reach. *)
Lemma run_ha_state_ok (ms : list Message) :
  forall self, ha_state_ok self -> ha_state_ok (fst (HAFlags_run ms self)).
Proof.
  induction ms as [|m rest IH]; intros self Hok; cbn [HAFlags_run fst].
  - exact Hok.
  - apply IH, handle_ha_state_ok, Hok.
Qed.


End HeikinAshi.


(** ** [Exhaust.process_candle_data] case by case *)

Section ExhaustProcess.
Import Exhaust.
Context `{PyRuntime}.

(** A call either raises before anything is assigned, or adds the candle's
    volume delta to the cumulative delta, appends the new value to the
    history, logs one record and drops the trades up to [end_ms]. *)
Lemma Exhaust_process_cases (candle : Candle) (self : OrderFlowTracker) :
  ((volume_delta_of self candle = None \/ py_float (c_close candle) = None)
   /\ process_candle_data candle self = (self, [], Raised))
  \/ (exists s e c rel rest buy sell,
        py_int (c_start candle) = Some s
        /\ py_int (c_end candle) = Some e
        /\ py_float (c_close candle) = Some c
        /\ filter_by_T (in_window s e) (trade_buffer self) = Some rel
        /\ filter_by_T (after_window e) (trade_buffer self) = Some rest
        /\ aggregate_volumes rel 0.0 0.0 = Some (buy, sell)
        /\ volume_delta_of self candle = Some (buy - sell)%Q
        /\ let cvd := (cumulative_volume_delta self + (buy - sell))%Q in
           let self1 :=
             set_cvd_history
               (deque_append (cvd_zscore_period self) (cvd_history self) cvd)
               (set_cumulative_volume_delta cvd self) in
           exists out,
             cumulative_volume_delta_out out = py_round cvd 4
             /\ delta out = py_round (buy - sell) 4
             /\ cvd_zscore_ratio out = py_round (cvd_zscore_of self1) 4
             /\ process_candle_data candle self
                = (set_trade_buffer rest self1, [out], Returned tt)).
Proof.
  unfold process_candle_data.
  py_try_as s Es.
  2:{ left; split; [left|reflexivity].
      unfold volume_delta_of. rewrite Es. reflexivity. }
  py_try_as e Ee.
  2:{ left; split; [left|reflexivity].
      unfold volume_delta_of. rewrite Es, Ee. reflexivity. }
  py_try_as c Ec; [|left; split; [right|]; reflexivity].
  py_step.
  py_try_as rel Erel.
  2:{ left; split; [left|reflexivity].
      unfold volume_delta_of. rewrite Es, Ee, Erel. reflexivity. }
  py_try_as vs Evs.
  2:{ left; split; [left|reflexivity].
      unfold volume_delta_of. rewrite Es, Ee, Erel, Evs. reflexivity. }
  destruct vs as [buy sell].
  right. exists s, e, c, rel.
  destruct (filter_by_T_total _ (after_window e) _ _ Erel) as [rest Hrest].
  exists rest, buy, sell.
  do 3 (split; [reflexivity|]). do 3 (split; [assumption|]).
  split.
  { unfold volume_delta_of. rewrite Es, Ee, Erel, Evs. reflexivity. }
  cbv zeta. cbn [fst snd].
  do 3 py_step. rewrite bind_log.
  change (trade_buffer (set_cvd_history _ (set_cumulative_volume_delta _ self)))
    with (trade_buffer self).
  rewrite Hrest. unfold try_, bind, ret, modify.
  rewrite !state_of_mk, !logs_of_mk, !outcome_of_mk.
  eexists. split; [|split; [|split; [|reflexivity]]]; reflexivity.
Qed.

End ExhaustProcess.

(** ** Window extraction *)

Section Extraction.
Context `{PyRuntime}.







End Extraction.


(** ** Duplicate candles *)

Section Dedup.
Context `{PyRuntime}.

Lemma py_eqb_refl (x : pyval) : py_eqb x x = true.
Proof.
  destruct x; cbn.
  - reflexivity.
  - apply Z.eqb_refl.
  - apply Qeq_bool_refl.
  - apply String.eqb_refl.
Qed.

(** [process_candle_data] does not assign [last_kline_start_time]. *)
Lemma HAFlags_process_kline (candle : Candle)
  (self : HAFlags.OrderFlowTracker) :
  HAFlags.last_kline_start_time
    (state_of (HAFlags.process_candle_data candle self))
  = HAFlags.last_kline_start_time self.
Proof.
  destruct (process_candle_data_cases candle self)
    as [(_ & ->) | (s & e & o & h & l & c & ho & _ & _ & Hrest)].
  { reflexivity. }
  cbv zeta in Hrest.
  destruct Hrest as [(_ & ->) | (rel & rest & _ & _ & Hrest)].
  { reflexivity. }
  cbv zeta in Hrest.
  destruct Hrest as [(_ & ->) | (buys & sells & _ & _ & ->)].
  { reflexivity. }
  rewrite !state_of_mk.
  match goal with
  | |- context [HAFlags._run_trade_setup_logic ?d ?s] =>
      destruct (setup_logic_frame d s) as (_ & _ & Hk & _)
  end.
  cbn [HAFlags.last_kline_start_time HAFlags.set_last_candle_data].
  rewrite Hk. reflexivity.
Qed.

Lemma Exhaust_process_kline (candle : Candle)
  (self : Exhaust.OrderFlowTracker) :
  Exhaust.last_kline_start_time
    (state_of (Exhaust.process_candle_data candle self))
  = Exhaust.last_kline_start_time self.
Proof.
  destruct (Exhaust_process_cases candle self)
    as [(_ & ->)
       | (s & e & c & rel & rest & buy & sell & _ & _ & _ & _ & _ & _ & _
          & Hout)].
  { reflexivity. }
  cbv zeta in Hout. destruct Hout as (out & _ & _ & _ & ->).
  reflexivity.
Qed.

(** Once a confirmed candle has been handled, its start is the
    last-processed start. *)
Lemma HAFlags_kline_remembered (candle : Candle) (rest : list Candle)
  (self : HAFlags.OrderFlowTracker) :
  c_confirm candle = true ->
  py_eqb (HAFlags.last_kline_start_time
            (state_of (HAFlags.handle_kline_message (candle :: rest) self)))
    (c_start candle) = true.
Proof.
  intro Hc. unfold HAFlags.handle_kline_message.
  rewrite bind_get, Hc. cbn [andb].
  destruct (py_eqb (HAFlags.last_kline_start_time self) (c_start candle))
    eqn:E; cbn [negb].
  - exact E.
  - rewrite bind_modify, HAFlags_process_kline. apply py_eqb_refl.
Qed.

Lemma Exhaust_kline_remembered (candle : Candle) (rest : list Candle)
  (self : Exhaust.OrderFlowTracker) :
  c_confirm candle = true ->
  py_eqb (Exhaust.last_kline_start_time
            (state_of (Exhaust.handle_kline_message (candle :: rest) self)))
    (c_start candle) = true.
Proof.
  intro Hc. unfold Exhaust.handle_kline_message.
  rewrite Hc, bind_get.
  destruct (py_eqb (Exhaust.last_kline_start_time self) (c_start candle))
    eqn:E; cbn [negb].
  - exact E.
  - rewrite bind_modify, Exhaust_process_kline. apply py_eqb_refl.
Qed.

Lemma HAFlags_duplicate (candle : Candle) (rest : list Candle)
  (self : HAFlags.OrderFlowTracker) :
  py_eqb (HAFlags.last_kline_start_time self) (c_start candle) = true ->
  HAFlags.handle_kline_message (candle :: rest) self
  = (self, [], Returned tt).
Proof.
  intro E. unfold HAFlags.handle_kline_message.
  rewrite bind_get, E, andb_false_r. reflexivity.
Qed.

Lemma Exhaust_duplicate (candle : Candle) (rest : list Candle)
  (self : Exhaust.OrderFlowTracker) :
  py_eqb (Exhaust.last_kline_start_time self) (c_start candle) = true ->
  Exhaust.handle_kline_message (candle :: rest) self
  = (self, [], Returned tt).
Proof.
  intro E. unfold Exhaust.handle_kline_message.
  destruct (c_confirm candle); [|reflexivity].
  rewrite bind_get, E. reflexivity.
Qed.

(** C9. A kline message whose candle starts at the last-processed start is
    ignored by both trackers: the handler returns, logs nothing and leaves
    the object as it was.  In particular a confirmed candle delivered again
    right after it was handled is ignored. *)
Theorem duplicate_candle_ignored :
  forall (candle : Candle) (rest : list Candle),
    (forall self : HAFlags.OrderFlowTracker,
       py_eqb (HAFlags.last_kline_start_time self) (c_start candle) = true ->
       HAFlags.handle_kline_message (candle :: rest) self
       = (self, [], Returned tt))
    /\ (forall self : Exhaust.OrderFlowTracker,
          py_eqb (Exhaust.last_kline_start_time self) (c_start candle) = true ->
          Exhaust.handle_kline_message (candle :: rest) self
          = (self, [], Returned tt))
    /\ (forall (self : HAFlags.OrderFlowTracker) (first : list Candle),
          c_confirm candle = true ->
          let self' :=
            state_of (HAFlags.handle_kline_message (candle :: first) self) in
          HAFlags.handle_kline_message (candle :: rest) self'
          = (self', [], Returned tt))
    /\ (forall (self : Exhaust.OrderFlowTracker) (first : list Candle),
          c_confirm candle = true ->
          let self' :=
            state_of (Exhaust.handle_kline_message (candle :: first) self) in
          Exhaust.handle_kline_message (candle :: rest) self'
          = (self', [], Returned tt)).
Proof.
  intros candle rest. repeat split.
  - intros self E. exact (HAFlags_duplicate candle rest self E).
  - intros self E. exact (Exhaust_duplicate candle rest self E).
  - intros self first Hc self'. apply HAFlags_duplicate.
    exact (HAFlags_kline_remembered candle first self Hc).
  - intros self first Hc self'. apply Exhaust_duplicate.
    exact (Exhaust_kline_remembered candle first self Hc).
Qed.

End Dedup.

(** The first candle, delivered a second time. *)
Lemma duplicate_candle_ignored_witness :
  let self' :=
    state_of (@HAFlags.handle_kline_message decimal_runtime [first_candle]
                HAFlags.init) in
  c_confirm first_candle = true
  /\ py_eqb (HAFlags.last_kline_start_time self') (c_start first_candle)
     = true
  /\ @HAFlags.handle_kline_message decimal_runtime [first_candle] self'
     = (self', [], Returned tt).
Proof.
  cbv zeta. split; [reflexivity|]. split; [reflexivity|].
  apply (proj1 (@duplicate_candle_ignored decimal_runtime first_candle [])).
  reflexivity.
Defined.

(** A streak of seven, then a Green candle with both metrics at 0.6: the
    entry conditions hold and no alert is logged. *)
Lemma no_alert_beyond_streak_four_witness :
  HAFlags._check_entry_conditions streak_of_seven strong_green = true
  /\ HAFlags.alerts
       (logs_of (HAFlags._run_trade_setup_logic strong_green streak_of_seven))
     = [].
Proof.
  split; [reflexivity|].
  apply (proj1 (no_alert_beyond_streak_four streak_of_seven
                  ltac:(cbn; lia) eq_refl) strong_green).
Defined.

(** ** Failures while handling a message *)

Section Failures.
Context `{PyRuntime}.



End Failures.



(** ** Rounding *)

Section Rounding.
Import HAFlags.
Context `{PyRuntime}.


End Rounding.



(** ** The cumulative volume delta *)

Section CumulativeDelta.
Import Exhaust.
Context `{PyRuntime}.








End CumulativeDelta.



(** * Further properties of the code *)

(** ** The setup logic, candle by candle *)

Section SetupSteps.
Import HAFlags.

Lemma check_entry_conditions_green (self : OrderFlowTracker)
  (d : CandleRecord) :
  _check_entry_conditions self d = true -> HA_color d = Green.
Proof.
  unfold _check_entry_conditions. destruct (HA_color d); cbn.
  - reflexivity.
  - discriminate.
Qed.

Ltac setup_split self d :=
  unfold _run_trade_setup_logic; run_monad;
  destruct (0 <? alert_cooldown self) eqn:Hcool;
  destruct (HA_color d) eqn:Hcolor; cbn;
  repeat match goal with
    | |- context [_check_entry_conditions ?a d] =>
        lazymatch a with
        | self => fail
        | _ => rewrite (check_entry_conditions_any_self a self d)
        end
    end;
  repeat match goal with
    | |- context [if ?b then _ else _] =>
        let E := fresh "E" in destruct b eqn:E; cbn
    end;
  repeat match goal with
    | H : (_ <? _) = true |- _ => apply Z.ltb_lt in H
    | H : (_ <? _) = false |- _ => apply Z.ltb_ge in H
    | H : (_ =? _) = true |- _ => apply Z.eqb_eq in H
    | H : (_ =? _) = false |- _ => apply Z.eqb_neq in H
    end.

Lemma setup_logic_alert_iff :
  forall (self : OrderFlowTracker) (d : CandleRecord),
    let r := _run_trade_setup_logic d self in
    (alerts (logs_of r) <> [] <->
       alert_cooldown self <= 1
       /\ _check_entry_conditions self d = true
       /\ (ha_green_streak self = 3
           \/ 0 < consolidation_watch_countdown self))
    /\ (alerts (logs_of r) = []
        \/ (alerts (logs_of r) = [WarnStrictEntry (utc d)]
            /\ ha_green_streak self = 3
            /\ alert_cooldown (state_of r) = 5
            /\ consolidation_watch_countdown (state_of r) = 0)
        \/ (alerts (logs_of r) = [WarnConsolidationEntry (utc d)]
            /\ ha_green_streak self <> 3
            /\ alert_cooldown (state_of r) = 5
            /\ consolidation_watch_countdown (state_of r) = 0)).
Proof.
  intros self d. cbv zeta.
  assert (Hred : HA_color d = Red -> _check_entry_conditions self d = false).
  { intro Hr. unfold _check_entry_conditions. rewrite Hr. reflexivity. }
  setup_split self d;
    try (rewrite (Hred eq_refl) in *);
    (split;
     [ split;
       [ intro Ha; try (exfalso; apply Ha; reflexivity);
         repeat split; try assumption; try reflexivity; try lia
       | intros (Hc & Hchk & Hs); try discriminate; try congruence;
         try lia; try (destruct Hs; lia) ]
     | first [ left; reflexivity
             | right; left; repeat split; try reflexivity; lia
             | right; right; repeat split; try reflexivity; lia ] ]).
Qed.


(** X1. Whether a candle logs an alert is decided by the state before it:
    an alert is logged exactly when the cooldown is at most 1, the entry
    conditions hold, and either the streak stands at three (Strict Entry) or
    a consolidation watch is running (Consolidation Watch Entry).  At most
    one alert is logged, it carries the candle's timestamp, sets the cooldown
    to 5 and clears the watch. *)
Theorem alert_fires_iff :
  forall (self : OrderFlowTracker) (d : CandleRecord),
    let r := _run_trade_setup_logic d self in
    (alerts (logs_of r) <> [] <->
       alert_cooldown self <= 1
       /\ _check_entry_conditions self d = true
       /\ (ha_green_streak self = 3
           \/ 0 < consolidation_watch_countdown self))
    /\ (alerts (logs_of r) = []
        \/ (alerts (logs_of r) = [WarnStrictEntry (utc d)]
            /\ ha_green_streak self = 3
            /\ alert_cooldown (state_of r) = 5
            /\ consolidation_watch_countdown (state_of r) = 0)
        \/ (alerts (logs_of r) = [WarnConsolidationEntry (utc d)]
            /\ ha_green_streak self <> 3
            /\ alert_cooldown (state_of r) = 5
            /\ consolidation_watch_countdown (state_of r) = 0)).
Proof. exact setup_logic_alert_iff. Qed.

(** X2. A Red candle breaks the trend on the spot: whatever the state, the
    streak and the consolidation watch are reset to 0, nothing is logged, and
    a pending cooldown still goes down by one. *)
Theorem red_candle_resets :
  forall (self : OrderFlowTracker) (d : CandleRecord),
    HA_color d = Red ->
    let r := _run_trade_setup_logic d self in
    ha_green_streak (state_of r) = 0
    /\ consolidation_watch_countdown (state_of r) = 0
    /\ logs_of r = []
    /\ (0 < alert_cooldown self ->
        alert_cooldown (state_of r) = alert_cooldown self - 1)
    /\ (alert_cooldown self <= 0 ->
        alert_cooldown (state_of r) = alert_cooldown self).
Proof.
  intros self d Hred. cbv zeta.
  setup_split self d; try discriminate; repeat split; intros; lia.
Qed.

(** A Green candle that fails the entry conditions, outside a cooldown:
    on the fourth candle of the streak it opens a watch of three candles;
    during a watch it uses up one of them; otherwise it changes nothing but
    the streak. *)
Lemma setup_logic_failed_green (self : OrderFlowTracker) (d : CandleRecord) :
  HA_color d = Green ->
  _check_entry_conditions self d = false ->
  alert_cooldown self <= 1 ->
  let r := _run_trade_setup_logic d self in
  alerts (logs_of r) = []
  /\ ha_green_streak (state_of r) = ha_green_streak self + 1
  /\ (ha_green_streak self = 3 ->
      consolidation_watch_countdown (state_of r) = 3
      /\ logs_of r = [InfoStrictFailed])
  /\ (ha_green_streak self <> 3 ->
      0 < consolidation_watch_countdown self ->
      consolidation_watch_countdown (state_of r)
      = consolidation_watch_countdown self - 1
      /\ (consolidation_watch_countdown self = 1 ->
          logs_of r = [InfoWatchEnded])
      /\ (consolidation_watch_countdown self <> 1 -> logs_of r = []))
  /\ (ha_green_streak self <> 3 ->
      consolidation_watch_countdown self <= 0 ->
      consolidation_watch_countdown (state_of r)
      = consolidation_watch_countdown self
      /\ logs_of r = []).
Proof.
  intros Hgreen Hchk Hcool0. cbv zeta.
  setup_split self d; try discriminate; try congruence; try lia;
    repeat split; intros; try reflexivity; try congruence; try lia.
Qed.

(** X3. The consolidation watch.  Outside a cooldown, a Green candle that
    fails the entry conditions on the fourth candle of a streak starts a
    watch of 3 candles; each later Green candle that fails uses one up, and
    the end of the watch is logged when the last one is used.  No alert is
    logged by a failing candle. *)
Theorem consolidation_watch_steps :
  forall (self : OrderFlowTracker) (d : CandleRecord),
    HA_color d = Green ->
    _check_entry_conditions self d = false ->
    alert_cooldown self <= 1 ->
    let r := _run_trade_setup_logic d self in
    alerts (logs_of r) = []
    /\ ha_green_streak (state_of r) = ha_green_streak self + 1
    /\ (ha_green_streak self = 3 ->
        consolidation_watch_countdown (state_of r) = 3
        /\ logs_of r = [InfoStrictFailed])
    /\ (ha_green_streak self <> 3 ->
        0 < consolidation_watch_countdown self ->
        consolidation_watch_countdown (state_of r)
        = consolidation_watch_countdown self - 1
        /\ (consolidation_watch_countdown self = 1 ->
            logs_of r = [InfoWatchEnded])
        /\ (consolidation_watch_countdown self <> 1 -> logs_of r = []))
    /\ (ha_green_streak self <> 3 ->
        consolidation_watch_countdown self <= 0 ->
        consolidation_watch_countdown (state_of r)
        = consolidation_watch_countdown self
        /\ logs_of r = []).
Proof. exact setup_logic_failed_green. Qed.

Lemma setup_logic_watch_inv (d : CandleRecord) (self : OrderFlowTracker) :
  counters_ok self -> watch_inv self ->
  watch_inv (state_of (_run_trade_setup_logic d self)).
Proof.
  unfold counters_ok, watch_inv, ALERT_COOLDOWN_PERIOD,
    CONSOLIDATION_WATCH_PERIOD.
  intros (Hc & Hw & Hs) Hinv.
  setup_split self d; cbn; intros Hpos;
    unfold ALERT_COOLDOWN_PERIOD, CONSOLIDATION_WATCH_PERIOD in *; lia.
Qed.

Lemma watch_inv_same_setup (a b : OrderFlowTracker) :
  same_setup a b -> watch_inv b -> watch_inv a.
Proof.
  unfold same_setup, watch_inv. intros (-> & -> & -> & _). tauto.
Qed.

Lemma watch_inv_init : watch_inv init.
Proof. unfold watch_inv. cbn. lia. Qed.

Lemma setup_run_invariants (records : list CandleRecord) :
  forall self,
    counters_ok self -> watch_inv self ->
    counters_ok (fst (setup_run records self))
    /\ watch_inv (fst (setup_run records self)).
Proof.
  induction records as [|d rest IH]; intros self Hok Hinv;
    cbn [setup_run fst].
  - split; assumption.
  - apply IH.
    + apply (setup_logic_counters_ok d self Hok).
    + apply (setup_logic_watch_inv d self Hok Hinv).
Qed.

(** In a state that keeps the invariants, an alert is logged on a Green
    candle that is the fourth to the seventh of its streak. *)
Lemma setup_logic_alert_position (self : OrderFlowTracker)
  (d : CandleRecord) :
  counters_ok self -> watch_inv self ->
  alerts (logs_of (_run_trade_setup_logic d self)) <> [] ->
  HA_color d = Green
  /\ 3 <= ha_green_streak self <= 6
  /\ ha_green_streak (state_of (_run_trade_setup_logic d self))
     = ha_green_streak self + 1.
Proof.
  intros (Hc & Hw & Hs) Hinv Ha.
  unfold CONSOLIDATION_WATCH_PERIOD in Hw.
  destruct (proj1 (proj1 (setup_logic_alert_iff self d)) Ha)
    as (Hcool & Hchk & Hwhere).
  pose proof (check_entry_conditions_green self d Hchk) as Hgreen.
  split; [exact Hgreen|].
  split.
  - destruct Hwhere as [-> | Hpos]; [lia|].
    destruct (Hinv Hpos) as (_ & Hsum). lia.
  - clear Ha. revert Hgreen. clear.
    intro Hgreen. setup_split self d; try discriminate; reflexivity.
Qed.

(** What a handler does to the setup attributes: nothing, or one run of the
    setup logic on the record of the candle it processed. *)
Lemma handle_setup_cases `{PyRuntime} (m : Message)
  (self : OrderFlowTracker) :
  let r := handle m self in
  (alerts (logs_of r) = [] /\ same_setup (state_of r) self)
  \/ (exists d self1 candles,
        m = KlineMessage candles
        /\ same_setup self1 self
        /\ logs_of r = InfoRecord d :: logs_of (_run_trade_setup_logic d self1)
        /\ state_of r
           = set_last_candle_data (Some d)
               (state_of (_run_trade_setup_logic d self1))
        /\ outcome_of r = Returned tt).
Proof.
  cbv zeta. destruct m as [data | message | data]; cbn [handle].
  - left. split; [reflexivity | repeat split].
  - left. unfold handle_bbo_message, try_except.
    destruct (m_b message) as [|bid ?]; [split; [reflexivity|repeat split]|].
    destruct (m_a message) as [|ask ?]; [split; [reflexivity|repeat split]|].
    destruct (py_float (snd bid));
      [rewrite bind_try_some | split; [reflexivity|repeat split]].
    destruct (py_float (snd ask));
      [rewrite bind_try_some | split; [reflexivity|repeat split]].
    cbv zeta.
    destruct (py_int (m_ts message));
      [rewrite bind_try_some | split; [reflexivity|repeat split]].
    split; [reflexivity|repeat split].
  - unfold handle_kline_message.
    destruct data as [|candle rest].
    { left. split; [reflexivity | apply same_setup_refl]. }
    rewrite bind_get.
    destruct (c_confirm candle
              && negb (py_eqb (last_kline_start_time self) (c_start candle))).
    2:{ left. split; [reflexivity | apply same_setup_refl]. }
    rewrite bind_modify.
    set (self0 := set_last_kline_start_time (c_start candle) self).
    destruct (process_candle_data_setup candle self0)
      as [(Hl & _ & Hsame) | (d & self1 & Hsame & Hl & Hs & Ho)].
    + left. rewrite Hl. split; [reflexivity | exact Hsame].
    + right. exists d, self1, (candle :: rest).
      split; [reflexivity|]. split; [exact Hsame|].
      split; [exact Hl|]. split; [exact Hs | exact Ho].
Qed.

Lemma handle_invariants `{PyRuntime} (m : Message)
  (self : OrderFlowTracker) :
  counters_ok self -> watch_inv self ->
  watch_inv (state_of (handle m self)).
Proof.
  intros Hok Hinv.
  destruct (handle_setup_cases m self)
    as [(_ & Hsame) | (d & self1 & candles & _ & Hsame & _ & -> & _)].
  - exact (watch_inv_same_setup _ _ Hsame Hinv).
  - change (watch_inv (state_of (_run_trade_setup_logic d self1))).
    apply setup_logic_watch_inv.
    + exact (counters_ok_same_setup _ _ Hsame Hok).
    + exact (watch_inv_same_setup _ _ Hsame Hinv).
Qed.

Lemma run_invariants `{PyRuntime} (ms : list Message) :
  forall self,
    counters_ok self -> watch_inv self ->
    counters_ok (fst (HAFlags_run ms self))
    /\ watch_inv (fst (HAFlags_run ms self)).
Proof.
  induction ms as [|m rest IH]; intros self Hok Hinv;
    cbn [HAFlags_run fst].
  - split; assumption.
  - apply IH.
    + apply handle_counters_ok. exact Hok.
    + apply handle_invariants; assumption.
Qed.

(** X4. From a fresh tracker, a consolidation watch only runs outside a
    cooldown and on the fifth to seventh candle of a Green streak; so every
    alert is logged on a Green candle that is the fourth, fifth, sixth or
    seventh of its streak.  This holds for the setup logic run on any records
    and for the handlers run on any stream of messages. *)
Theorem alerts_on_fourth_to_seventh_green :
  (forall (records : list CandleRecord) (d : CandleRecord),
     let self := fst (setup_run records init) in
     let r := _run_trade_setup_logic d self in
     watch_inv self
     /\ (alerts (logs_of r) <> [] ->
         HA_color d = Green
         /\ 3 <= ha_green_streak self <= 6
         /\ ha_green_streak (state_of r) = ha_green_streak self + 1))
  /\ (forall (R : PyRuntime) (ms : list Message) (m : Message),
        let self := fst (HAFlags_run ms init) in
        let r := handle m self in
        watch_inv self
        /\ (alerts (logs_of r) <> [] ->
            3 <= ha_green_streak self <= 6
            /\ ha_green_streak (state_of r) = ha_green_streak self + 1
            /\ exists d,
                 last_candle_data (state_of r) = Some d
                 /\ HA_color d = Green)).
Proof.
  split.
  - intros records d self r. subst self r.
    destruct (setup_run_invariants records init counters_ok_init
                watch_inv_init) as [Hok Hinv].
    split; [exact Hinv|].
    apply setup_logic_alert_position; assumption.
  - intros R ms m self r. subst self r.
    destruct (run_invariants ms init counters_ok_init watch_inv_init)
      as [Hok Hinv].
    split; [exact Hinv|].
    destruct (handle_setup_cases m (fst (HAFlags_run ms init)))
      as [(Hno & _) | (d & self1 & candles & _ & Hsame & Hl & Hs & _)].
    { intro Ha. contradiction. }
    rewrite Hl, Hs. cbn [alerts filter is_alert]. intro Ha.
    destruct (setup_logic_alert_position self1 d
                (counters_ok_same_setup _ _ Hsame Hok)
                (watch_inv_same_setup _ _ Hsame Hinv) Ha)
      as (Hgreen & Hrange & Hnext).
    destruct Hsame as (Hst & _).
    cbn [ha_green_streak last_candle_data set_last_candle_data].
    rewrite <- Hst. split; [exact Hrange|]. split; [exact Hnext|].
    exists d. split; [reflexivity | exact Hgreen].
Qed.

(** While more than [n] candles of cooldown are pending, the next [n] kline
    messages log no alert, whatever comes with them. *)
Lemma run_cooling `{PyRuntime} (ms : list Message) :
  forall self,
    Z.of_nat (kline_count ms) < alert_cooldown self ->
    alerts (snd (HAFlags_run ms self)) = [].
Proof.
  induction ms as [|m rest IH]; intros self Hlen;
    cbn [HAFlags_run snd].
  - reflexivity.
  - unfold alerts. rewrite filter_app. fold (alerts (logs_of (handle m self))).
    fold (alerts (snd (HAFlags_run rest (state_of (handle m self))))).
    destruct (handle_setup_cases m self)
      as [(Hno & (_ & _ & Hc & _))
         | (d & self1 & candles & -> & (_ & _ & Hc & _) & Hl & Hs & _)].
    + rewrite Hno, IH; [reflexivity|].
      rewrite Hc.
      assert (kline_count rest <= kline_count (m :: rest))%nat.
      { unfold kline_count. cbn [filter]. destruct m; cbn; lia. }
      lia.
    + unfold kline_count in Hlen. cbn [filter List.length] in Hlen.
      fold (kline_count rest) in Hlen.
      destruct (setup_logic_cooling d self1 ltac:(lia)) as [Hno Hdec].
      rewrite Hl. cbn [alerts filter is_alert].
      fold (alerts (logs_of (_run_trade_setup_logic d self1))).
      rewrite Hno, IH; [reflexivity|].
      rewrite Hs. cbn [alert_cooldown set_last_candle_data]. lia.
Qed.

(** X5. After a candle that logged an alert, the next four candles log no
    alert, whatever their color and metrics (and whatever trade and BBO
    messages arrive in between). *)
Theorem four_candles_silent_after_alert :
  (forall (self : OrderFlowTracker) (d : CandleRecord)
          (records : list CandleRecord),
     let r := _run_trade_setup_logic d self in
     alerts (logs_of r) <> [] ->
     (List.length records <= 4)%nat ->
     Forall (fun l => alerts l = [])
       (snd (setup_run records
               (set_last_candle_data (Some d) (state_of r)))))
  /\ (forall (R : PyRuntime) (self : OrderFlowTracker) (m : Message)
             (ms : list Message),
        let r := handle m self in
        alerts (logs_of r) <> [] ->
        (kline_count ms <= 4)%nat ->
        alerts (snd (HAFlags_run ms (state_of r))) = []).
Proof.
  split.
  - intros self d records r Ha Hlen. subst r.
    apply cooldown_suppresses.
    destruct (setup_logic_alert d self Ha) as (_ & _ & Hc & _).
    cbn [alert_cooldown set_last_candle_data]. rewrite Hc.
    unfold ALERT_COOLDOWN_PERIOD. lia.
  - intros R self m ms r Ha Hlen. subst r.
    apply run_cooling.
    destruct (handle_setup_cases m self)
      as [(Hno & _) | (d & self1 & candles & _ & _ & Hl & Hs & _)].
    { contradiction. }
    rewrite Hl in Ha. cbn [alerts filter is_alert] in Ha.
    destruct (setup_logic_alert d self1 Ha) as (_ & _ & Hc & _).
    rewrite Hs. cbn [alert_cooldown set_last_candle_data]. rewrite Hc.
    unfold ALERT_COOLDOWN_PERIOD. lia.
Qed.

End SetupSteps.

(** ** Sums, means and rounding *)

Lemma fold_left_Qplus_acc (xs : list Q) :
  forall acc, (fold_left Qplus xs acc == acc + py_sum xs)%Q.
Proof.
  unfold py_sum. induction xs as [|x xs IH]; intro acc; cbn [fold_left].
  - lra.
  - rewrite (IH (acc + x)%Q), (IH (0 + x)%Q). lra.
Qed.

Lemma py_sum_cons (x : Q) (xs : list Q) :
  (py_sum (x :: xs) == x + py_sum xs)%Q.
Proof.
  unfold py_sum at 1. cbn [fold_left]. rewrite fold_left_Qplus_acc. lra.
Qed.







(** Rounding reads its argument as a rational number. *)
Lemma py_round_Qeq (x y : Q) (ndigits : nat) :
  (x == y)%Q -> py_round x ndigits = py_round y ndigits.
Proof.
  intro Hxy. unfold py_round, round_half_even.
  set (s := inject_Z (10 ^ Z.of_nat ndigits)).
  assert (Hm : (x * s == y * s)%Q) by (rewrite Hxy; reflexivity).
  assert (Hf : Qfloor (x * s) = Qfloor (y * s)) by (rewrite Hm; reflexivity).
  rewrite Hf.
  assert (Hc : ((x * s - inject_Z (Qfloor (y * s)) ?= 1 # 2)
                = (y * s - inject_Z (Qfloor (y * s)) ?= 1 # 2))%Q)
    by (rewrite Hm; reflexivity).
  rewrite Hc. reflexivity.
Qed.

(** ** The metrics are ratios *)

Section MetricsBounds.
Import HAFlags.
Context `{PyRuntime}.






Lemma Forall_filter_keep {A} (P : A -> Prop) (f : A -> bool) (l : list A) :
  Forall P l -> Forall P (filter f l).
Proof.
  rewrite !Forall_forall. intros Hall x Hin. apply filter_In in Hin.
  apply Hall. tauto.
Qed.






End MetricsBounds.

(** ** Empty windows *)

Section EmptyWindow.
Import HAFlags.
Context `{PyRuntime}.

Lemma volumes_of_no_side (side : string) (trades : list Trade) :
  Forall (fun t => t_S t <> side) trades ->
  volumes_of side trades = Some [].
Proof.
  induction 1 as [|t rest Ht _ IH]; cbn [volumes_of].
  - reflexivity.
  - apply String.eqb_neq in Ht. rewrite Ht. exact IH.
Qed.

(** X7. The neutral defaults.  When [process_candle_data] returns for a
    candle in whose window the buffer holds no Buy and no Sell print, the
    record carries an aggression ratio of 0.5; when the buffer holds no BBO
    update of the window, it carries an average BBO imbalance of 0.5. *)
Theorem empty_window_defaults :
  forall (candle : Candle) (self : OrderFlowTracker)
         (s e : Z) (o h l c : Q),
    candle_fields candle = Some (s, e, o, h, l, c) ->
    let r := process_candle_data candle self in
    outcome_of r = Returned tt ->
    exists d,
      last_candle_data (state_of r) = Some d
      /\ In (InfoRecord d) (logs_of r)
      /\ (Forall (fun t => t_S t <> "Buy"%string /\ t_S t <> "Sell"%string)
            (filter (timestamp_sat (in_window s e)) (trade_buffer self)) ->
          (agg_ratio d == 0.5)%Q)
      /\ (relevant_bbo s e self = [] -> (avg_bbo_imba d == 0.5)%Q).
Proof.
  intros candle self s e o h l c Hf r. subst r.
  destruct (process_candle_data_cases candle self)
    as [(_ & ->) | (s' & e' & o' & h' & l' & c' & ho & Hf' & _ & Hrest)].
  { discriminate. }
  rewrite Hf in Hf'. injection Hf' as <- <- <- <- <- <-.
  cbv zeta in Hrest.
  destruct Hrest as [(_ & ->) | (rel & rest & Hrel & _ & Hrest)].
  { discriminate. }
  destruct (filter_by_T_filter _ _ _ Hrel) as [-> _].
  cbv zeta in Hrest.
  destruct Hrest as [(_ & ->) | (buys & sells & Hbuy & Hsell & ->)].
  { discriminate. }
  intros _. rewrite state_of_mk, logs_of_mk.
  eexists. split; [reflexivity|]. split; [left; reflexivity|].
  cbn [agg_ratio avg_bbo_imba output_data_of]. split.
  - intro Hnone.
    rewrite volumes_of_no_side in Hbuy
      by (eapply Forall_impl; [|exact Hnone]; intros t [Hb _]; exact Hb).
    rewrite volumes_of_no_side in Hsell
      by (eapply Forall_impl; [|exact Hnone]; intros t [_ Hs]; exact Hs).
    injection Hbuy as <-. injection Hsell as <-. reflexivity.
  - intros ->. reflexivity.
Qed.

End EmptyWindow.

(** ** Streams whose fields all convert *)

Section ConvertibleStreams.
Import HAFlags.
Context `{PyRuntime}.








End ConvertibleStreams.

(** ** [trade_exhaust2.py]: records, history and z-score *)

Section ExhaustMore.
Import Exhaust.
Context `{PyRuntime}.

(** [Exhaust.process_candle_data] in full: either it raises with nothing
    assigned, or it returns with the state and the record spelled out. *)
Lemma Exhaust_process_full (candle : Candle) (self : OrderFlowTracker) :
  ((volume_delta_of self candle = None \/ py_float (c_close candle) = None)
   /\ process_candle_data candle self = (self, [], Raised))
  \/ (exists s e c rel buy sell,
        py_int (c_start candle) = Some s
        /\ py_int (c_end candle) = Some e
        /\ py_float (c_close candle) = Some c
        /\ filter_by_T (in_window s e) (trade_buffer self) = Some rel
        /\ aggregate_volumes rel 0.0 0.0 = Some (buy, sell)
        /\ volume_delta_of self candle = Some (buy - sell)%Q
        /\ let self1 := cvd_advanced (buy - sell) self in
           process_candle_data candle self
           = (set_trade_buffer
                (filter (timestamp_sat (after_window e)) (trade_buffer self))
                self1,
              [Exhaust_output_of s c buy sell self1],
              Returned tt)).
Proof.
  unfold process_candle_data.
  py_try_as s Es.
  2:{ left; split; [left|reflexivity].
      unfold volume_delta_of. rewrite Es. reflexivity. }
  py_try_as e Ee.
  2:{ left; split; [left|reflexivity].
      unfold volume_delta_of. rewrite Es, Ee. reflexivity. }
  py_try_as c Ec; [|left; split; [right|]; reflexivity].
  py_step.
  py_try_as rel Erel.
  2:{ left; split; [left|reflexivity].
      unfold volume_delta_of. rewrite Es, Ee, Erel. reflexivity. }
  py_try_as vs Evs.
  2:{ left; split; [left|reflexivity].
      unfold volume_delta_of. rewrite Es, Ee, Erel, Evs. reflexivity. }
  destruct vs as [buy sell].
  right. exists s, e, c, rel, buy, sell.
  do 3 (split; [reflexivity|]). do 2 (split; [assumption|]).
  split.
  { unfold volume_delta_of. rewrite Es, Ee, Erel, Evs. reflexivity. }
  cbv zeta. cbn [fst snd].
  do 3 py_step. rewrite bind_log.
  change (trade_buffer (set_cvd_history _ (set_cumulative_volume_delta _ self)))
    with (trade_buffer self).
  destruct (filter_by_T_total _ (after_window e) _ _ Erel) as [rest Hrest].
  destruct (filter_by_T_filter _ _ _ Hrest) as [Heq _].
  rewrite Hrest. unfold try_, bind, ret, modify.
  rewrite !state_of_mk, !logs_of_mk, !outcome_of_mk.
  rewrite Heq. reflexivity.
Qed.

(** One message, in full. *)
Lemma Exhaust_handle_full (m : Message) (self : OrderFlowTracker) :
  match Exhaust_delta_of m self with
  | Some d =>
      exists candle rest s e c buy sell,
        m = KlineMessage (candle :: rest)
        /\ py_int (c_start candle) = Some s
        /\ py_int (c_end candle) = Some e
        /\ py_float (c_close candle) = Some c
        /\ d = (buy - sell)%Q
        /\ let self1 :=
             cvd_advanced d
               (set_last_kline_start_time (c_start candle) self) in
           handle m self
           = (set_trade_buffer
                (filter (timestamp_sat (after_window e)) (trade_buffer self))
                self1,
              [Exhaust_output_of s c buy sell self1],
              Returned tt)
  | None =>
      cumulative_volume_delta (state_of (handle m self))
      = cumulative_volume_delta self
      /\ cvd_history (state_of (handle m self)) = cvd_history self
      /\ cvd_zscore_period (state_of (handle m self))
         = cvd_zscore_period self
      /\ logs_of (handle m self) = []
  end.
Proof.
  destruct m as [data | [|candle rest]]; cbn [handle Exhaust_delta_of].
  - repeat split.
  - repeat split.
  - unfold handle_kline_message.
    destruct (c_confirm candle); cbn [andb]; [|repeat split].
    rewrite bind_get.
    destruct (negb (py_eqb (last_kline_start_time self) (c_start candle)));
      [|repeat split].
    rewrite bind_modify.
    set (self0 := set_last_kline_start_time (c_start candle) self).
    change (volume_delta_of self candle) with (volume_delta_of self0 candle).
    change (trade_buffer self) with (trade_buffer self0).
    destruct (Exhaust_process_full candle self0)
      as [(_ & ->)
         | (s & e & c & rel & buy & sell & Hs & He & Hc & _ & _ & Hvd & ->)].
    + rewrite outcome_of_mk. repeat split.
    + rewrite outcome_of_mk, Hvd.
      exists candle, rest, s, e, c, buy, sell. repeat split; assumption.
Qed.

Lemma lastn_length {A} (n : nat) (l : list A) :
  (List.length (lastn n l) <= n)%nat.
Proof. unfold lastn. rewrite length_skipn. lia. Qed.

Lemma lastn_all {A} (n : nat) (l : list A) :
  (List.length l <= n)%nat -> lastn n l = l.
Proof.
  intro Hle. unfold lastn.
  replace (List.length l - n)%nat with 0%nat by lia. reflexivity.
Qed.

Lemma lastn_lastn_app {A} (n : nat) (l l' : list A) :
  lastn n (lastn n l ++ l') = lastn n (l ++ l').
Proof.
  destruct (le_lt_dec (List.length l) n) as [Hle | Hlt].
  - rewrite (lastn_all n l Hle). reflexivity.
  - unfold lastn. rewrite !length_app, length_skipn, !skipn_app, length_skipn.
    rewrite skipn_skipn. f_equal; f_equal; lia.
Qed.

Lemma deque_append_lastn (n : nat) (d : list Q) (x : Q) :
  deque_append n d x = lastn n (d ++ [x]).
Proof. reflexivity. Qed.

Lemma Exhaust_run_history (ms : list Message) :
  forall self,
    (List.length (cvd_history self) <= cvd_zscore_period self)%nat ->
    cvd_history (fst (Exhaust_run ms self))
    = lastn (cvd_zscore_period self)
        (cvd_history self
           ++ running_sums (cumulative_volume_delta self)
                (Exhaust_deltas ms self))
    /\ cvd_zscore_period (fst (Exhaust_run ms self))
       = cvd_zscore_period self.
Proof.
  induction ms as [|m rest IH]; intros self Hlen;
    cbn [Exhaust_run Exhaust_deltas fst].
  - cbn [running_sums]. rewrite app_nil_r, lastn_all by exact Hlen.
    split; reflexivity.
  - pose proof (Exhaust_handle_full m self) as Hstep.
    destruct (Exhaust_delta_of m self) as [d|].
    + destruct Hstep
        as (candle & rest' & s & e & c & buy & sell & _ & _ & _ & _ & _ & Hm).
      cbv zeta in Hm. rewrite Hm, state_of_mk.
      match goal with
      | |- context [Exhaust_run rest ?st] =>
          destruct (IH st) as [IHh IHp]
      end.
      { cbn. apply lastn_length. }
      rewrite IHh, IHp. cbn [app running_sums].
      cbn [cvd_history cvd_zscore_period cumulative_volume_delta
             set_trade_buffer cvd_advanced set_cvd_history
             set_cumulative_volume_delta set_last_kline_start_time].
      rewrite deque_append_lastn, lastn_lastn_app, <- app_assoc.
      split; reflexivity.
    + destruct Hstep as (Hc & Hh & Hp & _).
      destruct (IH (state_of (handle m self))) as [IHh IHp].
      { rewrite Hh, Hp. exact Hlen. }
      rewrite IHh, IHp, Hh, Hp, Hc. split; reflexivity.
Qed.

(** X9. The bounded history.  After any stream of messages, the history of
    a tracker created with length [n] holds the last [n] cumulative deltas,
    oldest first, at full precision: the running sums of the volume deltas
    of the candles processed, cut to their last [n].  It never holds more
    than [n] entries and the length [n] itself never changes. *)
Theorem history_is_last_cumulative_deltas :
  forall (n : nat) (ms : list Message),
    let self := fst (Exhaust_run ms (init n)) in
    cvd_history self
    = lastn n (running_sums 0.0 (Exhaust_deltas ms (init n)))
    /\ (List.length (cvd_history self) <= n)%nat
    /\ cvd_zscore_period self = n.
Proof.
  intros n ms self. subst self.
  destruct (Exhaust_run_history ms (init n)) as [Hh Hp].
  { cbn. lia. }
  cbn [cvd_history cvd_zscore_period cumulative_volume_delta init app]
    in Hh, Hp.
  split; [exact Hh|]. split; [|exact Hp].
  rewrite Hh. apply lastn_length.
Qed.

Lemma cvd_zscore_of_short (self : OrderFlowTracker) :
  (List.length (cvd_history self) <= 1)%nat ->
  cvd_zscore_of self = 0.0%Q.
Proof.
  intro Hlen. unfold cvd_zscore_of.
  replace (1 <? List.length (cvd_history self))%nat with false
    by (symmetry; apply Nat.ltb_ge; exact Hlen).
  reflexivity.
Qed.

(** X10. The z-score needs two entries.  The record of the first candle a
    tracker processes carries a z-score of 0, and so does every record of a
    tracker whose history length is 0 or 1. *)
Theorem zscore_zero_without_history :
  forall (n : nat) (ms : list Message) (m : Message) (out : Output),
    In out (logs_of (handle m (fst (Exhaust_run ms (init n))))) ->
    Exhaust_deltas ms (init n) = [] \/ (n <= 1)%nat ->
    (cvd_zscore_ratio out == 0)%Q.
Proof.
  intros n ms m out Hin Hwhy.
  destruct (Exhaust_run_history ms (init n)) as [Hh Hp].
  { cbn. lia. }
  cbn [cvd_history cvd_zscore_period cumulative_volume_delta init app]
    in Hh, Hp.
  set (self := fst (Exhaust_run ms (init n))) in *.
  pose proof (Exhaust_handle_full m self) as Hstep.
  destruct (Exhaust_delta_of m self) as [d|].
  2:{ destruct Hstep as (_ & _ & _ & Hl). rewrite Hl in Hin.
      destruct Hin. }
  destruct Hstep
    as (candle & rest' & s & e & c & buy & sell & _ & _ & _ & _ & _ & Hm).
  cbv zeta in Hm. rewrite Hm, logs_of_mk in Hin.
  destruct Hin as [<- | []].
  cbn [cvd_zscore_ratio Exhaust_output_of].
  rewrite cvd_zscore_of_short; [reflexivity|].
  cbn [cvd_history cvd_advanced set_cvd_history
         set_cumulative_volume_delta set_last_kline_start_time
         cvd_zscore_period cumulative_volume_delta].
  rewrite Hp, deque_append_lastn.
  destruct Hwhy as [Hnone | Hn].
  - rewrite Hh, Hnone. cbn [running_sums]. unfold lastn at 2.
    rewrite skipn_nil. cbn [app].
    pose proof (lastn_length n [(cumulative_volume_delta self + d)%Q]).
    unfold lastn. rewrite length_skipn. cbn [List.length]. lia.
  - pose proof (lastn_length n
                  (cvd_history self ++ [(cumulative_volume_delta self + d)%Q])).
    lia.
Qed.

End ExhaustMore.

Section ExhaustStreams.
Import Exhaust.
Context `{PyRuntime}.





End ExhaustStreams.

(** ** The two trackers on the same window *)

Section CrossTrackers.
Context `{PyRuntime}.

Lemma Qlt_bool_Qeq (a b c d : Q) :
  (a == c)%Q -> (b == d)%Q -> Qlt_bool a b = Qlt_bool c d.
Proof. intros Hac Hbd. unfold Qlt_bool. rewrite Hac, Hbd. reflexivity. Qed.

(** Where the loop of [trade_exhaust2.py] gets through a window, the two
    sums of [OrderF_HAFlags.py] do too, and to the same volumes. *)
Lemma aggregate_volumes_sums (trades : list Trade) :
  forall buy sell buy' sell',
    Exhaust.aggregate_volumes trades buy sell = Some (buy', sell') ->
    exists buys sells,
      HAFlags.volumes_of "Buy" trades = Some buys
      /\ HAFlags.volumes_of "Sell" trades = Some sells
      /\ (buy' == buy + py_sum buys)%Q
      /\ (sell' == sell + py_sum sells)%Q.
Proof.
  induction trades as [|t rest IH]; intros buy sell buy' sell';
    cbn [Exhaust.aggregate_volumes HAFlags.volumes_of].
  - intros [= <- <-]. exists [], []. unfold py_sum. cbn [fold_left].
    repeat split; lra.
  - destruct (py_float (t_v t)) as [v|]; [|discriminate].
    destruct (String.eqb (t_S t) "Buy") eqn:Eb.
    + apply String.eqb_eq in Eb.
      assert (Es : String.eqb (t_S t) "Sell" = false)
        by (rewrite Eb; reflexivity).
      rewrite Es. intro Hagg.
      destruct (IH _ _ _ _ Hagg) as (buys & sells & -> & -> & Hb & Hs).
      exists (v :: buys), sells. rewrite py_sum_cons.
      repeat split; [rewrite Hb; lra | exact Hs].
    + destruct (String.eqb (t_S t) "Sell") eqn:Es.
      * intro Hagg.
        destruct (IH _ _ _ _ Hagg) as (buys & sells & -> & -> & Hb & Hs).
        exists buys, (v :: sells). rewrite py_sum_cons.
        repeat split; [exact Hb | rewrite Hs; lra].
      * intro Hagg.
        destruct (IH _ _ _ _ Hagg) as (buys & sells & -> & -> & Hb & Hs).
        exists buys, sells. repeat split; assumption.
Qed.

(** X12. The two trackers agree.  When both process the same candle over
    the same trade buffer and both return, the record of [OrderF_HAFlags.py]
    and the record of [trade_exhaust2.py] carry the same timestamp, the same
    close price and the same rounded aggression ratio, and both trackers are
    left with the same trade buffer. *)
Theorem trackers_agree_on_window :
  forall (candle : Candle) (a : HAFlags.OrderFlowTracker)
         (b : Exhaust.OrderFlowTracker),
    HAFlags.trade_buffer a = Exhaust.trade_buffer b ->
    let ra := HAFlags.process_candle_data candle a in
    let rb := Exhaust.process_candle_data candle b in
    outcome_of ra = Returned tt ->
    outcome_of rb = Returned tt ->
    exists d out,
      HAFlags.last_candle_data (state_of ra) = Some d
      /\ In (HAFlags.InfoRecord d) (logs_of ra)
      /\ logs_of rb = [out]
      /\ HAFlags.utc d = Exhaust.timestamp_utc out
      /\ HAFlags.close_price d = Exhaust.close_price out
      /\ HAFlags.agg_ratio d = Exhaust.agg_ratio out
      /\ HAFlags.trade_buffer (state_of ra)
         = Exhaust.trade_buffer (state_of rb).
Proof.
  intros candle a b Hbuf ra rb. subst ra rb.
  destruct (process_candle_data_cases candle a)
    as [(_ & ->) | (s & e & o & h & l & c & ho & Hf & _ & Hrest)].
  { discriminate. }
  cbv zeta in Hrest.
  destruct Hrest as [(_ & ->) | (rel & rest & Hrel & Hafter & Hrest)].
  { discriminate. }
  cbv zeta in Hrest.
  destruct Hrest as [(_ & ->) | (buys & sells & Hbuy & Hsell & ->)].
  { discriminate. }
  destruct (Exhaust_process_full candle b)
    as [(_ & ->)
       | (s' & e' & c' & rel' & buy & sell & Hs & He & Hc & Hrel' & Hagg & _
          & ->)].
  { discriminate. }
  intros _ _.
  unfold candle_fields in Hf. rewrite Hs, He, Hc in Hf.
  destruct (py_float (c_open candle)); [|discriminate].
  destruct (py_float (c_high candle)); [|discriminate].
  destruct (py_float (c_low candle)); [|discriminate].
  injection Hf as <- <- <- <- <- <-.
  rewrite <- Hbuf, Hrel in Hrel'. injection Hrel' as <-.
  destruct (aggregate_volumes_sums _ _ _ _ _ Hagg)
    as (buys' & sells' & Hb' & Hs' & Hbq & Hsq).
  rewrite Hbuy in Hb'. injection Hb' as <-.
  rewrite Hsell in Hs'. injection Hs' as <-.
  rewrite !state_of_mk, !logs_of_mk.
  do 2 eexists. split; [reflexivity|]. split; [left; reflexivity|].
  split; [reflexivity|].
  cbn [HAFlags.utc HAFlags.close_price HAFlags.agg_ratio output_data_of
         Exhaust.timestamp_utc Exhaust.close_price Exhaust.agg_ratio
         Exhaust_output_of].
  do 2 (split; [reflexivity|]). split.
  - apply py_round_Qeq. unfold HAFlags.agg_ratio_of. cbv zeta.
    assert (Hb0 : (buy == py_sum buys)%Q) by (rewrite Hbq; lra).
    assert (Hs0 : (sell == py_sum sells)%Q) by (rewrite Hsq; lra).
    rewrite (Qlt_bool_Qeq 0 (py_sum buys + py_sum sells) 0 (buy + sell));
      [|reflexivity | rewrite Hb0, Hs0; reflexivity].
    destruct (Qlt_bool 0 (buy + sell)); [|reflexivity].
    rewrite Hb0, Hs0. reflexivity.
  - match goal with
    | |- context [HAFlags._run_trade_setup_logic ?d ?st] =>
        destruct (setup_logic_frame d st) as (Htb & _)
    end.
    cbn [HAFlags.trade_buffer HAFlags.set_last_candle_data].
    rewrite Htb.
    destruct (filter_by_T_filter _ _ _ Hafter) as [-> _].
    cbn. rewrite Hbuf. reflexivity.
Qed.

End CrossTrackers.

(** ** The depth book *)

Section PyEq.

Lemma py_eqb_sym (x y : pyval) : py_eqb x y = py_eqb y x.
Proof.
  destruct x, y; cbn; try reflexivity.
  - apply Z.eqb_sym.
  - apply Qeq_bool_comm.
  - apply Qeq_bool_comm.
  - apply Qeq_bool_comm.
  - apply String.eqb_sym.
Qed.

Lemma py_eqb_trans (x y z : pyval) :
  py_eqb x y = true -> py_eqb y z = true -> py_eqb x z = true.
Proof.
  destruct x, y, z; cbn; try discriminate; try reflexivity;
    rewrite ?Z.eqb_eq, ?Qeq_bool_iff, ?String.eqb_eq;
    intros H1 H2; try congruence;
    try (rewrite H1; exact H2);
    try (rewrite <- H2; exact H1);
    try (apply inject_Z_injective; rewrite H1; exact H2).
Qed.

(** Two keys equal to a third one are equal. *)
Lemma py_eqb_common (k k' k0 : pyval) :
  py_eqb k0 k = true -> py_eqb k0 k' = py_eqb k k'.
Proof.
  intro H0.
  destruct (py_eqb k k') eqn:E.
  - exact (py_eqb_trans _ _ _ H0 E).
  - destruct (py_eqb k0 k') eqn:E'; [|reflexivity].
    rewrite py_eqb_sym in H0.
    rewrite (py_eqb_trans _ _ _ H0 E') in E. discriminate.
Qed.

End PyEq.

Section TryExcept.
Context {St L A : Type}.

Lemma try_except_returned (body handler : M St L A) (self self1 : St)
  (l1 : list L) (a : A) :
  body self = (self1, l1, Returned a) ->
  try_except body handler self = (self1, l1, Returned a).
Proof. intro Hb. unfold try_except. rewrite Hb. reflexivity. Qed.

Lemma try_except_raised (body handler : M St L A) (self self1 : St)
  (l1 : list L) :
  body self = (self1, l1, Raised) ->
  try_except body handler self
  = (state_of (handler self1), l1 ++ logs_of (handler self1),
     outcome_of (handler self1)).
Proof.
  intro Hb. unfold try_except. rewrite Hb.
  destruct (handler self1) as [[s2 l2] o2]. reflexivity.
Qed.

End TryExcept.

Section DepthBookProofs.
Import DepthBook.
Context `{PyRuntime}.

(** Lookup after an assignment. *)
Lemma dict_get_set (d : dict) (k k' : pyval) (v : Q) :
  dict_get (dict_set d k v) k'
  = if py_eqb k k' then Some v else dict_get d k'.
Proof.
  induction d as [|[k0 v0] rest IH]; cbn [dict_set dict_get].
  - reflexivity.
  - destruct (py_eqb k0 k) eqn:E0; cbn [dict_get].
    + rewrite (py_eqb_common k k' k0 E0).
      destruct (py_eqb k k'); reflexivity.
    + rewrite IH. destruct (py_eqb k0 k') eqn:E1; [|reflexivity].
      destruct (py_eqb k k') eqn:E2; [|reflexivity].
      rewrite py_eqb_sym in E2.
      rewrite (py_eqb_trans _ _ _ E1 E2) in E0. discriminate.
Qed.

(** Lookup after a removal. *)
Lemma dict_get_pop (d : dict) (k k' : pyval) :
  dict_get (dict_pop d k) k'
  = if py_eqb k k' then None else dict_get d k'.
Proof.
  unfold dict_pop.
  induction d as [|[k0 v0] rest IH]; cbn [filter dict_get fst].
  - destruct (py_eqb k k'); reflexivity.
  - destruct (py_eqb k0 k) eqn:E0; cbn [negb dict_get].
    + rewrite IH, (py_eqb_common k k' k0 E0).
      destruct (py_eqb k k'); reflexivity.
    + rewrite IH. destruct (py_eqb k0 k') eqn:E1; [|reflexivity].
      destruct (py_eqb k k') eqn:E2; [|reflexivity].
      rewrite py_eqb_sym in E2.
      rewrite (py_eqb_trans _ _ _ E1 E2) in E0. discriminate.
Qed.

(** A snapshot dictionary, looked up. *)
Lemma dict_of_levels_get (levels : list (pyval * pyval)) :
  forall (acc built : dict) (sizes : list (pyval * Q)) (k : pyval),
    dict_of_levels levels acc = Some built ->
    level_sizes levels = Some sizes ->
    dict_get built k
    = match last_size sizes k with
      | Some v => Some v
      | None => dict_get acc k
      end.
Proof.
  induction levels as [|b rest IH]; intros acc built sizes k;
    cbn [dict_of_levels level_sizes].
  - intros [= <-] [= <-]. reflexivity.
  - destruct (py_float (snd b)) as [v|]; [|discriminate].
    destruct (level_sizes rest) as [vs|] eqn:Evs; [|discriminate].
    intros Hb [= <-]. cbn [last_size].
    rewrite (IH _ _ vs k Hb eq_refl), dict_get_set.
    destruct (last_size vs k); [reflexivity|].
    rewrite py_eqb_sym. destruct (py_eqb k (fst b)); reflexivity.
Qed.

Lemma level_sizes_dict (levels : list (pyval * pyval))
  (sizes : list (pyval * Q)) :
  level_sizes levels = Some sizes ->
  forall acc, exists built, dict_of_levels levels acc = Some built.
Proof.
  revert sizes. induction levels as [|b rest IH]; intros sizes;
    cbn [dict_of_levels level_sizes].
  - eauto.
  - destruct (py_float (snd b)) as [v|]; [|discriminate].
    destruct (level_sizes rest) as [vs|]; [|discriminate].
    intros _ acc. apply (IH vs eq_refl).
Qed.

Lemma level_sizes_none_dict (levels : list (pyval * pyval)) :
  level_sizes levels = None ->
  forall acc, dict_of_levels levels acc = None.
Proof.
  induction levels as [|b rest IH]; cbn [dict_of_levels level_sizes].
  - discriminate.
  - destruct (py_float (snd b)) as [v|]; [|reflexivity].
    destruct (level_sizes rest) as [vs|]; [discriminate|].
    intros _ acc. apply IH. reflexivity.
Qed.

(** X13. A snapshot replaces the book.  When every size of a snapshot
    converts, the handler returns, marks the book ready, and a price looks
    up to the size of its last level in the snapshot (zero included), or to
    nothing if the snapshot has no level for it, whatever the book held
    before.  When a bid size does not convert, the error is logged and the
    book is left as it was; when only an ask size does not convert, the
    error is logged with the bids already replaced and the asks and the
    ready flag untouched. *)
Theorem snapshot_replaces_book :
  forall (message : DepthMessage) (self : Book),
    d_type message = "snapshot"%string ->
    let r := handle_depth_book_message message self in
    outcome_of r = Returned tt
    /\ (forall bids asks,
          level_sizes (d_b message) = Some bids ->
          level_sizes (d_a message) = Some asks ->
          logs_of r = []
          /\ is_book_ready (state_of r) = true
          /\ (forall k, dict_get (live_bids (state_of r)) k
                        = last_size bids k)
          /\ (forall k, dict_get (live_asks (state_of r)) k
                        = last_size asks k))
    /\ (level_sizes (d_b message) = None ->
        r = (self, [ErrorDepth message], Returned tt))
    /\ (forall bids,
          level_sizes (d_b message) = Some bids ->
          level_sizes (d_a message) = None ->
          logs_of r = [ErrorDepth message]
          /\ (forall k, dict_get (live_bids (state_of r)) k
                        = last_size bids k)
          /\ live_asks (state_of r) = live_asks self
          /\ is_book_ready (state_of r) = is_book_ready self).
Proof.
  intros message self Htype. cbv zeta.
  unfold handle_depth_book_message. rewrite Htype.
  change (String.eqb "snapshot" "snapshot") with true. cbv iota.
  destruct (level_sizes (d_b message)) as [bids|] eqn:Eb.
  - destruct (level_sizes_dict _ _ Eb []) as [bd Hbd].
    pose proof (fun k => dict_of_levels_get _ _ _ _ k Hbd Eb) as Hgetb.
    destruct (level_sizes (d_a message)) as [asks|] eqn:Ea.
    + destruct (level_sizes_dict _ _ Ea []) as [ad Had].
      pose proof (fun k => dict_of_levels_get _ _ _ _ k Had Ea) as Hgeta.
      rewrite (try_except_returned _ _ _
                 (set_is_book_ready true (set_live_asks ad
                                            (set_live_bids bd self)))
                 [] tt).
      2:{ rewrite Hbd, bind_try_some, bind_modify, Had, bind_try_some,
            bind_modify. reflexivity. }
      rewrite !state_of_mk, !logs_of_mk, !outcome_of_mk.
      cbn [live_bids live_asks is_book_ready set_is_book_ready
             set_live_asks set_live_bids].
      split; [reflexivity|]. split; [|split; [discriminate|]].
      * intros bids' asks' [= <-] [= <-].
        split; [reflexivity|]. split; [reflexivity|].
        split; intro k; [rewrite Hgetb | rewrite Hgeta];
          cbn [dict_get]; destruct (last_size _ k); reflexivity.
      * intros bids' _ [=].
    + rewrite (try_except_raised _ _ _ (set_live_bids bd self) []).
      2:{ rewrite Hbd, bind_try_some, bind_modify.
          rewrite (level_sizes_none_dict _ Ea), bind_try_none.
          reflexivity. }
      unfold log. rewrite !state_of_mk, !logs_of_mk, !outcome_of_mk.
      cbn [app live_bids live_asks is_book_ready set_live_bids].
      split; [reflexivity|]. split; [|split; [discriminate|]].
      * intros bids' asks' _ [=].
      * intros bids' [= <-] _. split; [reflexivity|].
        split; [|split; reflexivity].
        intro k. rewrite Hgetb. cbn [dict_get].
        destruct (last_size bids k); reflexivity.
  - rewrite (try_except_raised _ _ _ self []).
    2:{ rewrite (level_sizes_none_dict _ Eb), bind_try_none. reflexivity. }
    unfold log. cbn [app].
    split; [reflexivity|]. split; [|split; [reflexivity|]].
    + intros bids' asks' [=].
    + intros bids' [=].
Qed.

Lemma apply_sizes_get (sizes : list (pyval * Q)) :
  forall (d : dict) (k : pyval),
    dict_get (apply_sizes d sizes) k = after_delta d sizes k.
Proof.
  unfold apply_sizes, after_delta.
  induction sizes as [|[p v] rest IH]; intros d k; cbn [fold_left last_size].
  - reflexivity.
  - rewrite IH. cbn [fst snd].
    destruct (last_size rest k); [reflexivity|].
    destruct (Qeq_bool v 0) eqn:Ev.
    + rewrite dict_get_pop. destruct (py_eqb p k); [rewrite Ev|]; reflexivity.
    + rewrite dict_get_set. destruct (py_eqb p k); [rewrite Ev|]; reflexivity.
Qed.

(** The loop of a delta over one side: it applies the levels in order and
    raises at the first size that does not convert, keeping what it has
    applied. *)
Lemma apply_levels_run (side : Book -> dict)
  (set_side : dict -> Book -> Book) :
  (forall d s, side (set_side d s) = d) ->
  (forall d d' s, set_side d (set_side d' s) = set_side d s) ->
  (forall s, set_side (side s) s = s) ->
  forall (levels : list (pyval * pyval)) (self : Book),
    (forall sizes,
       level_sizes levels = Some sizes ->
       apply_levels side set_side levels self
       = (set_side (apply_sizes (side self) sizes) self, [], Returned tt))
    /\ (forall pre bad post sizes,
          levels = pre ++ bad :: post ->
          level_sizes pre = Some sizes ->
          py_float (snd bad) = None ->
          apply_levels side set_side levels self
          = (set_side (apply_sizes (side self) sizes) self, [], Raised)).
Proof.
  intros Hget Hset Heta.
  induction levels as [|b rest IH]; intros self.
  - split.
    + intros sizes [= <-]. cbn. rewrite Heta. reflexivity.
    + intros [|? ?] bad post sizes; discriminate.
  - cbn [apply_levels level_sizes]. split.
    + intros sizes.
      destruct (py_float (snd b)) as [v|]; [|discriminate].
      destruct (level_sizes rest) as [vs|] eqn:Evs; [|discriminate].
      intros [= <-]. rewrite bind_try_some.
      unfold apply_sizes. cbn [fold_left fst snd].
      destruct (Qeq_bool v 0); rewrite bind_modify;
        rewrite (proj1 (IH _) vs eq_refl), Hget, Hset; reflexivity.
    + intros [|p pre] bad post sizes.
      * intros [= -> ->] [= <-] Hbad. cbn [app].
        rewrite Hbad, bind_try_none. cbn. rewrite Heta. reflexivity.
      * intros [= -> ->]. cbn [level_sizes].
        destruct (py_float (snd p)) as [v|]; [|discriminate].
        destruct (level_sizes pre) as [vs|] eqn:Evs; [|discriminate].
        intros [= <-] Hbad. rewrite bind_try_some.
        unfold apply_sizes. cbn [fold_left fst snd].
        destruct (Qeq_bool v 0); rewrite bind_modify;
          rewrite (proj2 (IH _) pre bad post vs eq_refl Evs Hbad), Hget, Hset;
          reflexivity.
Qed.

Lemma bids_lens :
  (forall d s, live_bids (set_live_bids d s) = d)
  /\ (forall d d' s, set_live_bids d (set_live_bids d' s) = set_live_bids d s)
  /\ (forall s, set_live_bids (live_bids s) s = s).
Proof. repeat split; intros; try destruct s; reflexivity. Qed.

Lemma asks_lens :
  (forall d s, live_asks (set_live_asks d s) = d)
  /\ (forall d d' s, set_live_asks d (set_live_asks d' s) = set_live_asks d s)
  /\ (forall s, set_live_asks (live_asks s) s = s).
Proof. repeat split; intros; try destruct s; reflexivity. Qed.

Lemma apply_bids (levels : list (pyval * pyval)) (self : Book) :
  (forall sizes,
     level_sizes levels = Some sizes ->
     apply_levels live_bids set_live_bids levels self
     = (set_live_bids (apply_sizes (live_bids self) sizes) self, [],
        Returned tt))
  /\ (forall pre bad post sizes,
        levels = pre ++ bad :: post ->
        level_sizes pre = Some sizes ->
        py_float (snd bad) = None ->
        apply_levels live_bids set_live_bids levels self
        = (set_live_bids (apply_sizes (live_bids self) sizes) self, [],
           Raised)).
Proof.
  destruct bids_lens as (H1 & H2 & H3).
  exact (apply_levels_run _ _ H1 H2 H3 levels self).
Qed.

Lemma apply_asks (levels : list (pyval * pyval)) (self : Book) :
  (forall sizes,
     level_sizes levels = Some sizes ->
     apply_levels live_asks set_live_asks levels self
     = (set_live_asks (apply_sizes (live_asks self) sizes) self, [],
        Returned tt))
  /\ (forall pre bad post sizes,
        levels = pre ++ bad :: post ->
        level_sizes pre = Some sizes ->
        py_float (snd bad) = None ->
        apply_levels live_asks set_live_asks levels self
        = (set_live_asks (apply_sizes (live_asks self) sizes) self, [],
           Raised)).
Proof.
  destruct asks_lens as (H1 & H2 & H3).
  exact (apply_levels_run _ _ H1 H2 H3 levels self).
Qed.

(** X14. A delta edits the book level by level.  When every size of a delta
    converts, the handler returns with nothing logged and the ready flag
    untouched, and on each side a price looks up to the size of its last
    level in the delta, to nothing if that size is zero, and to what it was
    before if the delta has no level for it.  A message that is neither a
    snapshot nor a delta leaves the book as it is. *)
Theorem delta_edits_book :
  forall (message : DepthMessage) (self : Book),
    let r := handle_depth_book_message message self in
    (d_type message = "delta"%string ->
     forall bids asks,
       level_sizes (d_b message) = Some bids ->
       level_sizes (d_a message) = Some asks ->
       outcome_of r = Returned tt
       /\ logs_of r = []
       /\ is_book_ready (state_of r) = is_book_ready self
       /\ (forall k, dict_get (live_bids (state_of r)) k
                     = after_delta (live_bids self) bids k)
       /\ (forall k, dict_get (live_asks (state_of r)) k
                     = after_delta (live_asks self) asks k))
    /\ (d_type message <> "snapshot"%string ->
        d_type message <> "delta"%string ->
        r = (self, [], Returned tt)).
Proof.
  intros message self. cbv zeta. split.
  - intros Htype bids asks Hb Ha.
    unfold handle_depth_book_message. rewrite Htype.
    change (String.eqb "delta" "snapshot") with false.
    change (String.eqb "delta" "delta") with true. cbv iota.
    rewrite (try_except_returned _ _ _
               (set_live_asks (apply_sizes (live_asks self) asks)
                  (set_live_bids (apply_sizes (live_bids self) bids) self))
               [] tt).
    2:{ unfold bind.
        rewrite (proj1 (apply_bids _ _) bids Hb).
        rewrite (proj1 (apply_asks _ _) asks Ha). reflexivity. }
    rewrite !state_of_mk, !logs_of_mk, !outcome_of_mk.
    cbn [live_bids live_asks is_book_ready set_live_asks set_live_bids].
    do 3 (split; [reflexivity|]).
    split; intro k; apply apply_sizes_get.
  - intros Hs Hd. unfold handle_depth_book_message.
    apply String.eqb_neq in Hs, Hd. rewrite Hs, Hd. reflexivity.
Qed.

(** X15. A delta that fails midway is half applied.  When a bid size of a
    delta does not convert, the handler logs the error and returns with the
    bid levels before it applied and the asks untouched; when all bid sizes
    convert and an ask size does not, all bid levels are applied and the ask
    levels before the failing one. *)
Theorem delta_failure_keeps_earlier_levels :
  forall (message : DepthMessage) (self : Book)
         (pre post : list (pyval * pyval)) (bad : pyval * pyval)
         (sizes : list (pyval * Q)),
    d_type message = "delta"%string ->
    level_sizes pre = Some sizes ->
    py_float (snd bad) = None ->
    let r := handle_depth_book_message message self in
    (d_b message = pre ++ bad :: post ->
     outcome_of r = Returned tt
     /\ logs_of r = [ErrorDepth message]
     /\ (forall k, dict_get (live_bids (state_of r)) k
                   = after_delta (live_bids self) sizes k)
     /\ live_asks (state_of r) = live_asks self
     /\ is_book_ready (state_of r) = is_book_ready self)
    /\ (forall bids,
          level_sizes (d_b message) = Some bids ->
          d_a message = pre ++ bad :: post ->
          outcome_of r = Returned tt
          /\ logs_of r = [ErrorDepth message]
          /\ (forall k, dict_get (live_bids (state_of r)) k
                        = after_delta (live_bids self) bids k)
          /\ (forall k, dict_get (live_asks (state_of r)) k
                        = after_delta (live_asks self) sizes k)
          /\ is_book_ready (state_of r) = is_book_ready self).
Proof.
  intros message self pre post bad sizes Htype Hpre Hbad. cbv zeta.
  unfold handle_depth_book_message. rewrite Htype.
  change (String.eqb "delta" "snapshot") with false.
  change (String.eqb "delta" "delta") with true. cbv iota.
  split.
  - intro Hb.
    rewrite (try_except_raised _ _ _
               (set_live_bids (apply_sizes (live_bids self) sizes) self) []).
    2:{ unfold bind.
        rewrite (proj2 (apply_bids _ _) pre bad post sizes Hb Hpre Hbad).
        reflexivity. }
    unfold log. rewrite !state_of_mk, !logs_of_mk, !outcome_of_mk.
    cbn [app live_bids live_asks is_book_ready set_live_bids].
    do 2 (split; [reflexivity|]).
    split; [intro k; apply apply_sizes_get | split; reflexivity].
  - intros bids Hb Ha.
    rewrite (try_except_raised _ _ _
               (set_live_asks (apply_sizes (live_asks self) sizes)
                  (set_live_bids (apply_sizes (live_bids self) bids) self))
               []).
    2:{ unfold bind.
        rewrite (proj1 (apply_bids _ _) bids Hb).
        rewrite (proj2 (apply_asks _ _) pre bad post sizes Ha Hpre Hbad).
        reflexivity. }
    unfold log. rewrite !state_of_mk, !logs_of_mk, !outcome_of_mk.
    cbn [app live_bids live_asks is_book_ready set_live_bids set_live_asks].
    do 2 (split; [reflexivity|]).
    split; [intro k; apply apply_sizes_get|].
    split; [intro k; apply apply_sizes_get | reflexivity].
Qed.

End DepthBookProofs.

(** ** Heikin-Ashi candles of a whole history *)

Section BatchHeikinAshi.
Import HeikinAshi.





End BatchHeikinAshi.

Section StreamingHeikinAshi.
Context `{PyRuntime}.

(** The Heikin-Ashi attributes after a candle whose fields convert. *)
Lemma process_candle_data_ha_set (candle : Candle)
  (self : HAFlags.OrderFlowTracker) (s e : Z) (o h l c ho : Q) :
  candle_fields candle = Some (s, e, o, h, l, c) ->
  HAFlags.ha_open_of self o c = Some ho ->
  HAFlags.last_ha_open (state_of (HAFlags.process_candle_data candle self))
  = Some ho
  /\ HAFlags.last_ha_close
       (state_of (HAFlags.process_candle_data candle self))
     = Some (HAFlags.ha_close_of o h l c).
Proof.
  intros Hf Hho.
  destruct (process_candle_data_cases candle self)
    as [([Hnone | (s' & e' & o' & h' & l' & c' & Hf' & Hno)] & _)
       | (s' & e' & o' & h' & l' & c' & ho' & Hf' & Hho' & Hrest)].
  { congruence. }
  { rewrite Hf in Hf'. injection Hf' as <- <- <- <- <- <-. congruence. }
  rewrite Hf in Hf'. injection Hf' as <- <- <- <- <- <-.
  rewrite Hho in Hho'. injection Hho' as <-.
  cbv zeta in Hrest.
  destruct Hrest as [(_ & ->) | (rel & rest & _ & _ & Hrest)];
    [split; reflexivity|].
  cbv zeta in Hrest.
  destruct Hrest as [(_ & ->) | (buys & sells & _ & _ & ->)];
    [split; reflexivity|].
  rewrite state_of_mk.
  match goal with
  | |- context [HAFlags._run_trade_setup_logic ?d ?st] =>
      destruct (setup_logic_frame d st) as (_ & _ & _ & Ho' & Hc' & _)
  end.
  cbn [HAFlags.last_ha_open HAFlags.last_ha_close
         HAFlags.set_last_candle_data].
  rewrite Ho', Hc'. split; reflexivity.
Qed.

Lemma ha_trace_from (candles : list Candle) :
  forall (df_in : list HeikinAshi.Row) (self : HAFlags.OrderFlowTracker)
         (po pc : Q),
    HAFlags.last_ha_open self = Some po ->
    HAFlags.last_ha_close self = Some pc ->
    Forall2 candle_of_row candles df_in ->
    ha_trace candles self
    = map (fun row => (Some (HeikinAshi.r_open row),
                       Some (HeikinAshi.r_close row)))
        (HeikinAshi.ha_rows_from po pc df_in).
Proof.
  induction candles as [|candle rest IH]; intros df_in self po pc Hpo Hpc Hall;
    inversion Hall as [|? raw ? raws (s & e & Hf) Hrest]; subst;
    cbn [ha_trace HeikinAshi.ha_rows_from map].
  - reflexivity.
  - cbv zeta.
    destruct (process_candle_data_ha_set candle self s e _ _ _ _
                ((po + pc) / 2)%Q Hf) as [Ho Hc].
    { unfold HAFlags.ha_open_of. rewrite Hpo, Hpc. reflexivity. }
    rewrite Ho, Hc. f_equal.
    apply (IH raws _ _ _ Ho Hc Hrest).
Qed.

(** X17. The streaming recurrence of [OrderF_HAFlags.py] and the batch
    computation of [heinki_ashi.py] agree.  A tracker with no Heikin-Ashi
    state that processes, in order, candles carrying the prices of the rows
    of a data frame holds after each candle the Heikin-Ashi open and close
    of the corresponding row of [calculate_heikin_ashi], whatever else
    happens to each candle (buffered trades failing to convert included). *)
Theorem streaming_matches_batch :
  forall (candles : list Candle) (df_in : list HeikinAshi.Row)
         (self : HAFlags.OrderFlowTracker),
    HAFlags.last_ha_open self = None ->
    Forall2 candle_of_row candles df_in ->
    ha_trace candles self
    = map (fun row => (Some (HeikinAshi.r_open row),
                       Some (HeikinAshi.r_close row)))
        (HeikinAshi.calculate_heikin_ashi df_in).
Proof.
  intros candles df_in self Hnone Hall.
  inversion Hall as [|candle raw rest raws (s & e & Hf) Hrest]; subst;
    cbn [ha_trace HeikinAshi.calculate_heikin_ashi map].
  - reflexivity.
  - cbv zeta.
    destruct (process_candle_data_ha_set candle self s e _ _ _ _
                ((HeikinAshi.r_open raw + HeikinAshi.r_close raw) / 2)%Q Hf)
      as [Ho Hc].
    { unfold HAFlags.ha_open_of. rewrite Hnone. reflexivity. }
    rewrite Ho, Hc. f_equal.
    apply (ha_trace_from rest raws _ _ _ Ho Hc Hrest).
Qed.

End StreamingHeikinAshi.

(** ** Running totals of the trade plot *)

Section TradePlotProofs.
Context `{PyRuntime}.




End TradePlotProofs.

(** ** Stale prints and redelivered candles *)

Section StaleAndRedelivered.
Import HAFlags.
Context `{PyRuntime}.

Lemma filter_by_T_app (p : Z -> bool) (l1 l2 k1 k2 : list Trade) :
  filter_by_T p l1 = Some k1 ->
  filter_by_T p l2 = Some k2 ->
  filter_by_T p (l1 ++ l2) = Some (k1 ++ k2).
Proof.
  revert k1. induction l1 as [|t rest IH]; intros k1; cbn [filter_by_T app].
  - intros [= <-] H2. exact H2.
  - destruct (py_int (t_T t)) as [x|]; [|discriminate].
    destruct (filter_by_T p rest) as [k|]; [|discriminate].
    intros [= <-] H2. rewrite (IH k eq_refl H2).
    destruct (p x); reflexivity.
Qed.

(** Prints older than the window: none is extracted, none is kept. *)
Lemma filter_by_T_stale (s e : Z) (stale : list Trade) :
  s <= e ->
  Forall (fun t => exists x, py_int (t_T t) = Some x /\ x < s) stale ->
  filter_by_T (in_window s e) stale = Some []
  /\ filter_by_T (after_window e) stale = Some [].
Proof.
  intro Hse. induction 1 as [|t rest (x & Hx & Hlt) _ [IH1 IH2]];
    cbn [filter_by_T].
  - split; reflexivity.
  - rewrite Hx, IH1, IH2. unfold in_window, after_window.
    replace (s <=? x) with false by (symmetry; apply Z.leb_gt; lia).
    replace (e <? x) with false by (symmetry; apply Z.ltb_ge; lia).
    split; reflexivity.
Qed.

(** X19. Stale prints leave no trace.  Trade prints older than a candle's
    start that are still in the buffer when the candle is processed (prints
    delivered after their own candle was processed, for instance) are
    dropped without being counted: with or without them at the end of the
    buffer, a call of [process_candle_data] that returns logs the same
    records and alerts and leaves the same object. *)
Theorem stale_prints_leave_no_trace :
  forall (candle : Candle) (self : OrderFlowTracker) (stale : list Trade)
         (s e : Z),
    py_int (c_start candle) = Some s ->
    py_int (c_end candle) = Some e ->
    s <= e ->
    Forall (fun t => exists x, py_int (t_T t) = Some x /\ x < s) stale ->
    outcome_of (process_candle_data candle self) = Returned tt ->
    process_candle_data candle
      (set_trade_buffer (trade_buffer self ++ stale) self)
    = process_candle_data candle self.
Proof.
  intros candle self stale s e Hs He Hse Hstale.
  destruct (filter_by_T_stale s e stale Hse Hstale) as [Hin Haf].
  set (self' := set_trade_buffer (trade_buffer self ++ stale) self).
  destruct (process_candle_data_cases candle self)
    as [(_ & ->) | (s' & e' & o & h & l & c & ho & Hf & Hho & Hrest)].
  { discriminate. }
  assert (Hse' : s' = s /\ e' = e).
  { unfold candle_fields in Hf. rewrite Hs, He in Hf.
    destruct (py_float (c_open candle)); [|discriminate].
    destruct (py_float (c_high candle)); [|discriminate].
    destruct (py_float (c_low candle)); [|discriminate].
    destruct (py_float (c_close candle)); [|discriminate].
    injection Hf as <- <- _ _ _ _. split; reflexivity. }
  destruct Hse' as [-> ->].
  cbv zeta in Hrest.
  destruct Hrest as [(_ & ->) | (rel & rest & Hrel & Hafter & Hrest)].
  { discriminate. }
  cbv zeta in Hrest.
  destruct Hrest as [(_ & ->) | (buys & sells & Hbuy & Hsell & Hres)].
  { discriminate. }
  intros _. rewrite Hres.
  destruct (process_candle_data_cases candle self')
    as [([Hnone | (s2 & e2 & o2 & h2 & l2 & c2 & Hf2 & Hno)] & _)
       | (s2 & e2 & o2 & h2 & l2 & c2 & ho2 & Hf2 & Hho2 & Hrest2)].
  { congruence. }
  { rewrite Hf in Hf2. injection Hf2 as <- <- <- <- <- <-.
    change (ha_open_of self' o c) with (ha_open_of self o c) in Hno.
    congruence. }
  rewrite Hf in Hf2. injection Hf2 as <- <- <- <- <- <-.
  change (ha_open_of self' o c) with (ha_open_of self o c) in Hho2.
  rewrite Hho in Hho2. injection Hho2 as <-.
  cbv zeta in Hrest2.
  change (trade_buffer self') with (trade_buffer self ++ stale) in Hrest2.
  pose proof (filter_by_T_app _ _ _ _ _ Hrel Hin) as Hrel2.
  pose proof (filter_by_T_app _ _ _ _ _ Hafter Haf) as Hafter2.
  rewrite !app_nil_r in Hrel2, Hafter2.
  destruct Hrest2 as [(Hbad & _) | (rel2 & rest2 & Hr2 & Ha2 & Hrest2)].
  { congruence. }
  rewrite Hrel2 in Hr2. injection Hr2 as <-.
  rewrite Hafter2 in Ha2. injection Ha2 as <-.
  cbv zeta in Hrest2.
  destruct Hrest2 as [([Hbad | Hbad] & _) | (buys2 & sells2 & Hb2 & Hs2 & ->)].
  { congruence. }
  { congruence. }
  rewrite Hbuy in Hb2. injection Hb2 as <-.
  rewrite Hsell in Hs2. injection Hs2 as <-.
  reflexivity.
Qed.


End StaleAndRedelivered.

(** ** Sizes stored by deltas *)

Section BookSizes.
Import DepthBook.
Context `{PyRuntime}.

Lemma dict_set_no_zero (d : dict) (k : pyval) (v : Q) :
  no_zero_size d -> Qeq_bool v 0 = false -> no_zero_size (dict_set d k v).
Proof.
  unfold no_zero_size. intros Hd Hv.
  induction d as [|[k0 v0] rest IH]; cbn [dict_set].
  - constructor; [exact Hv | constructor].
  - inversion Hd as [|? ? H0 Hrest]; subst.
    destruct (py_eqb k0 k).
    + constructor; [exact Hv | exact Hrest].
    + constructor; [exact H0 | apply IH; exact Hrest].
Qed.

Lemma dict_pop_no_zero (d : dict) (k : pyval) :
  no_zero_size d -> no_zero_size (dict_pop d k).
Proof. apply Forall_filter_keep. Qed.

(** What the two edits of a delta preserve, the loop of
    [OrderF_HAFlags.py] preserves, wherever it stops. *)
Lemma apply_levels_preserves (P : Book -> Prop) (side : Book -> dict)
  (set_side : dict -> Book -> Book) :
  (forall s k, P s -> P (set_side (dict_pop (side s) k) s)) ->
  (forall s k v, P s -> Qeq_bool v 0 = false ->
                 P (set_side (dict_set (side s) k v) s)) ->
  forall (levels : list (pyval * pyval)) (self : Book),
    P self -> P (state_of (apply_levels side set_side levels self)).
Proof.
  intros Hpop Hset.
  induction levels as [|b rest IH]; intros self HP; cbn [apply_levels].
  - exact HP.
  - py_try_as v Ev; [|exact HP].
    destruct (Qeq_bool v 0) eqn:E0; rewrite bind_modify; apply IH; auto.
Qed.

(** The same for the loop of [order_plot2_Linear.py]. *)
Lemma plot_apply_levels_preserves (P : OrderPlot.Plot -> Prop)
  (side : OrderPlot.Plot -> dict)
  (set_side : dict -> OrderPlot.Plot -> OrderPlot.Plot) :
  (forall s k, P s -> P (set_side (dict_pop (side s) k) s)) ->
  (forall s k v, P s -> Qeq_bool v 0 = false ->
                 P (set_side (dict_set (side s) k v) s)) ->
  forall (levels : list (pyval * pyval)) (self : OrderPlot.Plot),
    P self -> P (state_of (OrderPlot.apply_levels side set_side levels self)).
Proof.
  intros Hpop Hset.
  induction levels as [|[p q] rest IH]; intros self HP;
    cbn [OrderPlot.apply_levels].
  - exact HP.
  - py_try_as price Eprice; [|exact HP].
    py_try_as qty Eqty; [|exact HP].
    destruct (Qeq_bool qty 0) eqn:E0; rewrite bind_modify; apply IH; auto.
Qed.

(** A property of the object that both halves of a sequence preserve. *)
Lemma bind_preserves {St L A B : Type} (P : St -> Prop) (m : M St L A)
  (k : A -> M St L B) (self : St) :
  P (state_of (m self)) ->
  (forall a s, P s -> P (state_of (k a s))) ->
  P (state_of (bind m k self)).
Proof.
  intros Hm Hk. unfold bind.
  destruct (m self) as [[s1 l1] [a|]] eqn:Em; cbn in Hm.
  - specialize (Hk a s1 Hm).
    destruct (k a s1) as [[s2 l2] o2]. exact Hk.
  - exact Hm.
Qed.

Lemma try_except_log_state {St L A : Type} (body k : M St L A)
  (self : St) :
  (forall s, state_of (k s) = s) ->
  state_of (try_except body k self) = state_of (body self).
Proof.
  intro Hk. unfold try_except.
  destruct (body self) as [[s1 l1] [a|]]; [reflexivity|].
  specialize (Hk s1). destruct (k s1) as [[s2 l2] o2]. exact Hk.
Qed.

(** X21. Deltas never store a level of size zero.  On a book none of whose
    levels has size zero, a message that is not a snapshot leaves no level
    of size zero on either side, whether its loop gets through all levels
    or stops at one that does not convert.  This holds for the book of
    [OrderF_HAFlags.py] and for the one of [order_plot2_Linear.py]. *)
Theorem delta_never_stores_zero :
  forall message : DepthMessage,
    d_type message <> "snapshot"%string ->
    (forall self : Book,
       no_zero_size (live_bids self) ->
       no_zero_size (live_asks self) ->
       let r := handle_depth_book_message message self in
       no_zero_size (live_bids (state_of r))
       /\ no_zero_size (live_asks (state_of r)))
    /\ (forall self : OrderPlot.Plot,
          no_zero_size (OrderPlot.bids self) ->
          no_zero_size (OrderPlot.asks self) ->
          let r := OrderPlot.handle_orderbook_message message self in
          no_zero_size (OrderPlot.bids (state_of r))
          /\ no_zero_size (OrderPlot.asks (state_of r))).
Proof.
  intros message Htype. apply String.eqb_neq in Htype. split.
  - intros self Hb Ha. cbv zeta.
    unfold handle_depth_book_message. rewrite Htype.
    rewrite (try_except_log_state _ (log (ErrorDepth message)));
      [|reflexivity].
    destruct (String.eqb (d_type message) "delta"); [|split; assumption].
    apply (bind_preserves
             (fun s => no_zero_size (live_bids s)
                       /\ no_zero_size (live_asks s))).
    + apply (apply_levels_preserves
               (fun s => no_zero_size (live_bids s)
                         /\ no_zero_size (live_asks s))).
      * intros s k [H1 H2]. split; [apply dict_pop_no_zero|]; assumption.
      * intros s k v [H1 H2] Hv.
        split; [apply dict_set_no_zero|]; assumption.
      * split; assumption.
    + intros _ s Hs.
      apply (apply_levels_preserves
               (fun s => no_zero_size (live_bids s)
                         /\ no_zero_size (live_asks s))).
      * intros s' k [H1 H2]. split; [|apply dict_pop_no_zero]; assumption.
      * intros s' k v [H1 H2] Hv.
        split; [|apply dict_set_no_zero]; assumption.
      * exact Hs.
  - intros self Hb Ha. cbv zeta.
    unfold OrderPlot.handle_orderbook_message. rewrite Htype.
    destruct (String.eqb (d_type message) "delta"); [|split; assumption].
    rewrite bind_get.
    destruct (negb (OrderPlot.snapshot_received self));
      [split; assumption|].
    apply (bind_preserves
             (fun s => no_zero_size (OrderPlot.bids s)
                       /\ no_zero_size (OrderPlot.asks s))).
    + apply (plot_apply_levels_preserves
               (fun s => no_zero_size (OrderPlot.bids s)
                         /\ no_zero_size (OrderPlot.asks s))).
      * intros s k [H1 H2]. split; [apply dict_pop_no_zero|]; assumption.
      * intros s k v [H1 H2] Hv.
        split; [apply dict_set_no_zero|]; assumption.
      * split; assumption.
    + intros _ s Hs.
      apply (plot_apply_levels_preserves
               (fun s => no_zero_size (OrderPlot.bids s)
                         /\ no_zero_size (OrderPlot.asks s))).
      * intros s' k [H1 H2]. split; [|apply dict_pop_no_zero]; assumption.
      * intros s' k v [H1 H2] Hv.
        split; [|apply dict_set_no_zero]; assumption.
      * exact Hs.
Qed.

End BookSizes.

(** ** Sequencing, given the first half *)

Section BindRun.
Context {St L A B : Type}.

Lemma bind_returned (m : M St L A) (k : A -> M St L B) (self s1 : St)
  (l1 : list L) (a : A) :
  m self = (s1, l1, Returned a) ->
  bind m k self
  = (state_of (k a s1), l1 ++ logs_of (k a s1), outcome_of (k a s1)).
Proof.
  intro Hm. unfold bind. rewrite Hm.
  destruct (k a s1) as [[s2 l2] o2]. reflexivity.
Qed.

Lemma bind_raised (m : M St L A) (k : A -> M St L B) (self s1 : St)
  (l1 : list L) :
  m self = (s1, l1, Raised) ->
  bind m k self = (s1, l1, Raised).
Proof. intro Hm. unfold bind. rewrite Hm. reflexivity. Qed.

End BindRun.

(** ** The book of the depth chart *)

Section OrderPlotProofs.
Import DepthBook OrderPlot.
Context `{PyRuntime}.

Lemma plot_bids_lens :
  (forall d s, bids (set_bids d s) = d)
  /\ (forall d d' s, set_bids d (set_bids d' s) = set_bids d s)
  /\ (forall s, set_bids (bids s) s = s).
Proof. repeat split; intros; try destruct s; reflexivity. Qed.

Lemma plot_asks_lens :
  (forall d s, asks (set_asks d s) = d)
  /\ (forall d d' s, set_asks d (set_asks d' s) = set_asks d s)
  /\ (forall s, set_asks (asks s) s = s).
Proof. repeat split; intros; try destruct s; reflexivity. Qed.

(** The loop of a snapshot over one side: it stores the levels in order
    and raises at the first one whose price or size does not convert,
    keeping what it has stored. *)
Lemma store_levels_run (side : Plot -> dict)
  (set_side : dict -> Plot -> Plot) :
  (forall d s, side (set_side d s) = d) ->
  (forall d d' s, set_side d (set_side d' s) = set_side d s) ->
  (forall s, set_side (side s) s = s) ->
  forall (levels : list (pyval * pyval)) (self : Plot),
    (forall sizes,
       float_levels levels = Some sizes ->
       exists d,
         store_levels side set_side levels self
         = (set_side d self, [], Returned tt)
         /\ forall k, dict_get d k
                      = match last_size sizes k with
                        | Some v => Some v
                        | None => dict_get (side self) k
                        end)
    /\ (forall pre bad post sizes,
          levels = pre ++ bad :: post ->
          float_levels pre = Some sizes ->
          py_float (fst bad) = None \/ py_float (snd bad) = None ->
          exists d,
            store_levels side set_side levels self
            = (set_side d self, [], Raised)
            /\ forall k, dict_get d k
                         = match last_size sizes k with
                           | Some v => Some v
                           | None => dict_get (side self) k
                           end).
Proof.
  intros Hget Hset Heta.
  induction levels as [|[p q] rest IH]; intros self.
  - split.
    + intros sizes [= <-]. exists (side self). cbn [store_levels].
      rewrite Heta. split; reflexivity.
    + intros [|? ?] bad post sizes; discriminate.
  - cbn [store_levels float_levels]. split.
    + intros sizes.
      destruct (py_float p) as [price|]; [|discriminate].
      destruct (py_float q) as [qty|]; [|discriminate].
      destruct (float_levels rest) as [vs|] eqn:Evs; [|discriminate].
      intros [= <-]. rewrite !bind_try_some, bind_modify.
      destruct (proj1 (IH (set_side (dict_set (side self) (PFloat price)
                                       qty) self)) vs eq_refl)
        as (d & Hrun & Hlook).
      exists d. rewrite Hrun, Hset. split; [reflexivity|].
      intro k. rewrite Hlook, Hget, dict_get_set. cbn [last_size].
      destruct (last_size vs k); [reflexivity|].
      destruct (py_eqb (PFloat price) k); reflexivity.
    + intros [|[p' q'] pre] bad post sizes.
      * intros [= <- <-] [= <-] Hbad. cbn [fst snd] in Hbad.
        exists (side self). rewrite Heta.
        split; [|reflexivity].
        destruct (py_float q) as [qty|]; [|reflexivity].
        rewrite bind_try_some.
        destruct Hbad as [Hbad|Hbad]; [|discriminate].
        rewrite Hbad. reflexivity.
      * intros [= <- <- ->]. cbn [float_levels].
        destruct (py_float p) as [price|]; [|discriminate].
        destruct (py_float q) as [qty|]; [|discriminate].
        destruct (float_levels pre) as [vs|] eqn:Evs; [|discriminate].
        intros [= <-] Hbad. rewrite !bind_try_some, bind_modify.
        destruct (proj2 (IH (set_side (dict_set (side self) (PFloat price)
                                         qty) self))
                    pre bad post vs eq_refl Evs Hbad)
          as (d & Hrun & Hlook).
        exists d. rewrite Hrun, Hset. split; [reflexivity|].
        intro k. rewrite Hlook, Hget, dict_get_set. cbn [last_size].
        destruct (last_size vs k); [reflexivity|].
        destruct (py_eqb (PFloat price) k); reflexivity.
Qed.

(** X22. A snapshot of the depth chart empties the book before it converts
    anything.  When every price and size converts, the handler returns,
    prints its line, sets [snapshot_received], and a price looks up to the
    size of its last level in the snapshot, or to nothing.  When a bid level
    does not convert, the call raises with nothing printed and the flag as
    it was, the asks empty and the bids holding only the levels before the
    failing one; when all bids convert and an ask level does not, the bids
    are the snapshot's and the asks hold only the levels before the
    failing one.  What the book held before is gone in every case. *)
Theorem plot_snapshot_empties_book_first :
  forall (message : DepthMessage) (self : Plot),
    d_type message = "snapshot"%string ->
    let r := handle_orderbook_message message self in
    (forall bids' asks',
       float_levels (d_b message) = Some bids' ->
       float_levels (d_a message) = Some asks' ->
       outcome_of r = Returned tt
       /\ logs_of r = [PrintSnapshotReceived]
       /\ snapshot_received (state_of r) = true
       /\ (forall k, dict_get (bids (state_of r)) k = last_size bids' k)
       /\ (forall k, dict_get (asks (state_of r)) k = last_size asks' k))
    /\ (forall pre bad post sizes,
          float_levels pre = Some sizes ->
          py_float (fst bad) = None \/ py_float (snd bad) = None ->
          (d_b message = pre ++ bad :: post ->
           outcome_of r = Raised
           /\ logs_of r = []
           /\ snapshot_received (state_of r) = snapshot_received self
           /\ (forall k, dict_get (bids (state_of r)) k = last_size sizes k)
           /\ asks (state_of r) = [])
          /\ (forall bids',
                float_levels (d_b message) = Some bids' ->
                d_a message = pre ++ bad :: post ->
                outcome_of r = Raised
                /\ logs_of r = []
                /\ snapshot_received (state_of r) = snapshot_received self
                /\ (forall k, dict_get (bids (state_of r)) k
                              = last_size bids' k)
                /\ (forall k, dict_get (asks (state_of r)) k
                              = last_size sizes k))).
Proof.
  intros message self Htype. cbv zeta.
  unfold handle_orderbook_message. rewrite Htype.
  change (String.eqb "snapshot" "snapshot") with true. cbv iota.
  rewrite !bind_modify.
  destruct plot_bids_lens as (Hb1 & Hb2 & Hb3).
  destruct plot_asks_lens as (Ha1 & Ha2 & Ha3).
  set (s0 := set_asks [] (set_bids [] self)).
  pose proof (store_levels_run bids set_bids Hb1 Hb2 Hb3 (d_b message) s0)
    as [Hbok Hbbad].
  split; [|intros pre bad post sizes Hpre Hbad; split].
  - intros bids' asks' Hb Ha.
    destruct (Hbok bids' Hb) as (db & Hrunb & Hlookb).
    pose proof (store_levels_run asks set_asks Ha1 Ha2 Ha3 (d_a message)
                  (set_bids db s0)) as [Haok _].
    destruct (Haok asks' Ha) as (da & Hruna & Hlooka).
    rewrite (bind_returned _ _ _ _ _ _ Hrunb).
    rewrite (bind_returned _ _ _ _ _ _ Hruna).
    rewrite bind_modify. unfold log.
    rewrite !state_of_mk, !logs_of_mk, !outcome_of_mk.
    cbn [app bids asks snapshot_received set_bids set_asks
           set_snapshot_received].
    do 3 (split; [reflexivity|]).
    split; intro k.
    + rewrite Hlookb. destruct (last_size bids' k); reflexivity.
    + rewrite Hlooka. destruct (last_size asks' k); reflexivity.
  - intro Hb.
    destruct (Hbbad pre bad post sizes Hb Hpre Hbad) as (db & Hrunb & Hlookb).
    rewrite (bind_raised _ _ _ _ _ Hrunb).
    rewrite !state_of_mk, !logs_of_mk, !outcome_of_mk.
    cbn [app bids asks snapshot_received set_bids set_asks].
    do 3 (split; [reflexivity|]).
    split; [|reflexivity].
    intro k. rewrite Hlookb. destruct (last_size sizes k); reflexivity.
  - intros bids' Hb Ha.
    destruct (Hbok bids' Hb) as (db & Hrunb & Hlookb).
    pose proof (store_levels_run asks set_asks Ha1 Ha2 Ha3 (d_a message)
                  (set_bids db s0)) as [_ Habad].
    destruct (Habad pre bad post sizes Ha Hpre Hbad) as (da & Hruna & Hlooka).
    rewrite (bind_returned _ _ _ _ _ _ Hrunb).
    rewrite (bind_raised _ _ _ _ _ Hruna).
    rewrite !state_of_mk, !logs_of_mk, !outcome_of_mk.
    cbn [app bids asks snapshot_received set_bids set_asks].
    do 3 (split; [reflexivity|]).
    split; intro k.
    + rewrite Hlookb. destruct (last_size bids' k); reflexivity.
    + rewrite Hlooka. destruct (last_size sizes k); reflexivity.
Qed.

(** Before the first snapshot a message that is not one is dropped. *)
Lemma handle_without_snapshot (message : DepthMessage) (self : Plot) :
  snapshot_received self = false ->
  d_type message <> "snapshot"%string ->
  handle_orderbook_message message self = (self, [], Returned tt).
Proof.
  intros Hflag Htype. apply String.eqb_neq in Htype.
  unfold handle_orderbook_message. rewrite Htype.
  destruct (String.eqb (d_type message) "delta"); [|reflexivity].
  rewrite bind_get, Hflag. reflexivity.
Qed.

(** X23. The depth chart waits for a snapshot.  As long as no snapshot has
    been received, any sequence of messages that are not snapshots is
    handled without a conversion: no call raises, even on levels that
    would not convert, nothing is printed, and the book and the flag stay
    as they were. *)
Theorem deltas_wait_for_snapshot :
  forall (ms : list DepthMessage) (self : Plot),
    snapshot_received self = false ->
    Forall (fun m => d_type m <> "snapshot"%string) ms ->
    run ms self = (self, [], Returned tt).
Proof.
  intros ms self Hflag Hall. induction Hall as [|m rest Hm _ IH].
  - reflexivity.
  - cbn [run]. unfold bind.
    rewrite (handle_without_snapshot m self Hflag Hm), IH. reflexivity.
Qed.


End OrderPlotProofs.

(** ** The best-bid-offer statistics *)

Section BboStatsProofs.
Import DepthBook BboStats.
Context `{PyRuntime}.

(** A message is skipped, or reported as an error, or queued; the globals
    change in the last case only. *)
Lemma handle_bbo_cases (now : Q) (message : DepthMessage) (self : Stats) :
  let r := handle_bbo_message now message self in
  (r = (self, [], Returned tt)
   /\ (d_type message <> "snapshot"%string
       \/ d_b message = [] \/ d_a message = []))
  \/ (r = (self, [PrintError message], Returned tt)
      /\ exists bid ask bids_rest asks_rest,
           d_type message = "snapshot"%string
           /\ d_b message = bid :: bids_rest
           /\ d_a message = ask :: asks_rest
           /\ (py_float (fst bid) = None \/ py_float (snd bid) = None
               \/ py_float (fst ask) = None \/ py_float (snd ask) = None))
  \/ exists bid ask bids_rest asks_rest bid_price bid_size ask_price ask_size,
       d_type message = "snapshot"%string
       /\ d_b message = bid :: bids_rest
       /\ d_a message = ask :: asks_rest
       /\ py_float (fst bid) = Some bid_price
       /\ py_float (snd bid) = Some bid_size
       /\ py_float (fst ask) = Some ask_price
       /\ py_float (snd ask) = Some ask_size
       /\ r = ({| bbo_updates :=
                    bbo_updates self
                    ++ [ {| u_time := now;
                            mid_price := (ask_price + bid_price) / 2.0;
                            spread := ask_price - bid_price;
                            imbalance_ratio :=
                              if Qlt_bool 0 (bid_size + ask_size)
                              then bid_size / (bid_size + ask_size)
                              else 0.5;
                            bid_tick :=
                              negb (Qeq_bool bid_price
                                      (last_bid_price self));
                            ask_tick :=
                              negb (Qeq_bool ask_price
                                      (last_ask_price self)) |} ];
                  last_bid_price := bid_price;
                  last_ask_price := ask_price |},
               [], Returned tt).
Proof.
  cbv zeta. unfold handle_bbo_message.
  destruct (String.eqb (d_type message) "snapshot") eqn:Etype.
  2:{ left. split; [reflexivity|]. left. apply String.eqb_neq. exact Etype. }
  apply String.eqb_eq in Etype.
  destruct (d_b message) as [|bid bids_rest] eqn:Eb.
  { left. split; [reflexivity|]. right. left. reflexivity. }
  destruct (d_a message) as [|ask asks_rest] eqn:Ea.
  { left. split; [reflexivity|]. right. right. reflexivity. }
  right. unfold try_except.
  py_try_as bid_price Ebp.
  2:{ left. split; [reflexivity|]. exists bid, ask, bids_rest, asks_rest.
      repeat split; auto. }
  py_try_as bid_size Ebs.
  2:{ left. split; [reflexivity|]. exists bid, ask, bids_rest, asks_rest.
      repeat split; auto. }
  py_try_as ask_price Eap.
  2:{ left. split; [reflexivity|]. exists bid, ask, bids_rest, asks_rest.
      repeat split; auto. }
  py_try_as ask_size Eas.
  2:{ left. split; [reflexivity|]. exists bid, ask, bids_rest, asks_rest.
      repeat split; auto 6. }
  right. cbv zeta. rewrite bind_get, !bind_modify.
  exists bid, ask, bids_rest, asks_rest, bid_price, bid_size, ask_price,
    ask_size.
  repeat split; auto.
Qed.

Lemma handle_bbo_returns (now : Q) (message : DepthMessage) (self : Stats) :
  handle_bbo_message now message self
  = (state_of (handle_bbo_message now message self),
     logs_of (handle_bbo_message now message self), Returned tt).
Proof.
  destruct (handle_bbo_cases now message self)
    as [[Hr _]|[[Hr _]|(bid & ask & bids_rest & asks_rest & bid_price
                        & bid_size & ask_price & ask_size & _ & _ & _ & _
                        & _ & _ & _ & Hr)]];
    cbv zeta in Hr; rewrite Hr; reflexivity.
Qed.


(** *** The loop that empties the queue *)

Lemma drain_suffix (s e : Q) (queue : list Update) :
  exists dropped, queue = dropped ++ snd (drain s e queue).
Proof.
  induction queue as [|u rest IH]; cbn [drain].
  - exists []. reflexivity.
  - destruct (Qlt_bool (u_time u) e).
    + destruct IH as [dropped Hd]. exists (u :: dropped).
      cbn [snd app]. f_equal. exact Hd.
    + exists []. reflexivity.
Qed.



Lemma process_and_report_run (s e : Q) (self : Stats) :
  process_and_report s e self
  = (set_bbo_updates (snd (drain s e (bbo_updates self))) self,
     [match fst (drain s e (bbo_updates self)) with
      | [] => PrintNoUpdates
      | _ :: _ =>
          PrintReport (report_of (fst (drain s e (bbo_updates self))))
      end],
     Returned tt).
Proof.
  unfold process_and_report. rewrite bind_get. cbv zeta.
  rewrite bind_modify.
  destruct (fst (drain s e (bbo_updates self))); reflexivity.
Qed.

Lemma step_returns (ev : Event) (self : Stats) :
  step ev self
  = (state_of (step ev self), logs_of (step ev self), Returned tt).
Proof.
  destruct ev as [now message|s e]; cbn [step].
  - apply handle_bbo_returns.
  - rewrite process_and_report_run. reflexivity.
Qed.

Lemma run_cons (ev : Event) (rest : list Event) (self : Stats) :
  run (ev :: rest) self
  = (state_of (run rest (state_of (step ev self))),
     logs_of (step ev self) ++ logs_of (run rest (state_of (step ev self))),
     outcome_of (run rest (state_of (step ev self)))).
Proof.
  cbn [run].
  exact (bind_returned (step ev) (fun _ => run rest) self _ _ tt
           (step_returns ev self)).
Qed.



(** *** The tick flags *)

Lemma Qeq_bool_Qeq (x y x' y' : Q) :
  (x == x')%Q -> (y == y')%Q -> Qeq_bool x y = Qeq_bool x' y'.
Proof.
  intros Hx Hy.
  destruct (Qeq_bool x' y') eqn:E.
  - apply Qeq_bool_iff. apply Qeq_bool_iff in E. rewrite Hx, Hy. exact E.
  - destruct (Qeq_bool x y) eqn:E'; [|reflexivity].
    apply Qeq_bool_iff in E'. rewrite Hx, Hy in E'.
    apply Qeq_bool_iff in E'. congruence.
Qed.

Lemma ticks_from_Qeq (b a b' a' : Q) (queue : list Update) :
  (b == b')%Q -> (a == a')%Q ->
  ticks_from b a queue -> ticks_from b' a' queue.
Proof.
  intros Hb Ha. destruct queue as [|u rest]; cbn [ticks_from].
  - trivial.
  - intros (Hbid & Hask & Hrest).
    rewrite <- (Qeq_bool_Qeq _ b _ b' (Qeq_refl _) Hb).
    rewrite <- (Qeq_bool_Qeq _ a _ a' (Qeq_refl _) Ha).
    auto.
Qed.






(** *** The queue in clock order *)

Lemma nondecreasing_app (xs ys : list Q) :
  nondecreasing (xs ++ ys)
  <-> nondecreasing xs /\ nondecreasing ys
      /\ Forall (fun x => Forall (fun y => (x <= y)%Q) ys) xs.
Proof.
  induction xs as [|x rest IH]; cbn [app nondecreasing].
  - split; [intro Hys; repeat split; [exact Hys | constructor] | tauto].
  - rewrite IH, Forall_app. split.
    + intros ((Hrest & Hys) & Hnd & Hnd' & Hall).
      repeat split; try assumption. constructor; assumption.
    + intros ((Hrest & Hnd) & Hnd' & Hall).
      inversion Hall as [|? ? Hys Hall']; subst. tauto.
Qed.

Lemma nondecreasing_suffix (xs ys : list Q) :
  nondecreasing (xs ++ ys) -> nondecreasing ys.
Proof. rewrite nondecreasing_app. tauto. Qed.

Lemma nondecreasing_without (xs : list Q) (y : Q) (zs : list Q) :
  nondecreasing (xs ++ y :: zs) -> nondecreasing (xs ++ zs).
Proof.
  rewrite !nondecreasing_app. cbn [nondecreasing].
  intros (Hxs & (_ & Hzs) & Hall). repeat split; try assumption.
  eapply Forall_impl; [|exact Hall].
  intros x Hx. inversion Hx; assumption.
Qed.

Lemma step_clock_order (ev : Event) (rest : list Event) (self : Stats) :
  nondecreasing (map u_time (bbo_updates self)
                 ++ clock_readings (ev :: rest)) ->
  nondecreasing (map u_time (bbo_updates (state_of (step ev self)))
                 ++ clock_readings rest).
Proof.
  destruct ev as [now message|s e]; cbn [step clock_readings flat_map app].
  - destruct (handle_bbo_cases now message self)
      as [[Hr _]|[[Hr _]|(bid & ask & bids_rest & asks_rest & bid_price
                          & bid_size & ask_price & ask_size & _ & _ & _ & _
                          & _ & _ & _ & Hr)]];
      cbv zeta in Hr; rewrite Hr, state_of_mk.
    + apply nondecreasing_without.
    + apply nondecreasing_without.
    + cbn [bbo_updates]. rewrite map_app, <- app_assoc. cbn [map u_time app].
      trivial.
  - rewrite process_and_report_run, state_of_mk.
    cbn [set_bbo_updates bbo_updates].
    destruct (drain_suffix s e (bbo_updates self)) as [dropped Hd].
    rewrite Hd at 1. rewrite map_app, <- app_assoc.
    apply nondecreasing_suffix.
Qed.

Lemma run_clock_order (evs : list Event) :
  forall self,
    nondecreasing (map u_time (bbo_updates self) ++ clock_readings evs) ->
    nondecreasing (map u_time (bbo_updates (state_of (run evs self)))).
Proof.
  induction evs as [|ev rest IH]; intros self Hnd.
  - cbn [clock_readings flat_map] in Hnd. rewrite app_nil_r in Hnd.
    exact Hnd.
  - rewrite run_cons, state_of_mk. apply IH, step_clock_order, Hnd.
Qed.

Lemma filter_all_late (s e : Q) (queue : list Update) :
  Forall (fun u => (e <= u_time u)%Q) queue ->
  filter (in_period s e) queue = []
  /\ filter (not_before e) queue = queue.
Proof.
  induction 1 as [|u rest Hu _ [IH1 IH2]]; cbn [filter].
  - split; reflexivity.
  - unfold in_period, not_before.
    rewrite (proj2 (Qlt_bool_false (u_time u) e) Hu), andb_false_r.
    cbn [negb]. fold (in_period s e). fold (not_before e).
    rewrite IH1, IH2. split; reflexivity.
Qed.

(** On a queue in clock order the loop takes the minute and leaves what is
    not older than its end. *)
Lemma drain_clock_order (s e : Q) (queue : list Update) :
  nondecreasing (map u_time queue) ->
  drain s e queue
  = (filter (in_period s e) queue, filter (not_before e) queue).
Proof.
  induction queue as [|u rest IH]; cbn [map nondecreasing drain filter].
  - reflexivity.
  - intros [Hle Hnd].
    unfold in_period at 1, not_before at 1.
    destruct (Qlt_bool (u_time u) e) eqn:E.
    + rewrite (IH Hnd), andb_true_r. cbn [fst snd negb].
      destruct (Qle_bool s (u_time u)); reflexivity.
    + rewrite andb_false_r. cbn [negb].
      apply Qlt_bool_false in E.
      destruct (filter_all_late s e rest) as [H1 H2].
      { rewrite Forall_map in Hle. eapply Forall_impl; [|exact Hle].
        intros v Hv. cbv beta in Hv.
        apply (Qle_trans _ (u_time u)); assumption. }
      rewrite H1, H2. reflexivity.
Qed.

(** X27. A report takes its minute when the clock never runs backwards.
    After any sequence of messages and reports in which the clock readings
    of the messages never decrease, the queue is in clock order, and a
    report then pops every update older than the end of its period, keeps
    for the summary exactly those of them not older than its start, and
    leaves the others in the queue; it prints the summary of those kept,
    or the line for a minute without updates when there are none. *)
Theorem report_takes_its_minute_in_clock_order :
  forall (evs : list Event) (period_start_ts period_end_ts : Q),
    nondecreasing (clock_readings evs) ->
    let self := state_of (run evs init) in
    let r := process_and_report period_start_ts period_end_ts self in
    let taken :=
      filter (in_period period_start_ts period_end_ts) (bbo_updates self) in
    nondecreasing (map u_time (bbo_updates self))
    /\ outcome_of r = Returned tt
    /\ bbo_updates (state_of r)
       = filter (not_before period_end_ts) (bbo_updates self)
    /\ last_bid_price (state_of r) = last_bid_price self
    /\ last_ask_price (state_of r) = last_ask_price self
    /\ (taken = [] -> logs_of r = [PrintNoUpdates])
    /\ (taken <> [] -> logs_of r = [PrintReport (report_of taken)]).
Proof.
  intros evs s e Hclock. cbv zeta.
  assert (Hnd : nondecreasing
                  (map u_time (bbo_updates (state_of (run evs init))))).
  { apply run_clock_order. exact Hclock. }
  split; [exact Hnd|].
  rewrite process_and_report_run, (drain_clock_order s e _ Hnd).
  rewrite state_of_mk, logs_of_mk, outcome_of_mk. cbn [fst snd].
  do 4 (split; [reflexivity|]).
  split.
  - intros ->. reflexivity.
  - intro Hne.
    destruct (filter (in_period s e)
                (bbo_updates (state_of (run evs init)))) eqn:E;
      [congruence | reflexivity].
Qed.

(** *** The figures of a summary *)









End BboStatsProofs.

(** ** Instances *)

(** A Red candle after a streak of three. *)
Lemma red_candle_resets_witness :
  HAFlags.ha_green_streak
    (state_of (HAFlags._run_trade_setup_logic falling_red streak_of_three))
  = 0.
Proof.
  exact (proj1 (red_candle_resets streak_of_three falling_red eq_refl)).
Defined.

(** A weak fourth Green candle opens the watch. *)
Lemma consolidation_watch_steps_witness :
  HAFlags.consolidation_watch_countdown
    (state_of (HAFlags._run_trade_setup_logic weak_green streak_of_three))
  = 3.
Proof.
  destruct (consolidation_watch_steps streak_of_three weak_green eq_refl
              eq_refl ltac:(cbn; lia)) as (_ & _ & H3 & _).
  exact (proj1 (H3 eq_refl)).
Defined.

(** Three strong Green candles, then a fourth: the alert comes on the
    fourth candle of the streak. *)
Lemma alerts_on_fourth_to_seventh_green_witness :
  HAFlags.HA_color strong_green = HAFlags.Green
  /\ 3 <= HAFlags.ha_green_streak
            (fst (setup_run [strong_green; strong_green; strong_green]
                    HAFlags.init)) <= 6.
Proof.
  destruct (proj2 (proj1 alerts_on_fourth_to_seventh_green
                     [strong_green; strong_green; strong_green]
                     strong_green))
    as (Hg & Hr & _).
  - vm_compute. discriminate.
  - split; [exact Hg | exact Hr].
Defined.

(** A strong fourth Green candle, then four more. *)
Lemma four_candles_silent_after_alert_witness :
  Forall (fun l => HAFlags.alerts l = [])
    (snd (setup_run [strong_green; strong_green; strong_green; strong_green]
            (HAFlags.set_last_candle_data (Some strong_green)
               (state_of
                  (HAFlags._run_trade_setup_logic strong_green
                     streak_of_three))))).
Proof.
  apply (proj1 four_candles_silent_after_alert streak_of_three strong_green).
  - vm_compute. discriminate.
  - cbn. lia.
Defined.



(** The first candle on a fresh tracker: no print, no BBO update. *)
Lemma empty_window_defaults_witness :
  exists d,
    HAFlags.last_candle_data
      (state_of (@HAFlags.process_candle_data decimal_runtime first_candle
                   HAFlags.init)) = Some d
    /\ (HAFlags.agg_ratio d == 0.5)%Q
    /\ (HAFlags.avg_bbo_imba d == 0.5)%Q.
Proof.
  destruct (@empty_window_defaults decimal_runtime first_candle HAFlags.init
              60000 119999 100 112 100 110 eq_refl eq_refl)
    as (d & Hlast & _ & Hagg & Hbbo).
  exists d. split; [exact Hlast|].
  split; [apply Hagg; constructor | apply Hbbo; reflexivity].
Defined.




(** The first candle of a tracker with a history of 100. *)
Lemma zscore_zero_without_history_witness :
  Forall (fun out => (Exhaust.cvd_zscore_ratio out == 0)%Q)
    (logs_of (@Exhaust.handle decimal_runtime
                (Exhaust.KlineMessage [first_candle]) (Exhaust.init 100))).
Proof.
  apply Forall_forall. intros out Hin.
  apply (@zscore_zero_without_history decimal_runtime 100 []
           (Exhaust.KlineMessage [first_candle]) out).
  - exact Hin.
  - left. reflexivity.
Defined.


(** Minute 1 in both trackers. *)
Lemma trackers_agree_on_window_witness :
  exists d out,
    HAFlags.last_candle_data
      (state_of (@HAFlags.process_candle_data decimal_runtime first_candle
                   tracker_with_first_prints)) = Some d
    /\ logs_of (@Exhaust.process_candle_data decimal_runtime first_candle
                  exhaust_with_first_prints) = [out]
    /\ HAFlags.agg_ratio d = Exhaust.agg_ratio out.
Proof.
  destruct (@trackers_agree_on_window decimal_runtime first_candle
              tracker_with_first_prints exhaust_with_first_prints
              eq_refl eq_refl eq_refl)
    as (d & out & Hd & _ & Hout & _ & _ & Hagg & _).
  exists d, out. repeat split; assumption.
Defined.

(** The sample snapshot on an empty book. *)
Lemma snapshot_replaces_book_witness :
  DepthBook.is_book_ready book_after_snapshot = true
  /\ DepthBook.dict_get (DepthBook.live_bids book_after_snapshot)
       (PStr "0.2499") = Some 40%Q.
Proof.
  destruct (@snapshot_replaces_book decimal_runtime sample_snapshot
              DepthBook.init eq_refl) as (_ & Hok & _).
  destruct (Hok _ _ eq_refl eq_refl) as (_ & Hready & Hbids & _).
  split; [exact Hready|]. rewrite Hbids. reflexivity.
Defined.

(** The sample delta on the book of the sample snapshot. *)
Lemma delta_edits_book_witness :
  let book := state_of (@DepthBook.handle_depth_book_message decimal_runtime
                          sample_delta book_after_snapshot) in
  DepthBook.dict_get (DepthBook.live_bids book) (PStr "0.2500") = None
  /\ DepthBook.dict_get (DepthBook.live_bids book) (PStr "0.2499")
     = Some 55%Q
  /\ DepthBook.dict_get (DepthBook.live_bids book) (PStr "0.2498")
     = Some 10%Q
  /\ DepthBook.dict_get (DepthBook.live_asks book) (PStr "0.2501")
     = Some 70%Q.
Proof.
  cbv zeta.
  destruct (proj1 (@delta_edits_book decimal_runtime sample_delta
                     book_after_snapshot) eq_refl _ _ eq_refl eq_refl)
    as (_ & _ & _ & Hbids & Hasks).
  rewrite !Hbids, Hasks. repeat split.
Defined.

(** The broken delta on the book of the sample snapshot: the first bid
    level is applied, the third bid level and the ask level are not. *)
Lemma delta_failure_keeps_earlier_levels_witness :
  let book := state_of (@DepthBook.handle_depth_book_message decimal_runtime
                          broken_delta book_after_snapshot) in
  DepthBook.dict_get (DepthBook.live_bids book) (PStr "0.2500") = None
  /\ DepthBook.dict_get (DepthBook.live_bids book) (PStr "0.2498") = None
  /\ DepthBook.live_asks book = DepthBook.live_asks book_after_snapshot.
Proof.
  cbv zeta.
  destruct (proj1 (@delta_failure_keeps_earlier_levels decimal_runtime
                     broken_delta book_after_snapshot
                     [(PStr "0.2500", PStr "0")]
                     [(PStr "0.2498", PStr "10")]
                     (PStr "0.2499", PStr "n/a")
                     [(PStr "0.2500", 0%Q)]
                     eq_refl eq_refl eq_refl) eq_refl)
    as (_ & _ & Hbids & Hasks & _).
  rewrite !Hbids. split; [reflexivity|]. split; [reflexivity | exact Hasks].
Defined.


(** Minutes 1 and 2, streamed and in one batch. *)
Lemma streaming_matches_batch_witness :
  @ha_trace decimal_runtime [first_candle; second_candle] HAFlags.init
  = map (fun row => (Some (HeikinAshi.r_open row),
                     Some (HeikinAshi.r_close row)))
      (HeikinAshi.calculate_heikin_ashi sample_rows).
Proof.
  apply (@streaming_matches_batch decimal_runtime).
  - reflexivity.
  - repeat constructor; do 2 eexists; reflexivity.
Defined.


(** Minute 1 with a print from before the minute left in the buffer. *)
Lemma stale_prints_leave_no_trace_witness :
  @HAFlags.process_candle_data decimal_runtime first_candle
    (HAFlags.set_trade_buffer
       (HAFlags.trade_buffer tracker_with_first_prints ++ [stale_print])
       tracker_with_first_prints)
  = @HAFlags.process_candle_data decimal_runtime first_candle
      tracker_with_first_prints.
Proof.
  apply (@stale_prints_leave_no_trace decimal_runtime first_candle
           tracker_with_first_prints [stale_print] 60000 119999).
  - reflexivity.
  - reflexivity.
  - lia.
  - repeat constructor. exists 1000. split; [reflexivity | lia].
  - reflexivity.
Defined.


Ltac sample_no_zero :=
  unfold no_zero_size; vm_compute;
  repeat (apply Forall_cons; [reflexivity|]); apply Forall_nil.

(** The sample delta on the book of the sample snapshot. *)
Lemma delta_never_stores_zero_witness :
  no_zero_size
    (DepthBook.live_bids
       (state_of (@DepthBook.handle_depth_book_message decimal_runtime
                    sample_delta book_after_snapshot)))
  /\ no_zero_size
       (DepthBook.live_asks
          (state_of (@DepthBook.handle_depth_book_message decimal_runtime
                       sample_delta book_after_snapshot))).
Proof.
  apply (proj1 (@delta_never_stores_zero decimal_runtime sample_delta
                  ltac:(discriminate))).
  - sample_no_zero.
  - sample_no_zero.
Defined.

(** The sample snapshot on the empty book of the depth chart. *)
Lemma plot_snapshot_empties_book_first_witness :
  OrderPlot.snapshot_received plot_after_snapshot = true
  /\ DepthBook.dict_get (OrderPlot.bids plot_after_snapshot)
       (PFloat 0.2499) = Some 40%Q.
Proof.
  destruct (proj1 (@plot_snapshot_empties_book_first decimal_runtime
                     sample_snapshot OrderPlot.init eq_refl)
              _ _ eq_refl eq_refl)
    as (_ & _ & Hflag & Hbids & _).
  split; [exact Hflag|]. unfold plot_after_snapshot.
  rewrite Hbids. reflexivity.
Defined.

(** Two deltas before any snapshot, one of them unreadable. *)
Lemma deltas_wait_for_snapshot_witness :
  @OrderPlot.run decimal_runtime [sample_delta; broken_delta] OrderPlot.init
  = (OrderPlot.init, [], Returned tt).
Proof.
  apply (@deltas_wait_for_snapshot decimal_runtime).
  - reflexivity.
  - apply Forall_cons; [discriminate|].
    apply Forall_cons; [discriminate|]. apply Forall_nil.
Defined.





(** Two quotes at seconds 1 and 2, reported for the minute from 0 to 60:
    the queue is left empty. *)
Lemma report_takes_its_minute_in_clock_order_witness :
  BboStats.bbo_updates
    (state_of
       (BboStats.process_and_report 0 60
          (state_of (@BboStats.run decimal_runtime two_quotes
                       BboStats.init))))
  = [].
Proof.
  destruct (@report_takes_its_minute_in_clock_order decimal_runtime
              two_quotes 0 60)
    as (_ & _ & Hleft & _).
  - cbn. repeat split; repeat constructor; discriminate.
  - rewrite Hleft. reflexivity.
Defined.

